(** * BATCAVE task rewards and task lifecycle

    A shallow embedding of the task part and the goal part of
    [server/storage.ts] ([MemStorage], [DatabaseStorage]), of the task and
    goal schemas of [shared/schema.ts] and of the task and goal routes of
    [server/routes.ts], together with the properties of the reward
    calculator, of the completion state machine and of the goal routes.

    Conventions of the embedding.
    - A JavaScript number is a [number]: an IEEE 754 binary64 value, with
      the arithmetic of the standard library's [SpecFloat] (round to nearest,
      ties to even), signed zeros, infinities and one NaN.
    - A JavaScript string is a [string] of bytes, its UTF-8 encoding.
    - A [Date] is its time value in milliseconds; the invalid date is
      [None] where it can occur.
    - [new Date()] and [randomUUID()] are inputs of the operations that
      evaluate them.
    - An optional key of an object is an [option]: [None] is an absent key.
      A key that may also hold [null] is an [option (option _)]. *)

From Stdlib Require Import ZArith Ascii String QArith Qround.
From Corelib Require Import SpecFloat.
From stdpp Require Import gmap strings sorting.

Local Open Scope string_scope.
Local Open Scope Z_scope.

(** ** JavaScript numbers *)

Definition number : Type := spec_float.

(** The precision and the exponent bound of binary64. *)
Definition prec : Z := 53.
Definition emax : Z := 1024.

Definition NaN : number := S754_nan.
Definition Infinity (negative : bool) : number := S754_infinity negative.

(** The number nearest to [± m × 10^k], for [m >= 0]: the value of a
    decimal literal of digits [m] and exponent [k]. *)
Definition of_decimal (negative : bool) (m k : Z) : number :=
  match m with
  | Z.pos p =>
      if 0 <=? k then binary_round prec emax negative (p * Z.to_pos (10 ^ k)) 0
      else SFdiv prec emax (S754_finite negative p 0)
                           (S754_finite false (Z.to_pos (10 ^ (- k))) 0)
  | _ => S754_zero negative
  end.

(** The integer literal [z]. *)
Definition lit (z : Z) : number := of_decimal (z <? 0) (Z.abs z) 0.

(** [a * b] on numbers. *)
Definition number_mul (a b : number) : number := SFmul prec emax a b.

(** [Math.round]: a number that is not finite or is integral is returned as
    it is; otherwise the closest integer, a tie going to the larger one, and
    a zero result taking the sign of the argument.  For [x = ± m × 2^e] with
    [e < 0] the integer is the floor of [x + 1/2]. *)
Definition Math_round (x : number) : number :=
  match x with
  | S754_finite s m e =>
      if 0 <=? e then x
      else binary_normalize prec emax
             ((2 * cond_Zopp s (Z.pos m) + 2 ^ (- e)) / 2 ^ (1 - e)) 0 s
  | _ => x
  end.

(** [ToBoolean] on a number: [NaN] and the zeros are falsy. *)
Definition number_truthy (x : number) : bool :=
  match x with
  | S754_nan | S754_zero _ => false
  | _ => true
  end.

(** ** [parseFloat] *)

Definition is_digit (c : ascii) : bool :=
  let n := nat_of_ascii c in ((48 <=? n) && (n <=? 57))%nat.

Definition digit_value (c : ascii) : Z := Z.of_nat (nat_of_ascii c) - 48.

(** The white space and line terminators that fit in one byte: tab, line
    feed, vertical tab, form feed, carriage return and space. *)
Definition is_white_space (c : ascii) : bool :=
  let n := nat_of_ascii c in
  ((n =? 9) || (n =? 10) || (n =? 11) || (n =? 12) || (n =? 13) || (n =? 32))%nat.

(** The no-break space U+00A0, two bytes. *)
Definition is_white_space2 (c1 c2 : ascii) : bool :=
  ((nat_of_ascii c1 =? 194) && (nat_of_ascii c2 =? 160))%nat.

(** The white space and line terminators of three bytes: U+1680, U+2000 to
    U+200A, U+2028, U+2029, U+202F, U+205F, U+3000 and U+FEFF. *)
Definition is_white_space3 (c1 c2 c3 : ascii) : bool :=
  let n1 := nat_of_ascii c1 in
  let n2 := nat_of_ascii c2 in
  let n3 := nat_of_ascii c3 in
  ((n1 =? 225) && (n2 =? 154) && (n3 =? 128)
   || (n1 =? 226) && (n2 =? 128)
      && ((128 <=? n3) && (n3 <=? 138) || (n3 =? 168) || (n3 =? 169) || (n3 =? 175))
   || (n1 =? 226) && (n2 =? 129) && (n3 =? 159)
   || (n1 =? 227) && (n2 =? 128) && (n3 =? 128)
   || (n1 =? 239) && (n2 =? 187) && (n3 =? 191))%nat.

(** The string without the white space and line terminators at its head. *)
Fixpoint trimStart (s : string) : string :=
  match s with
  | String c1 r1 =>
      if is_white_space c1 then trimStart r1
      else
        match r1 with
        | String c2 r2 =>
            if is_white_space2 c1 c2 then trimStart r2
            else
              match r2 with
              | String c3 r3 =>
                  if is_white_space3 c1 c2 c3 then trimStart r3 else s
              | EmptyString => s
              end
        | EmptyString => s
        end
  | EmptyString => s
  end.

(** Reads the longest run of decimal digits at the head of [s]: the value
    accumulated onto [acc], the number of digits read, and the rest. *)
Fixpoint read_digits (s : string) (acc : Z) (n : nat) : Z * nat * string :=
  match s with
  | String c r =>
      if is_digit c then read_digits r (10 * acc + digit_value c) (S n)
      else (acc, n, s)
  | EmptyString => (acc, n, s)
  end.

Fixpoint starts_with (p s : string) : bool :=
  match p, s with
  | EmptyString, _ => true
  | String a p', String b s' => Ascii.eqb a b && starts_with p' s'
  | String _ _, EmptyString => false
  end.

(** The exponent part [e±ddd] at the head of [s], 0 when there is none. *)
Definition read_exponent (s : string) : Z :=
  match s with
  | String c r =>
      if Ascii.eqb c "e" || Ascii.eqb c "E" then
        let '(neg, r') :=
          match r with
          | String "-" t => (true, t)
          | String "+" t => (false, t)
          | _ => (false, r)
          end in
        let '(e, n, _) := read_digits r' 0 0 in
        match n with
        | O => 0
        | S _ => if neg then - e else e
        end
      else 0
  | EmptyString => 0
  end.

(** [parseFloat(s)]: the number nearest to the value of the longest prefix
    of the trimmed string that is a decimal literal, [NaN] when there is
    none. *)
Definition parseFloat (s : string) : number :=
  let s0 := trimStart s in
  let '(neg, s1) :=
    match s0 with
    | String "-" r => (true, r)
    | String "+" r => (false, r)
    | _ => (false, s0)
    end in
  if starts_with "Infinity" s1 then Infinity neg
  else
    let '(ip, ni, r1) := read_digits s1 0 0 in
    let '(m, nf, r2) :=
      match r1 with
      | String "." r => read_digits r ip 0
      | _ => (ip, O, r1)
      end in
    match (ni + nf)%nat with
    | O => NaN
    | S _ =>
        let e := read_exponent r2 in
        of_decimal neg m (e - Z.of_nat nf)
    end.

(** ** Property lookup in an object literal

    [table[key]] on an object literal finds the literal's own properties
    and, failing that, the members every object inherits from
    [Object.prototype], which are functions or objects. *)

Inductive value : Type :=
  | Undefined
  | Num (n : number)
  | Obj.

Definition Object_prototype : list string :=
  [ "constructor"; "hasOwnProperty"; "isPrototypeOf"; "propertyIsEnumerable";
    "toLocaleString"; "toString"; "valueOf"; "__proto__";
    "__defineGetter__"; "__defineSetter__"; "__lookupGetter__";
    "__lookupSetter__" ].

Fixpoint own_property (table : list (string * number)) (key : string)
  : option number :=
  match table with
  | [] => None
  | (k, v) :: rest => if String.eqb k key then Some v else own_property rest key
  end.

Definition get (table : list (string * number)) (key : string) : value :=
  match own_property table key with
  | Some n => Num n
  | None => if existsb (String.eqb key) Object_prototype then Obj else Undefined
  end.

Definition ToBoolean (v : value) : bool :=
  match v with
  | Undefined => false
  | Num n => number_truthy n
  | Obj => true
  end.

(** [ToNumber] of an inherited member is [NaN]: its string form is not a
    numeric literal. *)
Definition ToNumber (v : value) : number :=
  match v with
  | Undefined => NaN
  | Num n => n
  | Obj => NaN
  end.

(** [a || b]. *)
Definition or_else (a b : value) : value := if ToBoolean a then a else b.

(** ** The task schema ([shared/schema.ts]) *)

Definition Date : Type := Z.

(** The n-th evaluation of [new Date()] during a call returns [clk n]. *)
Definition Clock : Type := nat -> Date.

(** A row of the [tasks] table, [typeof tasks.$inferSelect].  Columns of
    type [numeric] are carried as strings. *)
Module Task.
Record t : Type := mk {
  id : string;
  userId : string;
  title : string;
  description : option string;
  domain : string;
  priority : string;
  estimatedHours : string;
  actualHours : option string;
  xpReward : number;
  euReward : number;
  isCompleted : bool;
  completedAt : option Date;
  dueDate : option Date;
  createdAt : Date;
  updatedAt : Date
}.
End Task.

(** [z.infer<typeof insertTaskSchema>]: the insert schema of the table
    without [id], [xpReward], [euReward], [isCompleted], [completedAt],
    [createdAt] and [updatedAt]. *)
Module InsertTask.
Record t : Type := mk {
  userId : string;
  title : string;
  description : option (option string);
  domain : string;
  priority : option string;
  estimatedHours : option string;
  actualHours : option (option string);
  dueDate : option (option Date)
}.
End InsertTask.

(** [z.infer<typeof updateTaskSchema>]: the insert schema without [id],
    [userId], [xpReward], [euReward], [createdAt] and [updatedAt], every
    key optional. *)
Module UpdateTask.
Record t : Type := mk {
  title : option string;
  description : option (option string);
  domain : option string;
  priority : option string;
  estimatedHours : option string;
  actualHours : option (option string);
  isCompleted : option bool;
  completedAt : option (option Date);
  dueDate : option (option Date)
}.

(** The patch [{}]. *)
Definition empty : t :=
  mk None None None None None None None None None.
End UpdateTask.

(** ** Object spread and truthiness of optional keys *)

(** The value of key [k] in [{...old, ...patch}]. *)
Definition spread {A : Type} (old : A) (patch : option A) : A :=
  default old patch.

(** [flag] is truthy: the key is present and [true]. *)
Definition truthy_flag (flag : option bool) : bool :=
  match flag with
  | Some true => true
  | _ => false
  end.

(** [s || fallback] for a key holding a string, [null] or nothing: the
    empty string is falsy like [null] and [undefined]. *)
Definition string_or (s : option (option string)) (fallback : string) : string :=
  match s with
  | Some (Some (String c r)) => String c r
  | _ => fallback
  end.

(** [x ?? null]. *)
Definition or_null {A : Type} (x : option (option A)) : option A :=
  match x with
  | Some (Some a) => Some a
  | _ => None
  end.

(** The computed keys [calculatedRewards] spreads over the patch. *)
Module Rewards.
Record t : Type := mk {
  xpReward : number;
  euReward : number;
  actualHours : string;
  completedAt : option Date  (* [None]: the key is not written *)
}.
End Rewards.

(** [{...existingTask, ...updateData, ...calculatedRewards, updatedAt}];
    [calculatedRewards = None] is the empty object. *)
Definition merge_task (existingTask : Task.t) (updateData : UpdateTask.t)
    (calculatedRewards : option Rewards.t) (updatedAt : Date) : Task.t :=
  let patched : Task.t :=
    {| Task.id := Task.id existingTask;
       Task.userId := Task.userId existingTask;
       Task.title := spread (Task.title existingTask) (UpdateTask.title updateData);
       Task.description :=
         spread (Task.description existingTask) (UpdateTask.description updateData);
       Task.domain := spread (Task.domain existingTask) (UpdateTask.domain updateData);
       Task.priority :=
         spread (Task.priority existingTask) (UpdateTask.priority updateData);
       Task.estimatedHours :=
         spread (Task.estimatedHours existingTask) (UpdateTask.estimatedHours updateData);
       Task.actualHours :=
         spread (Task.actualHours existingTask) (UpdateTask.actualHours updateData);
       Task.xpReward := Task.xpReward existingTask;
       Task.euReward := Task.euReward existingTask;
       Task.isCompleted :=
         spread (Task.isCompleted existingTask) (UpdateTask.isCompleted updateData);
       Task.completedAt :=
         spread (Task.completedAt existingTask) (UpdateTask.completedAt updateData);
       Task.dueDate := spread (Task.dueDate existingTask) (UpdateTask.dueDate updateData);
       Task.createdAt := Task.createdAt existingTask;
       Task.updatedAt := updatedAt |} in
  match calculatedRewards with
  | None => patched
  | Some r =>
      {| Task.id := Task.id patched;
         Task.userId := Task.userId patched;
         Task.title := Task.title patched;
         Task.description := Task.description patched;
         Task.domain := Task.domain patched;
         Task.priority := Task.priority patched;
         Task.estimatedHours := Task.estimatedHours patched;
         Task.actualHours := Some (Rewards.actualHours r);
         Task.xpReward := Rewards.xpReward r;
         Task.euReward := Rewards.euReward r;
         Task.isCompleted := Task.isCompleted patched;
         Task.completedAt :=
           match Rewards.completedAt r with
           | Some d => Some d
           | None => Task.completedAt patched
           end;
         Task.dueDate := Task.dueDate patched;
         Task.createdAt := Task.createdAt patched;
         Task.updatedAt := Task.updatedAt patched |}
  end.

(** ** [MemStorage] ([server/storage.ts])

    The state is the [tasks] map; the task methods touch no other map. *)
Module MemStorage.

Definition basePriorityMultipliers : list (string * number) :=
  [ ("low", lit 10); ("medium", lit 15); ("high", lit 25); ("urgent", lit 40) ].

Definition calculateXPReward (priority : string) (hours : number) : number :=
  let baseXP := or_else (get basePriorityMultipliers priority) (Num (lit 15)) in
  Math_round (number_mul (ToNumber baseXP) hours).

Definition domainMultipliers : list (string * number) :=
  [ ("academic", of_decimal false 10 (-1)); ("fitness", of_decimal false 25 (-1));
    ("creative", of_decimal false 8 (-1)); ("social", of_decimal false 12 (-1));
    ("maintenance", of_decimal false 6 (-1)) ].

Definition calculateEUReward (domain : string) (hours : number) : number :=
  let multiplier :=
    or_else (get domainMultipliers domain) (Num (of_decimal false 10 (-1))) in
  Math_round (number_mul (number_mul hours (ToNumber multiplier)) (lit 10)).

Definition getTask (id : string) (tasks : gmap string Task.t) : option Task.t :=
  tasks !! id.

(** [id] is the result of [randomUUID()], [now] of [new Date()]. *)
Definition createTask (id : string) (now : Date) (insertTask : InsertTask.t)
    (tasks : gmap string Task.t) : Task.t * gmap string Task.t :=
  let task : Task.t :=
    {| Task.userId := InsertTask.userId insertTask;
       Task.title := InsertTask.title insertTask;
       Task.domain := InsertTask.domain insertTask;
       Task.description := or_null (InsertTask.description insertTask);
       Task.priority := default "medium" (InsertTask.priority insertTask);
       Task.estimatedHours := default "1.0" (InsertTask.estimatedHours insertTask);
       Task.actualHours := None;
       Task.dueDate := or_null (InsertTask.dueDate insertTask);
       Task.id := id;
       Task.xpReward := lit 0;
       Task.euReward := lit 0;
       Task.isCompleted := false;
       Task.completedAt := None;
       Task.createdAt := now;
       Task.updatedAt := now |} in
  (task, <[id := task]> tasks).

(** The stored hours are strings, so [hoursAsNumber] is always the
    [parseFloat] branch of the [typeof] test. *)
Definition updateTask (clk : Clock) (id : string) (updateData : UpdateTask.t)
    (tasks : gmap string Task.t) : option Task.t * gmap string Task.t :=
  match tasks !! id with
  | None => (None, tasks)
  | Some existingTask =>
      let calculatedRewards :=
        if truthy_flag (UpdateTask.isCompleted updateData)
           && negb (Task.isCompleted existingTask)
        then
          let actualHours :=
            string_or (UpdateTask.actualHours updateData)
                      (Task.estimatedHours existingTask) in
          let hoursAsNumber := parseFloat actualHours in
          let xpReward := calculateXPReward (Task.priority existingTask) hoursAsNumber in
          let euReward := calculateEUReward (Task.domain existingTask) hoursAsNumber in
          Some {| Rewards.xpReward := xpReward;
                  Rewards.euReward := euReward;
                  Rewards.actualHours := actualHours;
                  Rewards.completedAt := None |}
        else None in
      let updatedTask := merge_task existingTask updateData calculatedRewards (clk O) in
      (Some updatedTask, <[id := updatedTask]> tasks)
  end.

(** [Map.prototype.delete]: whether the key was there. *)
Definition deleteTask (id : string) (tasks : gmap string Task.t)
  : bool * gmap string Task.t :=
  (bool_decide (is_Some (tasks !! id)), delete id tasks).

End MemStorage.

(** ** The database handle *)

(** The keys [db.update(tasks).set(...)] receives from [updateTask]. *)
Module TaskSet.
Record t : Type := mk {
  title : option string;
  description : option (option string);
  domain : option string;
  priority : option string;
  estimatedHours : option string;
  actualHours : option (option string);
  xpReward : option number;
  euReward : option number;
  isCompleted : option bool;
  completedAt : option (option Date);
  dueDate : option (option Date);
  updatedAt : option Date
}.
End TaskSet.

(** The database handle [db] of [server/db.ts] and the relational store
    behind it are not among the sources.  The specification treats
    persistence as an external relational store with simple key-based
    operations: the [tasks] table is a finite map from the primary key [id]
    to its row.  The store keeps the values it is given; the coercions and
    the failures of the column types are not represented. *)
Module db.

(** Modelled from the spec: the effect of [set] on a row of the store behind
    the missing [db] handle, overwriting the columns it names.  The row
    keeps the values as they are given: what the column types of the table
    do to them (the rendering of a numeric column, the refusal of a value
    that is not of the type of its column, which makes the statement raise)
    is not represented. *)
Definition set_columns (row : Task.t) (s : TaskSet.t) : Task.t :=
  {| Task.id := Task.id row;
     Task.userId := Task.userId row;
     Task.title := spread (Task.title row) (TaskSet.title s);
     Task.description := spread (Task.description row) (TaskSet.description s);
     Task.domain := spread (Task.domain row) (TaskSet.domain s);
     Task.priority := spread (Task.priority row) (TaskSet.priority s);
     Task.estimatedHours := spread (Task.estimatedHours row) (TaskSet.estimatedHours s);
     Task.actualHours := spread (Task.actualHours row) (TaskSet.actualHours s);
     Task.xpReward := spread (Task.xpReward row) (TaskSet.xpReward s);
     Task.euReward := spread (Task.euReward row) (TaskSet.euReward s);
     Task.isCompleted := spread (Task.isCompleted row) (TaskSet.isCompleted s);
     Task.completedAt := spread (Task.completedAt row) (TaskSet.completedAt s);
     Task.dueDate := spread (Task.dueDate row) (TaskSet.dueDate s);
     Task.createdAt := Task.createdAt row;
     Task.updatedAt := spread (Task.updatedAt row) (TaskSet.updatedAt s) |}.

(** Modelled from the spec: the query
    [db.select().from(tasks).where(eq(tasks.id, id))] on the missing [db]
    handle, the rows of that primary key. *)
Definition select_where_id (id : string) (table : gmap string Task.t)
  : list Task.t :=
  match table !! id with
  | Some row => [row]
  | None => []
  end.

(** Modelled from the spec: the statement
    [db.update(tasks).set(s).where(eq(tasks.id, id)).returning()] on the
    missing [db] handle, the rows written and the table left. *)
Definition update_where_id (s : TaskSet.t) (id : string)
    (table : gmap string Task.t) : list Task.t * gmap string Task.t :=
  match table !! id with
  | Some row => let row' := set_columns row s in ([row'], <[id := row']> table)
  | None => ([], table)
  end.

(** Modelled from the spec: the statement
    [db.delete(tasks).where(eq(tasks.id, id))] on the missing [db] handle,
    its [rowCount] and the table left. *)
Definition delete_where_id (id : string) (table : gmap string Task.t)
  : option Z * gmap string Task.t :=
  match table !! id with
  | Some _ => (Some 1, delete id table)
  | None => (Some 0, table)
  end.

End db.

(** ** [DatabaseStorage] ([server/storage.ts]) *)
Module DatabaseStorage.

Definition basePriorityMultipliers : list (string * number) :=
  [ ("low", lit 10); ("medium", lit 15); ("high", lit 25); ("urgent", lit 40) ].

Definition calculateXPReward (priority : string) (hours : number) : number :=
  let baseXP := or_else (get basePriorityMultipliers priority) (Num (lit 15)) in
  Math_round (number_mul (ToNumber baseXP) hours).

Definition domainMultipliers : list (string * number) :=
  [ ("academic", of_decimal false 10 (-1)); ("fitness", of_decimal false 25 (-1));
    ("creative", of_decimal false 8 (-1)); ("social", of_decimal false 12 (-1));
    ("maintenance", of_decimal false 6 (-1)) ].

Definition calculateEUReward (domain : string) (hours : number) : number :=
  let multiplier :=
    or_else (get domainMultipliers domain) (Num (of_decimal false 10 (-1))) in
  Math_round (number_mul (number_mul hours (ToNumber multiplier)) (lit 10)).

(** [const [task] = await ...; return task || undefined]. *)
Definition getTask (id : string) (table : gmap string Task.t) : option Task.t :=
  head (db.select_where_id id table).

(** [{...updateData, ...calculatedRewards, updatedAt}]. *)
Definition finalUpdateData (updateData : UpdateTask.t)
    (calculatedRewards : option Rewards.t) (updatedAt : Date) : TaskSet.t :=
  {| TaskSet.title := UpdateTask.title updateData;
     TaskSet.description := UpdateTask.description updateData;
     TaskSet.domain := UpdateTask.domain updateData;
     TaskSet.priority := UpdateTask.priority updateData;
     TaskSet.estimatedHours := UpdateTask.estimatedHours updateData;
     TaskSet.actualHours :=
       match calculatedRewards with
       | Some r => Some (Some (Rewards.actualHours r))
       | None => UpdateTask.actualHours updateData
       end;
     TaskSet.xpReward := Rewards.xpReward <$> calculatedRewards;
     TaskSet.euReward := Rewards.euReward <$> calculatedRewards;
     TaskSet.isCompleted := UpdateTask.isCompleted updateData;
     TaskSet.completedAt :=
       match calculatedRewards ≫= Rewards.completedAt with
       | Some d => Some (Some d)
       | None => UpdateTask.completedAt updateData
       end;
     TaskSet.dueDate := UpdateTask.dueDate updateData;
     TaskSet.updatedAt := Some updatedAt |}.

(** On a completion [new Date()] is evaluated for [completedAt] and then
    for [updatedAt]; otherwise for [updatedAt] only. *)
Definition updateTask (clk : Clock) (id : string) (updateData : UpdateTask.t)
    (table : gmap string Task.t) : option Task.t * gmap string Task.t :=
  match getTask id table with
  | None => (None, table)
  | Some existingTask =>
      let completing :=
        truthy_flag (UpdateTask.isCompleted updateData)
        && negb (Task.isCompleted existingTask) in
      let calculatedRewards :=
        if completing then
          let actualHours :=
            string_or (UpdateTask.actualHours updateData)
                      (Task.estimatedHours existingTask) in
          let hoursAsNumber := parseFloat actualHours in
          let xpReward := calculateXPReward (Task.priority existingTask) hoursAsNumber in
          let euReward := calculateEUReward (Task.domain existingTask) hoursAsNumber in
          Some {| Rewards.xpReward := xpReward;
                  Rewards.euReward := euReward;
                  Rewards.actualHours := actualHours;
                  Rewards.completedAt := Some (clk O) |}
        else None in
      let updatedAt := clk (if completing then 1%nat else O) in
      let '(rows, table') :=
        db.update_where_id
          (finalUpdateData updateData calculatedRewards updatedAt) id table in
      (head rows, table')
  end.

(** [(result.rowCount ?? 0) > 0]. *)
Definition deleteTask (id : string) (table : gmap string Task.t)
  : bool * gmap string Task.t :=
  let '(rowCount, table') := db.delete_where_id id table in
  (0 <? default 0 rowCount, table').

End DatabaseStorage.

(** ** The storage interface

    The task operations of [IStorage] that the update and delete routes
    call. *)
Class IStorage (Store : Type) : Type := {
  getTask : string -> Store -> option Task.t;
  updateTask :
    Clock -> string -> UpdateTask.t -> Store -> option Task.t * Store;
  deleteTask : string -> Store -> bool * Store
}.

Inductive Mem : Type := MemOf (tasks : gmap string Task.t).
Inductive Database : Type := DatabaseOf (table : gmap string Task.t).

Definition tasks_of (s : Mem) : gmap string Task.t := let 'MemOf m := s in m.
Definition table_of (s : Database) : gmap string Task.t := let 'DatabaseOf m := s in m.

#[export] Instance Mem_IStorage : IStorage Mem := {
  getTask id s := MemStorage.getTask id (tasks_of s);
  updateTask clk id u s :=
    let '(r, m) := MemStorage.updateTask clk id u (tasks_of s) in (r, MemOf m);
  deleteTask id s :=
    let '(r, m) := MemStorage.deleteTask id (tasks_of s) in (r, MemOf m)
}.

#[export] Instance Database_IStorage : IStorage Database := {
  getTask id s := DatabaseStorage.getTask id (table_of s);
  updateTask clk id u s :=
    let '(r, m) := DatabaseStorage.updateTask clk id u (table_of s) in (r, DatabaseOf m);
  deleteTask id s :=
    let '(r, m) := DatabaseStorage.deleteTask id (table_of s) in (r, DatabaseOf m)
}.

(** ** The task routes ([server/routes.ts]) *)

(** [z.infer<typeof clientUpdateTaskSchema>]: the update schema with the
    hours as numbers and the due date as a string, without [completedAt].
    A request body is taken with its keys already of these types; keys
    outside the schema are stripped by the parser and are not represented. *)
Module ClientUpdateTask.
Record t : Type := mk {
  title : option string;
  description : option (option string);
  domain : option string;
  priority : option string;
  estimatedHours : option number;
  actualHours : option number;
  isCompleted : option bool;
  dueDate : option string
}.

Definition empty : t := mk None None None None None None None None.
End ClientUpdateTask.

Inductive Body : Type :=
  | ErrorBody (error : string)
  | ErrorMessageBody (error message : string)
  | ErrorDetailsBody (error : string) (details : list string)
  | TaskBody (task : Task.t)
  | EmptyBody.

Record Response : Type := mkResponse { status : Z; body : Body }.

Definition Unauthorized : Response := mkResponse 401 (ErrorBody "Unauthorized").
Definition TaskNotFound : Response := mkResponse 404 (ErrorBody "Task not found").
Definition CannotUncomplete : Response :=
  mkResponse 400
    (ErrorMessageBody "Cannot un-complete a task"
       "Tasks cannot be marked as incomplete once completed to maintain reward integrity.").
Definition InvalidUpdate (details : list string) : Response :=
  mkResponse 400 (ErrorDetailsBody "Invalid update data" details).

(** [req.session?.userId] when it is truthy. *)
Definition session_user (userId : option string) : option string :=
  match userId with
  | Some (String c r) => Some (String c r)
  | _ => None
  end.

Section Routes.

Context {Store : Type} `{IStorage Store}.

(** [new Date(s)]: [None] is the invalid date. *)
Variable Date_parse : string -> option Date.
(** [x.toString()] on a number. *)
Variable Number_toString : number -> string.
(** The [multipleOf(step)] check of the schema library on [x]. *)
Variable multipleOf : number -> number -> bool.

(** [z.number().min(lo).max(hi).multipleOf(step)]; [NaN] is not accepted as
    a number and fails the comparisons. *)
Definition number_check (lo hi step x : number) : bool :=
  SFleb lo x && SFleb x hi && multipleOf step x.

(** The issues of [z.number().min(lo).max(hi).multipleOf(step)] on [x], each
    by its path: [NaN] is refused as not a number, one issue; any other
    number gets one issue for each check it fails. *)
Definition number_issues (path : string) (lo hi step x : number) : list string :=
  match x with
  | S754_nan => [path]
  | _ =>
      app (if SFleb lo x then [] else [path])
        (app (if SFleb x hi then [] else [path])
           (if multipleOf step x then [] else [path]))
  end.

Definition optional_issues (issues : number -> list string) (x : option number)
  : list string :=
  match x with
  | Some n => issues n
  | None => []
  end.

(** [clientUpdateTaskSchema.parse(body)]: the validated patch, or the paths
    of the issues of the [ZodError]. *)
Definition clientUpdateTaskSchema_parse (body : ClientUpdateTask.t)
  : list string + ClientUpdateTask.t :=
  let issues :=
    app
      (optional_issues
         (number_issues "estimatedHours"
            (of_decimal false 5 (-1)) (lit 24) (of_decimal false 5 (-1)))
         (ClientUpdateTask.estimatedHours body))
      (optional_issues
         (number_issues "actualHours"
            (of_decimal false 1 (-1)) (lit 100) (of_decimal false 1 (-1)))
         (ClientUpdateTask.actualHours body)) in
  match issues with
  | [] => inr body
  | _ :: _ => inl issues
  end.

(** The conversion of a validated patch to the server format, the keys
    left [undefined] deleted, followed by [updateTaskSchema.parse]: that
    parse rejects an invalid [dueDate].  [now] is the [new Date()] of the
    [completedAt] key. *)
Definition to_server_format (now : Date) (validatedUpdate : ClientUpdateTask.t)
  : list string + UpdateTask.t :=
  let estimatedHours :=
    match ClientUpdateTask.estimatedHours validatedUpdate with
    | Some n => if number_truthy n then Some (Number_toString n) else None
    | None => None
    end in
  let actualHours :=
    match ClientUpdateTask.actualHours validatedUpdate with
    | Some n => if number_truthy n then Some (Some (Number_toString n)) else None
    | None => None
    end in
  let completedAt :=
    if truthy_flag (ClientUpdateTask.isCompleted validatedUpdate)
    then Some (Some now) else None in
  let updateData (dueDate : option (option Date)) : UpdateTask.t :=
    {| UpdateTask.title := ClientUpdateTask.title validatedUpdate;
       UpdateTask.description := ClientUpdateTask.description validatedUpdate;
       UpdateTask.domain := ClientUpdateTask.domain validatedUpdate;
       UpdateTask.priority := ClientUpdateTask.priority validatedUpdate;
       UpdateTask.estimatedHours := estimatedHours;
       UpdateTask.actualHours := actualHours;
       UpdateTask.isCompleted := ClientUpdateTask.isCompleted validatedUpdate;
       UpdateTask.completedAt := completedAt;
       UpdateTask.dueDate := dueDate |} in
  match ClientUpdateTask.dueDate validatedUpdate with
  | Some (String c r) =>
      match Date_parse (String c r) with
      | Some d => inr (updateData (Some (Some d)))
      | None => inl ["dueDate"]
      end
  | _ => inr (updateData None)
  end.

(** [app.patch("/api/tasks/:id", ...)].  [now] is the [new Date()] of the
    handler, [clk] the clock of the storage call.  The storage operations of
    this development raise nothing, so the answer 500 of the handler's
    catch-all has no case. *)
Definition patch_task (userId : option string) (taskId : string)
    (body : ClientUpdateTask.t) (now : Date) (clk : Clock) (s : Store)
  : Response * Store :=
  match session_user userId with
  | None => (Unauthorized, s)
  | Some userId =>
      match getTask taskId s with
      | None => (TaskNotFound, s)
      | Some existingTask =>
          if negb (String.eqb (Task.userId existingTask) userId)
          then (TaskNotFound, s)
          else
            match clientUpdateTaskSchema_parse body with
            | inl details => (InvalidUpdate details, s)
            | inr validatedUpdate =>
                if match ClientUpdateTask.isCompleted validatedUpdate with
                   | Some false => Task.isCompleted existingTask
                   | _ => false
                   end
                then (CannotUncomplete, s)
                else
                  match to_server_format now validatedUpdate with
                  | inl details => (InvalidUpdate details, s)
                  | inr updateData =>
                      match updateTask clk taskId updateData s with
                      | (None, s') => (TaskNotFound, s')
                      | (Some updatedTask, s') =>
                          (mkResponse 200 (TaskBody updatedTask), s')
                      end
                  end
            end
      end
  end.

(** [app.delete("/api/tasks/:id", ...)]. *)
Definition delete_task (userId : option string) (taskId : string) (s : Store)
  : Response * Store :=
  match session_user userId with
  | None => (Unauthorized, s)
  | Some userId =>
      match getTask taskId s with
      | None => (TaskNotFound, s)
      | Some existingTask =>
          if negb (String.eqb (Task.userId existingTask) userId)
          then (TaskNotFound, s)
          else
            match deleteTask taskId s with
            | (false, s') => (TaskNotFound, s')
            | (true, s') => (mkResponse 204 EmptyBody, s')
            end
      end
  end.

End Routes.

(** * Properties *)

(** ** The reward calculator as the specification words it *)

Inductive Priority : Type := low | medium | high | urgent.
Inductive Domain : Type := academic | fitness | creative | social | maintenance.

Definition priority_key (p : Priority) : string :=
  match p with
  | low => "low" | medium => "medium" | high => "high" | urgent => "urgent"
  end.

Definition domain_key (d : Domain) : string :=
  match d with
  | academic => "academic" | fitness => "fitness" | creative => "creative"
  | social => "social" | maintenance => "maintenance"
  end.

(** The tables of the specification. *)
Definition basePriorityXP_spec (p : Priority) : Q :=
  match p with
  | low => 10 | medium => 15 | high => 25 | urgent => 40
  end%Q.

Definition domainMultiplier_spec (d : Domain) : Q :=
  match d with
  | academic => 1
  | fitness => 25 # 10
  | creative => 8 # 10
  | social => 12 # 10
  | maintenance => 6 # 10
  end%Q.

(** The nearest integer of a rational that is not negative, the larger one
    at a tie. *)
Definition round_spec (x : Q) : Z := Qfloor (x + (1 # 2))%Q.

(** The formulas of the specification, on the hours as a rational. *)
Definition xpReward_spec (p : Priority) (hours : Q) : Z :=
  round_spec (basePriorityXP_spec p * hours)%Q.

Definition euReward_spec (d : Domain) (hours : Q) : Z :=
  round_spec (domainMultiplier_spec d * hours * 10)%Q.

(** The rational [m × 10^k] a decimal of digits [m] and exponent [k]
    writes; [of_decimal false m k] is the number nearest to it. *)
Definition decimal (m k : Z) : Q := (inject_Z m * 10 ^ k)%Q.

(** ** The same formulas in the arithmetic of the code

    The tables as numbers, the products rounded to a number one after the
    other, and the result rounded to an integer. *)

Definition basePriorityXP (p : Priority) : number :=
  match p with
  | low => lit 10 | medium => lit 15 | high => lit 25 | urgent => lit 40
  end.

(** The numbers nearest to 1.0, 2.5, 0.8, 1.2 and 0.6. *)
Definition domainMultiplier (d : Domain) : number :=
  match d with
  | academic => lit 1
  | fitness => of_decimal false 25 (-1)
  | creative => of_decimal false 8 (-1)
  | social => of_decimal false 12 (-1)
  | maintenance => of_decimal false 6 (-1)
  end.

(** Rounding to the nearest integer, a tie going away from zero: the
    magnitude [m × 2^e] is rounded to the floor of [m × 2^e + 1/2] and the
    sign put back. *)
Definition round_half_away_from_zero (x : number) : number :=
  match x with
  | S754_finite s m e =>
      if 0 <=? e then x
      else binary_normalize prec emax
             (cond_Zopp s ((2 * Z.pos m + 2 ^ (- e)) / 2 ^ (1 - e))) 0 s
  | _ => x
  end.

Definition xpReward_binary64 (p : Priority) (hours : number) : number :=
  round_half_away_from_zero (number_mul (basePriorityXP p) hours).

Definition euReward_binary64 (d : Domain) (hours : number) : number :=
  round_half_away_from_zero
    (number_mul (number_mul (domainMultiplier d) hours) (lit 10)).

(** [0 <= hours]. *)
Definition nonnegative (hours : number) : Prop := SFleb (lit 0) hours = true.

(** A key of the known enumerations. *)
Definition known_priority (s : string) : Prop := exists p, s = priority_key p.
Definition known_domain (s : string) : Prop := exists d, s = domain_key d.

(** ** Rounding *)

(** A number that is not a negative finite one. *)
Definition not_negative (x : number) : Prop :=
  match x with
  | S754_finite true _ _ => False
  | _ => True
  end.

(** The two roundings agree on every number that is not negative. *)
Lemma Math_round_not_negative (x : number) :
  not_negative x -> Math_round x = round_half_away_from_zero x.
Proof.
  destruct x as [s | s | | [|] m e]; intros Hx; [done .. | destruct Hx | done].
Qed.

(** They part on negative ties: -2.5 goes to -2 by [Math.round] and to -3
    away from zero. *)
Example Math_round_negative_tie :
  Math_round (of_decimal true 25 (-1)) = lit (-2)
  /\ round_half_away_from_zero (of_decimal true 25 (-1)) = lit (-3).
Proof. split; reflexivity. Qed.

(** [Math.round] on a finite number that is not integral: the result [n]
    is an integer with [n - 1/2 <= x < n + 1/2], in terms of the scaled
    integers [2 × x × 2^-e] and [2 × n × 2^-e]. *)
Lemma Math_round_floor (s : bool) (m : positive) (e : Z) :
  e < 0 ->
  let x2 := 2 * cond_Zopp s (Z.pos m) in
  let n := (x2 + 2 ^ (- e)) / 2 ^ (1 - e) in
  Math_round (S754_finite s m e) = binary_normalize prec emax n 0 s
  /\ 2 ^ (1 - e) * n - 2 ^ (- e) <= x2 < 2 ^ (1 - e) * n + 2 ^ (- e).
Proof.
  intros He x2 n. split.
  - unfold Math_round. by rewrite (proj2 (Z.leb_gt 0 e)) by lia.
  - assert (Hpow : 2 ^ (1 - e) = 2 * 2 ^ (- e)).
    { replace (1 - e) with (Z.succ (- e)) by lia. apply Z.pow_succ_r. lia. }
    assert (Hpos : 0 < 2 ^ (- e)) by (apply Z.pow_pos_nonneg; lia).
    pose proof (Z.div_mod (x2 + 2 ^ (- e)) (2 ^ (1 - e))) as Hdm.
    pose proof (Z.mod_pos_bound (x2 + 2 ^ (- e)) (2 ^ (1 - e))) as Hb.
    fold n in Hdm. lia.
Qed.

Lemma binary_round_aux_not_negative (mx ex : Z) (lx : location) :
  not_negative (binary_round_aux prec emax false mx ex lx).
Proof.
  unfold binary_round_aux.
  destruct (shr_fexp prec emax mx ex lx) as [mrs' e'].
  destruct (shr_fexp prec emax _ e' loc_Exact) as [mrs'' e''].
  destruct (shr_m mrs'') as [| m | m]; [done | | done].
  by destruct (e'' <=? emax - prec).
Qed.

(** A product of numbers that are not negative is not negative. *)
Lemma number_mul_not_negative (a b : number) :
  not_negative a -> not_negative b -> not_negative (number_mul a b).
Proof.
  destruct a as [sa | sa | | [|] ma ea], b as [sb | sb | | [|] mb eb];
    intros Ha Hb; try done.
  apply binary_round_aux_not_negative.
Qed.

Lemma nonnegative_not_negative (hours : number) :
  nonnegative hours -> not_negative hours.
Proof. by destruct hours as [s | s | | [|] m e]. Qed.

Lemma number_mul_comm (a b : number) : number_mul a b = number_mul b a.
Proof.
  destruct a as [sa | sa | | sa ma ea], b as [sb | sb | | sb mb eb];
    cbn; rewrite ?(xorb_comm sa sb); try reflexivity.
  by rewrite (Pos.mul_comm ma mb), (Z.add_comm ea eb).
Qed.

(** ** The multiplier tables *)

Lemma baseXP_known (p : Priority) :
  ToNumber (or_else (get MemStorage.basePriorityMultipliers (priority_key p))
                    (Num (lit 15)))
  = basePriorityXP p.
Proof. destruct p; reflexivity. Qed.

Lemma multiplier_known (d : Domain) :
  ToNumber (or_else (get MemStorage.domainMultipliers (domain_key d))
                    (Num (of_decimal false 10 (-1))))
  = domainMultiplier d.
Proof. destruct d; reflexivity. Qed.

Lemma basePriorityXP_not_negative (p : Priority) : not_negative (basePriorityXP p).
Proof. by destruct p. Qed.

Lemma domainMultiplier_not_negative (d : Domain) : not_negative (domainMultiplier d).
Proof. by destruct d. Qed.

(** The two classes carry the same calculator. *)
Lemma calculateXPReward_same (priority : string) (hours : number) :
  DatabaseStorage.calculateXPReward priority hours
  = MemStorage.calculateXPReward priority hours.
Proof. reflexivity. Qed.

Lemma calculateEUReward_same (domain : string) (hours : number) :
  DatabaseStorage.calculateEUReward domain hours
  = MemStorage.calculateEUReward domain hours.
Proof. reflexivity. Qed.

Lemma calculateXPReward_known (p : Priority) (hours : number) :
  nonnegative hours ->
  MemStorage.calculateXPReward (priority_key p) hours = xpReward_binary64 p hours.
Proof.
  intros Hh. unfold MemStorage.calculateXPReward. rewrite baseXP_known.
  apply Math_round_not_negative, number_mul_not_negative;
    [apply basePriorityXP_not_negative | by apply nonnegative_not_negative].
Qed.

Lemma calculateEUReward_known (d : Domain) (hours : number) :
  nonnegative hours ->
  MemStorage.calculateEUReward (domain_key d) hours = euReward_binary64 d hours.
Proof.
  intros Hh. unfold MemStorage.calculateEUReward, euReward_binary64.
  rewrite multiplier_known, (number_mul_comm hours).
  apply Math_round_not_negative.
  apply number_mul_not_negative; [| done].
  apply number_mul_not_negative;
    [apply domainMultiplier_not_negative | by apply nonnegative_not_negative].
Qed.

(** The hours 1.5 and 2.3. *)
Definition hours_1_5 : number := of_decimal false 15 (-1).
Definition hours_2_3 : number := of_decimal false 23 (-1).

(** The product is rounded to a double before [Math.round] sees it:
    25 × 2.3 is 57.49999999999999, rewarded 57. *)
Example calculateXPReward_high_2_3 :
  MemStorage.calculateXPReward "high" hours_2_3 = lit 57.
Proof. reflexivity. Qed.

(** Equality of numbers is decidable. *)
#[local] Instance number_eq_dec : EqDecision number.
Proof. unfold number. solve_decision. Defined.

(** The rewards of the code for the hours [m × 10^k] are those of the
    specification, for every priority and every domain. *)
Definition rewards_exact_at (m k : Z) : bool :=
  forallb
    (fun p =>
       bool_decide
         (MemStorage.calculateXPReward (priority_key p) (of_decimal false m k)
          = lit (xpReward_spec p (decimal m k))))
    [low; medium; high; urgent]
  && forallb
       (fun d =>
          bool_decide
            (MemStorage.calculateEUReward (domain_key d) (of_decimal false m k)
             = lit (euReward_spec d (decimal m k))))
       [academic; fitness; creative; social; maintenance].

(** On the half hours from 0.5 to 24, the estimated hours the create
    schema admits, no product of the code is rounded across a tie. *)
Lemma rewards_exact_on_half_hours :
  forallb (fun n => rewards_exact_at (5 * n) (-1)) (seqZ 1 48) = true.
Proof. vm_compute. reflexivity. Qed.

(** C4, as stated, fails: for the hours 2.3 and the priority "high" the
    formula of the specification gives round(25 × 2.3) = round(57.5) = 58;
    the code multiplies 25 by the number nearest to 2.3, which is just
    under it, gets 57.49999999999999 and rewards 57, in both storage
    classes.  The number is the one [parseFloat] reads from the stored
    hours "2.3". *)
Lemma high_priority_2_3_hours :
  parseFloat "2.3" = of_decimal false 23 (-1)
  /\ xpReward_spec high (decimal 23 (-1)) = 58
  /\ MemStorage.calculateXPReward (priority_key high) (of_decimal false 23 (-1))
     = lit 57
  /\ DatabaseStorage.calculateXPReward (priority_key high) (of_decimal false 23 (-1))
     = lit 57
  /\ lit 57 <> lit 58.
Proof. repeat split; [reflexivity .. | discriminate]. Qed.

(** C4, amended.  The reward functions are functions of their arguments
    alone, and on the known keys they are the specified formulas computed
    in binary64 arithmetic: for every priority of the enumeration and every
    non-negative number of hours, the XP reward is the base XP of the
    priority (10, 15, 25, 40) times the hours, that product rounded to a
    number and then to an integer; for every domain of the enumeration, the
    EU reward is the hours times the number nearest to the multiplier of
    the domain (1.0, 2.5, 0.8, 1.2, 0.6), times 10, each product rounded to
    a number and the result to an integer.  Both storage classes compute
    them alike.  For the half hours from 0.5 to 24 these are the values of
    the formulas of the specification, round(m × hours) and
    round(m × hours × 10) on the exact hours.  In particular the XP of
    ("high", 2.0) is 50 and the EU of ("fitness", 2.0) is 50. *)
Theorem reward_formulas :
  (forall (p : Priority) (d : Domain) (hours : number),
      nonnegative hours ->
      MemStorage.calculateXPReward (priority_key p) hours
      = xpReward_binary64 p hours
      /\ DatabaseStorage.calculateXPReward (priority_key p) hours
         = xpReward_binary64 p hours
      /\ MemStorage.calculateEUReward (domain_key d) hours
         = euReward_binary64 d hours
      /\ DatabaseStorage.calculateEUReward (domain_key d) hours
         = euReward_binary64 d hours)
  /\ (forall (p : Priority) (d : Domain) (n : Z),
         1 <= n <= 48 ->
         let hours := of_decimal false (5 * n) (-1) in
         MemStorage.calculateXPReward (priority_key p) hours
         = lit (xpReward_spec p (decimal (5 * n) (-1)))
         /\ DatabaseStorage.calculateXPReward (priority_key p) hours
            = lit (xpReward_spec p (decimal (5 * n) (-1)))
         /\ MemStorage.calculateEUReward (domain_key d) hours
            = lit (euReward_spec d (decimal (5 * n) (-1)))
         /\ DatabaseStorage.calculateEUReward (domain_key d) hours
            = lit (euReward_spec d (decimal (5 * n) (-1))))
  /\ MemStorage.calculateXPReward "high" (lit 2) = lit 50
  /\ MemStorage.calculateEUReward "fitness" (lit 2) = lit 50
  /\ DatabaseStorage.calculateXPReward "high" (lit 2) = lit 50
  /\ DatabaseStorage.calculateEUReward "fitness" (lit 2) = lit 50.
Proof.
  split; [| split; [| repeat split; reflexivity]].
  - intros p d hours Hh.
    pose proof (calculateXPReward_known p hours Hh) as Hxp.
    pose proof (calculateEUReward_known d hours Hh) as Heu.
    repeat split; assumption.
  - intros p d n Hn hours. subst hours.
    pose proof rewards_exact_on_half_hours as Hall.
    rewrite forallb_forall in Hall.
    assert (Hin : In n (seqZ 1 48)) by (apply list_elem_of_In, elem_of_seqZ; lia).
    specialize (Hall n Hin). unfold rewards_exact_at in Hall.
    apply andb_prop in Hall as [Hxp Heu].
    rewrite forallb_forall in Hxp. rewrite forallb_forall in Heu.
    assert (Hp : In p [low; medium; high; urgent])
      by (destruct p; cbn; tauto).
    assert (Hd : In d [academic; fitness; creative; social; maintenance])
      by (destruct d; cbn; tauto).
    apply Hxp, bool_decide_eq_true in Hp. apply Heu, bool_decide_eq_true in Hd.
    repeat split; assumption.
Qed.

Lemma reward_formulas_witness :
  nonnegative hours_1_5
  /\ 1 <= 3 <= 48
  /\ MemStorage.calculateXPReward "medium" hours_1_5 = lit 23
  /\ DatabaseStorage.calculateEUReward "creative" hours_1_5 = lit 12
  /\ MemStorage.calculateXPReward "medium" (of_decimal false 15 (-1))
     = lit (xpReward_spec medium (decimal 15 (-1))).
Proof.
  assert (H : nonnegative hours_1_5) by reflexivity.
  assert (Hn : 1 <= 3 <= 48) by lia.
  split; [exact H |]. split; [exact Hn |].
  destruct (proj1 reward_formulas medium creative hours_1_5 H)
    as (Hxp & _ & _ & Heu).
  split; [exact Hxp |]. split; [exact Heu |].
  exact (proj1 (proj1 (proj2 reward_formulas) medium creative 3 Hn)).
Defined.

(** ** Keys outside the enumerations *)

Lemma own_property_priority_None (priority : string) :
  ~ known_priority priority ->
  own_property MemStorage.basePriorityMultipliers priority = None.
Proof.
  intros Hunknown. unfold MemStorage.basePriorityMultipliers. cbn [own_property].
  destruct (String.eqb_spec "low" priority) as [<- | _];
    [exfalso; apply Hunknown; by exists low |].
  destruct (String.eqb_spec "medium" priority) as [<- | _];
    [exfalso; apply Hunknown; by exists medium |].
  destruct (String.eqb_spec "high" priority) as [<- | _];
    [exfalso; apply Hunknown; by exists high |].
  destruct (String.eqb_spec "urgent" priority) as [<- | _];
    [exfalso; apply Hunknown; by exists urgent |].
  reflexivity.
Qed.

Lemma own_property_domain_None (domain : string) :
  ~ known_domain domain ->
  own_property MemStorage.domainMultipliers domain = None.
Proof.
  intros Hunknown. unfold MemStorage.domainMultipliers. cbn [own_property].
  destruct (String.eqb_spec "academic" domain) as [<- | _];
    [exfalso; apply Hunknown; by exists academic |].
  destruct (String.eqb_spec "fitness" domain) as [<- | _];
    [exfalso; apply Hunknown; by exists fitness |].
  destruct (String.eqb_spec "creative" domain) as [<- | _];
    [exfalso; apply Hunknown; by exists creative |].
  destruct (String.eqb_spec "social" domain) as [<- | _];
    [exfalso; apply Hunknown; by exists social |].
  destruct (String.eqb_spec "maintenance" domain) as [<- | _];
    [exfalso; apply Hunknown; by exists maintenance |].
  reflexivity.
Qed.

Lemma not_inherited (key : string) :
  ~ In key Object_prototype -> existsb (String.eqb key) Object_prototype = false.
Proof.
  intros Hnot. apply not_true_is_false. intros Hex.
  apply existsb_exists in Hex as (k & Hin & Heq).
  apply String.eqb_eq in Heq. subst k. by apply Hnot.
Qed.

(** A key that is neither of the enumeration nor the name of an inherited
    member takes the fallback multiplier. *)
Lemma calculateXPReward_fallback (priority : string) (hours : number) :
  ~ known_priority priority -> ~ In priority Object_prototype ->
  MemStorage.calculateXPReward priority hours = Math_round (number_mul (lit 15) hours).
Proof.
  intros Hunknown Hnot. unfold MemStorage.calculateXPReward, get.
  rewrite own_property_priority_None by exact Hunknown.
  rewrite not_inherited by exact Hnot. reflexivity.
Qed.

Lemma calculateEUReward_fallback (domain : string) (hours : number) :
  ~ known_domain domain -> ~ In domain Object_prototype ->
  MemStorage.calculateEUReward domain hours
  = Math_round (number_mul (number_mul hours (lit 1)) (lit 10)).
Proof.
  intros Hunknown Hnot. unfold MemStorage.calculateEUReward, get.
  rewrite own_property_domain_None by exact Hunknown.
  rewrite not_inherited by exact Hnot. reflexivity.
Qed.

(** An inherited member is truthy and not a number: the fallback is not
    taken and the reward is [NaN]. *)
Lemma calculateXPReward_inherited (priority : string) (hours : number) :
  In priority Object_prototype ->
  MemStorage.calculateXPReward priority hours = NaN.
Proof.
  intros Hin. unfold Object_prototype in Hin. cbn [In] in Hin.
  repeat (destruct Hin as [<- | Hin]; [reflexivity |]). destruct Hin.
Qed.

Lemma calculateEUReward_inherited (domain : string) (hours : number) :
  In domain Object_prototype ->
  MemStorage.calculateEUReward domain hours = NaN.
Proof.
  intros Hin. unfold Object_prototype in Hin. cbn [In] in Hin.
  repeat (destruct Hin as [<- | Hin]; [by destruct hours |]). destruct Hin.
Qed.

Example fallback_unknown :
  MemStorage.calculateXPReward "unknown" (lit 1) = lit 15
  /\ DatabaseStorage.calculateEUReward "unknown" (lit 1) = lit 10.
Proof. split; reflexivity. Qed.

(** C5.  The fallback to the default multiplier misses the keys an object
    literal inherits: "constructor" is outside both enumerations, yet the
    XP reward of ("constructor", 1.0) and the EU reward of
    ("constructor", 1.0) are [NaN], not 15 and 10, in both storage
    classes. *)
Theorem fallback_misses_inherited_keys :
  ~ known_priority "constructor"
  /\ ~ known_domain "constructor"
  /\ MemStorage.calculateXPReward "constructor" (lit 1) = NaN
  /\ MemStorage.calculateEUReward "constructor" (lit 1) = NaN
  /\ DatabaseStorage.calculateXPReward "constructor" (lit 1) = NaN
  /\ DatabaseStorage.calculateEUReward "constructor" (lit 1) = NaN.
Proof.
  split; [intros [p Hp]; destruct p; discriminate |].
  split; [intros [d Hd]; destruct d; discriminate |].
  repeat split; reflexivity.
Qed.

(** ** Completion of a pending task *)


(** The effective hours with an empty [actualHours] counted as not
    supplied. *)
Definition effectiveHours (patch : UpdateTask.t) (existingTask : Task.t) : string :=
  match UpdateTask.actualHours patch with
  | Some (Some s) => if String.eqb s "" then Task.estimatedHours existingTask else s
  | _ => Task.estimatedHours existingTask
  end.

Lemma string_or_effectiveHours (patch : UpdateTask.t) (existingTask : Task.t) :
  string_or (UpdateTask.actualHours patch) (Task.estimatedHours existingTask)
  = effectiveHours patch existingTask.
Proof.
  unfold string_or, effectiveHours.
  destruct (UpdateTask.actualHours patch) as [[[| c r] |] |]; reflexivity.
Qed.


(** What a completing update computes, for either storage class. *)
Record completes (existingTask : Task.t) (patch : UpdateTask.t) (t' : Task.t)
  : Prop := {
  completes_flag : Task.isCompleted t' = true;
  completes_hours : Task.actualHours t' = Some (effectiveHours patch existingTask);
  completes_xp :
    Task.xpReward t'
    = MemStorage.calculateXPReward (Task.priority existingTask)
        (parseFloat (effectiveHours patch existingTask));
  completes_eu :
    Task.euReward t'
    = MemStorage.calculateEUReward (Task.domain existingTask)
        (parseFloat (effectiveHours patch existingTask))
}.

Lemma Mem_updateTask_completes (tasks : gmap string Task.t) (id : string)
    (existingTask : Task.t) (patch : UpdateTask.t) (clk : Clock) :
  tasks !! id = Some existingTask ->
  Task.isCompleted existingTask = false ->
  UpdateTask.isCompleted patch = Some true ->
  exists t',
    MemStorage.updateTask clk id patch tasks = (Some t', <[id := t']> tasks)
    /\ completes existingTask patch t'
    /\ Task.completedAt t'
       = spread (Task.completedAt existingTask) (UpdateTask.completedAt patch).
Proof.
  intros Hlookup Hpending Hflag. unfold MemStorage.updateTask.
  rewrite Hlookup, Hpending, Hflag. cbn [truthy_flag negb andb].
  rewrite string_or_effectiveHours.
  eexists. split; [reflexivity |]. split; [| reflexivity].
  split; cbn; [by rewrite Hflag | reflexivity ..].
Qed.

Lemma Database_updateTask_completes (table : gmap string Task.t) (id : string)
    (existingTask : Task.t) (patch : UpdateTask.t) (clk : Clock) :
  table !! id = Some existingTask ->
  Task.isCompleted existingTask = false ->
  UpdateTask.isCompleted patch = Some true ->
  exists t',
    DatabaseStorage.updateTask clk id patch table = (Some t', <[id := t']> table)
    /\ completes existingTask patch t'
    /\ Task.completedAt t' = Some (clk O).
Proof.
  intros Hlookup Hpending Hflag.
  unfold DatabaseStorage.updateTask, DatabaseStorage.getTask,
    db.select_where_id, db.update_where_id.
  rewrite Hlookup. cbn [head]. rewrite Hpending, Hflag.
  cbn [truthy_flag negb andb]. rewrite string_or_effectiveHours.
  eexists. split; [reflexivity |]. split; [| reflexivity].
  split; cbn; [by rewrite Hflag | reflexivity ..].
Qed.

(** A pending task of three estimated hours, urgent and academic. *)
Definition sample_task : Task.t :=
  {| Task.id := "t1";
     Task.userId := "bruce";
     Task.title := "Decrypt the ledger";
     Task.description := None;
     Task.domain := "academic";
     Task.priority := "urgent";
     Task.estimatedHours := "3.0";
     Task.actualHours := None;
     Task.xpReward := lit 0;
     Task.euReward := lit 0;
     Task.isCompleted := false;
     Task.completedAt := None;
     Task.dueDate := None;
     Task.createdAt := 1000;
     Task.updatedAt := 1000 |}.

Definition sample_tasks : gmap string Task.t := {[ "t1" := sample_task ]}.

(** The patch [{ isCompleted: true }]. *)
Definition complete_patch : UpdateTask.t :=
  UpdateTask.mk None None None None None None (Some true) None None.


Definition sample_clock : Clock := fun n => 2000 + Z.of_nat n.

Lemma sample_tasks_lookup : sample_tasks !! "t1" = Some sample_task.
Proof. apply lookup_singleton_eq. Qed.




(** ** Updates that do not complete *)

(** The guard of the reward computation. *)
Definition completing (existingTask : Task.t) (patch : UpdateTask.t) : bool :=
  truthy_flag (UpdateTask.isCompleted patch) && negb (Task.isCompleted existingTask).

Lemma Mem_updateTask_plain (tasks : gmap string Task.t) (id : string)
    (existingTask : Task.t) (patch : UpdateTask.t) (clk : Clock) :
  tasks !! id = Some existingTask ->
  completing existingTask patch = false ->
  MemStorage.updateTask clk id patch tasks
  = (Some (merge_task existingTask patch None (clk O)),
     <[id := merge_task existingTask patch None (clk O)]> tasks).
Proof.
  intros Hlookup Hguard. unfold MemStorage.updateTask.
  rewrite Hlookup. unfold completing in Hguard. rewrite Hguard. reflexivity.
Qed.

Lemma Database_updateTask_plain (table : gmap string Task.t) (id : string)
    (existingTask : Task.t) (patch : UpdateTask.t) (clk : Clock) :
  table !! id = Some existingTask ->
  completing existingTask patch = false ->
  DatabaseStorage.updateTask clk id patch table
  = (Some (merge_task existingTask patch None (clk O)),
     <[id := merge_task existingTask patch None (clk O)]> table).
Proof.
  intros Hlookup Hguard.
  unfold DatabaseStorage.updateTask, DatabaseStorage.getTask,
    db.select_where_id, db.update_where_id.
  rewrite Hlookup. cbn [head]. unfold completing in Hguard. rewrite Hguard.
  reflexivity.
Qed.

Lemma completing_completed (existingTask : Task.t) (patch : UpdateTask.t) :
  Task.isCompleted existingTask = true -> completing existingTask patch = false.
Proof. intros Hdone. unfold completing. rewrite Hdone. apply andb_false_r. Qed.

Lemma completing_uncomplete (existingTask : Task.t) (patch : UpdateTask.t) :
  UpdateTask.isCompleted patch = Some false -> completing existingTask patch = false.
Proof. intros Hflag. unfold completing. by rewrite Hflag. Qed.

(** Without the computed keys the rewards are the stored ones. *)
Lemma merge_task_plain_rewards (existingTask : Task.t) (patch : UpdateTask.t)
    (now : Date) :
  Task.xpReward (merge_task existingTask patch None now) = Task.xpReward existingTask
  /\ Task.euReward (merge_task existingTask patch None now)
     = Task.euReward existingTask.
Proof. split; reflexivity. Qed.

(** ** The storage layer lets a completed task be un-completed *)


(** The patch [{ isCompleted: false, priority: "low" }]. *)
Definition uncomplete_patch : UpdateTask.t :=
  UpdateTask.mk None None None (Some "low") None None (Some false) None None.

(** [sample_task] once completed by [complete_patch] at time 2000. *)
Definition completed_task : Task.t :=
  {| Task.id := "t1";
     Task.userId := "bruce";
     Task.title := "Decrypt the ledger";
     Task.description := None;
     Task.domain := "academic";
     Task.priority := "urgent";
     Task.estimatedHours := "3.0";
     Task.actualHours := Some "3.0";
     Task.xpReward := lit 120;
     Task.euReward := lit 30;
     Task.isCompleted := true;
     Task.completedAt := Some 2000;
     Task.dueDate := None;
     Task.createdAt := 1000;
     Task.updatedAt := 2001 |}.

Definition completed_tasks : gmap string Task.t := {[ "t1" := completed_task ]}.

Lemma completed_tasks_lookup : completed_tasks !! "t1" = Some completed_task.
Proof. apply lookup_singleton_eq. Qed.



(** Un-completed with a lower priority and completed again, the sample task
    is rewarded 30 XP where it had 120. *)
Example recompletion_changes_rewards :
  exists t' tasks' t'' tasks'',
    MemStorage.updateTask sample_clock "t1" uncomplete_patch completed_tasks
    = (Some t', tasks')
    /\ MemStorage.updateTask sample_clock "t1" complete_patch tasks'
       = (Some t'', tasks'')
    /\ Task.xpReward t' = lit 120
    /\ Task.xpReward t'' = lit 30.
Proof.
  pose proof (completing_uncomplete completed_task uncomplete_patch eq_refl) as Hguard.
  pose proof (Mem_updateTask_plain completed_tasks "t1" completed_task
                uncomplete_patch sample_clock completed_tasks_lookup Hguard) as Hfirst.
  destruct (Mem_updateTask_completes _ "t1" _ complete_patch sample_clock
              (lookup_insert_eq completed_tasks "t1"
                 (merge_task completed_task uncomplete_patch None (sample_clock O)))
              eq_refl eq_refl) as (t'' & Hsecond & [_ _ Hxp _] & _).
  eexists _, _, t'', _. split; [exact Hfirst |]. split; [exact Hsecond |].
  split; [reflexivity | exact Hxp].
Qed.

(** ** The route boundary *)

Lemma session_user_nonempty (u : string) : u <> "" -> session_user (Some u) = Some u.
Proof. intros Hne. destruct u; [by destruct Hne | reflexivity]. Qed.

Lemma clientUpdateTaskSchema_parse_inr (multipleOf : number -> number -> bool)
    (body validatedUpdate : ClientUpdateTask.t) :
  clientUpdateTaskSchema_parse multipleOf body = inr validatedUpdate ->
  validatedUpdate = body.
Proof.
  unfold clientUpdateTaskSchema_parse.
  destruct (app _ _); [| discriminate]. by intros [= <-].
Qed.

(** The body [{ isCompleted: false }] and the body [{ isCompleted: true }]. *)
Definition uncomplete_body : ClientUpdateTask.t :=
  ClientUpdateTask.mk None None None None None None (Some false) None.
Definition complete_body : ClientUpdateTask.t :=
  ClientUpdateTask.mk None None None None None None (Some true) None.

Section RouteProperties.

Context {Store : Type} `{IStorage Store}.
Variable Date_parse : string -> option Date.
Variable Number_toString : number -> string.
Variable multipleOf : number -> number -> bool.

Local Abbreviation patch := (patch_task Date_parse Number_toString multipleOf).

(** The owner's request to un-complete a completed task is refused before
    the storage is called. *)
Lemma patch_task_uncomplete (u taskId : string) (body : ClientUpdateTask.t)
    (now : Date) (clk : Clock) (s : Store) (existingTask : Task.t) :
  u <> "" ->
  getTask taskId s = Some existingTask ->
  Task.userId existingTask = u ->
  Task.isCompleted existingTask = true ->
  ClientUpdateTask.isCompleted body = Some false ->
  patch (Some u) taskId body now clk s
  = (match clientUpdateTaskSchema_parse multipleOf body with
     | inl details => InvalidUpdate details
     | inr _ => CannotUncomplete
     end, s).
Proof.
  intros Hu Hget Howner Hdone Hflag. unfold patch_task.
  rewrite session_user_nonempty by exact Hu. rewrite Hget, Howner.
  rewrite String.eqb_refl. cbn [negb].
  destruct (clientUpdateTaskSchema_parse multipleOf body) as [details | v] eqn:Hparse;
    [reflexivity |].
  apply clientUpdateTaskSchema_parse_inr in Hparse. subst v.
  by rewrite Hflag, Hdone.
Qed.

(** A request for a task of another owner, or for no task, is answered
    "Task not found" before the body is looked at. *)
Lemma patch_task_not_owner (u taskId : string) (body : ClientUpdateTask.t)
    (now : Date) (clk : Clock) (s : Store) :
  u <> "" ->
  match getTask taskId s with
  | Some existingTask => Task.userId existingTask <> u
  | None => True
  end ->
  patch (Some u) taskId body now clk s = (TaskNotFound, s).
Proof.
  intros Hu Hother. unfold patch_task.
  rewrite session_user_nonempty by exact Hu.
  destruct (getTask taskId s) as [existingTask |]; [| reflexivity].
  apply String.eqb_neq in Hother. by rewrite Hother.
Qed.

Lemma delete_task_not_owner (u taskId : string) (s : Store) :
  u <> "" ->
  match getTask taskId s with
  | Some existingTask => Task.userId existingTask <> u
  | None => True
  end ->
  delete_task (Some u) taskId s = (TaskNotFound, s).
Proof.
  intros Hu Hother. unfold delete_task.
  rewrite session_user_nonempty by exact Hu.
  destruct (getTask taskId s) as [existingTask |]; [| reflexivity].
  apply String.eqb_neq in Hother. by rewrite Hother.
Qed.

(** C2, amended.  For every stored task that is completed, an update
    request of its owner whose patch has [isCompleted = false] is refused
    with status 400 and leaves the store, hence the stored task, unchanged;
    no key of the patch is applied.  The body is validated before the
    guard: when it passes validation the refusal is the un-complete error,
    when it does not the refusal is the validation error with its issues. *)
Theorem uncomplete_guard (u taskId : string) (body : ClientUpdateTask.t)
    (now : Date) (clk : Clock) (s : Store) (existingTask : Task.t) :
  u <> "" ->
  getTask taskId s = Some existingTask ->
  Task.userId existingTask = u ->
  Task.isCompleted existingTask = true ->
  ClientUpdateTask.isCompleted body = Some false ->
  (patch (Some u) taskId body now clk s).2 = s
  /\ getTask taskId (patch (Some u) taskId body now clk s).2
     = Some existingTask
  /\ status (patch (Some u) taskId body now clk s).1 = 400
  /\ (forall validatedUpdate,
        clientUpdateTaskSchema_parse multipleOf body = inr validatedUpdate ->
        (patch (Some u) taskId body now clk s).1 = CannotUncomplete)
  /\ (forall details,
        clientUpdateTaskSchema_parse multipleOf body = inl details ->
        (patch (Some u) taskId body now clk s).1 = InvalidUpdate details).
Proof.
  intros Hu Hget Howner Hdone Hflag.
  rewrite (patch_task_uncomplete u taskId body now clk s existingTask)
    by assumption.
  cbn [fst snd]. split; [reflexivity |]. split; [exact Hget |].
  split; [by destruct (clientUpdateTaskSchema_parse multipleOf body) |].
  split; [by intros v -> | by intros details ->].
Qed.

(** C8.  For every update or delete request of an authenticated user
    carrying the id of a task stored under another owner, the answer is
    "Task not found" with status 404 and the store is unchanged; the
    answer and the store are the same as for an id that is not stored. *)
Theorem ownership_isolation (u taskId absentId : string)
    (body : ClientUpdateTask.t) (now : Date) (clk : Clock) (s : Store)
    (existingTask : Task.t) :
  u <> "" ->
  getTask taskId s = Some existingTask ->
  Task.userId existingTask <> u ->
  getTask absentId s = None ->
  patch (Some u) taskId body now clk s = (TaskNotFound, s)
  /\ delete_task (Some u) taskId s = (TaskNotFound, s)
  /\ patch (Some u) absentId body now clk s = (TaskNotFound, s)
  /\ delete_task (Some u) absentId s = (TaskNotFound, s)
  /\ status TaskNotFound = 404.
Proof.
  intros Hu Hget Hother Habsent.
  split; [apply patch_task_not_owner; [exact Hu | by rewrite Hget] |].
  split; [apply delete_task_not_owner; [exact Hu | by rewrite Hget] |].
  split; [apply patch_task_not_owner; [exact Hu | by rewrite Habsent] |].
  split; [apply delete_task_not_owner; [exact Hu | by rewrite Habsent] |].
  reflexivity.
Qed.

End RouteProperties.

(** Built-ins to run the routes with on the sample stores: no date string
    parses, every number prints as "0" and is a multiple of every step. *)
Definition no_date : string -> option Date := fun _ => None.
Definition print_zero : number -> string := fun _ => "0".
Definition any_multiple : number -> number -> bool := fun _ _ => true.

Lemma uncomplete_guard_witness :
  "bruce" <> ""
  /\ getTask "t1" (MemOf completed_tasks) = Some completed_task
  /\ Task.userId completed_task = "bruce"
  /\ Task.isCompleted completed_task = true
  /\ ClientUpdateTask.isCompleted uncomplete_body = Some false
  /\ (patch_task no_date print_zero any_multiple (Some "bruce") "t1" uncomplete_body 5000
        sample_clock (MemOf completed_tasks)).1 = CannotUncomplete.
Proof.
  assert (Hu : "bruce" <> "") by discriminate.
  split; [exact Hu |]. split; [exact completed_tasks_lookup |].
  split; [reflexivity |]. split; [reflexivity |]. split; [reflexivity |].
  exact (proj1 (proj2 (proj2 (proj2
           (uncomplete_guard no_date print_zero any_multiple "bruce" "t1" uncomplete_body 5000
              sample_clock (MemOf completed_tasks) completed_task
              Hu completed_tasks_lookup eq_refl eq_refl eq_refl))))
           uncomplete_body eq_refl).
Defined.

(** The body [{ isCompleted: false, estimatedHours: 25 }]: 25 is a multiple
    of 0.5 above the 24 the schema allows. *)
Definition uncomplete_body_25_hours : ClientUpdateTask.t :=
  ClientUpdateTask.mk None None None None (Some (lit 25)) None (Some false) None.

(** C2, as stated, fails: the un-complete request of the owner of a
    completed task with the body [{ isCompleted: false, estimatedHours: 25 }]
    is not answered with the un-complete error but with "Invalid update
    data", the issue being the estimated hours. *)
Lemma uncomplete_invalid_body :
  getTask "t1" (MemOf completed_tasks) = Some completed_task
  /\ Task.userId completed_task = "bruce"
  /\ Task.isCompleted completed_task = true
  /\ ClientUpdateTask.isCompleted uncomplete_body_25_hours = Some false
  /\ patch_task no_date print_zero any_multiple (Some "bruce") "t1"
       uncomplete_body_25_hours 5000 sample_clock (MemOf completed_tasks)
     = (InvalidUpdate ["estimatedHours"], MemOf completed_tasks)
  /\ InvalidUpdate ["estimatedHours"] <> CannotUncomplete.
Proof.
  split; [exact completed_tasks_lookup |]. do 3 (split; [reflexivity |]).
  split; [| discriminate].
  unfold patch_task. cbn [session_user getTask Mem_IStorage tasks_of].
  unfold MemStorage.getTask. rewrite completed_tasks_lookup. reflexivity.
Qed.

Lemma ownership_isolation_witness :
  "selina" <> ""
  /\ getTask "t1" (DatabaseOf completed_tasks) = Some completed_task
  /\ Task.userId completed_task <> "selina"
  /\ getTask "t2" (DatabaseOf completed_tasks) = None
  /\ patch_task no_date print_zero any_multiple (Some "selina") "t1" complete_body 5000
       sample_clock (DatabaseOf completed_tasks)
     = (TaskNotFound, DatabaseOf completed_tasks)
  /\ delete_task (Some "selina") "t1" (DatabaseOf completed_tasks)
     = (TaskNotFound, DatabaseOf completed_tasks).
Proof.
  assert (Hu : "selina" <> "") by discriminate.
  assert (Hget : getTask "t1" (DatabaseOf completed_tasks) = Some completed_task)
    by (cbn; unfold DatabaseStorage.getTask, db.select_where_id;
        by rewrite completed_tasks_lookup).
  assert (Hother : Task.userId completed_task <> "selina") by discriminate.
  assert (Habsent : getTask "t2" (DatabaseOf completed_tasks) = None)
    by (cbn; unfold DatabaseStorage.getTask, db.select_where_id, completed_tasks;
        by rewrite lookup_singleton_ne).
  split; [exact Hu |]. split; [exact Hget |]. split; [exact Hother |].
  split; [exact Habsent |].
  destruct (ownership_isolation no_date print_zero any_multiple "selina" "t1" "t2"
              complete_body 5000 sample_clock (DatabaseOf completed_tasks)
              completed_task Hu Hget Hother Habsent) as (Hp & Hd & _).
  split; assumption.
Defined.

(** ** A second completion *)

(** In the storage layer a completed task keeps its rewards under any
    update, and its [completedAt] unless the patch carries that key. *)
Lemma updateTask_completed_rewards (tasks : gmap string Task.t) (id : string)
    (existingTask : Task.t) (patch : UpdateTask.t) (clk : Clock) :
  tasks !! id = Some existingTask ->
  Task.isCompleted existingTask = true ->
  exists t',
    MemStorage.updateTask clk id patch tasks = (Some t', <[id := t']> tasks)
    /\ DatabaseStorage.updateTask clk id patch tasks = (Some t', <[id := t']> tasks)
    /\ Task.xpReward t' = Task.xpReward existingTask
    /\ Task.euReward t' = Task.euReward existingTask
    /\ Task.completedAt t'
       = spread (Task.completedAt existingTask) (UpdateTask.completedAt patch).
Proof.
  intros Hlookup Hdone.
  pose proof (completing_completed existingTask patch Hdone) as Hguard.
  exists (merge_task existingTask patch None (clk O)).
  split; [by apply Mem_updateTask_plain |].
  split; [by apply Database_updateTask_plain |].
  repeat split; reflexivity.
Qed.

(** The patch the update route hands to the storage for the body
    [{ isCompleted: true }] received at time [now]. *)
Definition stamped_patch (now : Date) : UpdateTask.t :=
  UpdateTask.mk None None None None None None (Some true) (Some (Some now)) None.

Section Recompletion.

Context {Store : Type} `{IStorage Store}.
Variable Date_parse : string -> option Date.
Variable Number_toString : number -> string.
Variable multipleOf : number -> number -> bool.

Lemma patch_task_complete_body (u taskId : string) (now : Date) (clk : Clock)
    (s : Store) (existingTask : Task.t) :
  u <> "" ->
  getTask taskId s = Some existingTask ->
  Task.userId existingTask = u ->
  patch_task Date_parse Number_toString multipleOf (Some u) taskId complete_body now clk s
  = match updateTask clk taskId (stamped_patch now) s with
    | (None, s') => (TaskNotFound, s')
    | (Some updatedTask, s') => (mkResponse 200 (TaskBody updatedTask), s')
    end.
Proof.
  intros Hu Hget Howner. unfold patch_task.
  rewrite session_user_nonempty by exact Hu. rewrite Hget, Howner.
  rewrite String.eqb_refl. reflexivity.
Qed.

End Recompletion.

(** Through the update route a second completion request overwrites
    [completedAt] with the time of the request, in both storage classes. *)
Lemma patch_task_recompletion (Date_parse : string -> option Date)
    (Number_toString : number -> string)
    (multipleOf : number -> number -> bool) (u taskId : string) (now : Date)
    (clk : Clock) (tasks : gmap string Task.t) (existingTask : Task.t) :
  u <> "" ->
  tasks !! taskId = Some existingTask ->
  Task.userId existingTask = u ->
  Task.isCompleted existingTask = true ->
  exists t',
    patch_task Date_parse Number_toString multipleOf (Some u) taskId complete_body now clk
      (MemOf tasks)
    = (mkResponse 200 (TaskBody t'), MemOf (<[taskId := t']> tasks))
    /\ patch_task Date_parse Number_toString multipleOf (Some u) taskId complete_body now clk
         (DatabaseOf tasks)
       = (mkResponse 200 (TaskBody t'), DatabaseOf (<[taskId := t']> tasks))
    /\ Task.completedAt t' = Some now
    /\ Task.xpReward t' = Task.xpReward existingTask
    /\ Task.euReward t' = Task.euReward existingTask.
Proof.
  intros Hu Hlookup Howner Hdone.
  destruct (updateTask_completed_rewards tasks taskId existingTask
              (stamped_patch now) clk Hlookup Hdone)
    as (t' & Hmem & Hdb & Hxp & Heu & Hat).
  exists t'.
  split.
  { rewrite (patch_task_complete_body _ _ _ u taskId now clk (MemOf tasks) existingTask)
      by (try assumption; exact Hlookup).
    cbn [updateTask Mem_IStorage tasks_of]. by rewrite Hmem. }
  split.
  { rewrite (patch_task_complete_body _ _ _ u taskId now clk (DatabaseOf tasks)
               existingTask);
      [| exact Hu
       | cbn; unfold DatabaseStorage.getTask, db.select_where_id; by rewrite Hlookup
       | exact Howner].
    cbn [updateTask Database_IStorage table_of]. by rewrite Hdb. }
  split; [exact Hat |]. split; assumption.
Qed.

(** C3.  A second completion request changes [completedAt]: the sample
    task completed at time 2000 with rewards 120 and 30, and sent the body
    [{ isCompleted: true }] again at time 5000 by its owner, keeps both
    rewards but comes back with [completedAt] 5000, in both storage
    classes. *)
Theorem recompletion_restamps_completedAt (Date_parse : string -> option Date)
    (Number_toString : number -> string)
    (multipleOf : number -> number -> bool) :
  exists t',
    patch_task Date_parse Number_toString multipleOf (Some "bruce") "t1" complete_body 5000
      sample_clock (MemOf completed_tasks)
    = (mkResponse 200 (TaskBody t'), MemOf (<[ "t1" := t' ]> completed_tasks))
    /\ patch_task Date_parse Number_toString multipleOf (Some "bruce") "t1" complete_body 5000
         sample_clock (DatabaseOf completed_tasks)
       = (mkResponse 200 (TaskBody t'), DatabaseOf (<[ "t1" := t' ]> completed_tasks))
    /\ Task.completedAt completed_task = Some 2000
    /\ Task.completedAt t' = Some 5000
    /\ Task.xpReward t' = lit 120
    /\ Task.euReward t' = lit 30.
Proof.
  assert (Hu : "bruce" <> "") by discriminate.
  destruct (patch_task_recompletion Date_parse Number_toString multipleOf "bruce" "t1" 5000
              sample_clock completed_tasks completed_task Hu
              completed_tasks_lookup eq_refl eq_refl)
    as (t' & Hmem & Hdb & Hat & Hxp & Heu).
  exists t'. repeat split; assumption.
Qed.

(** [completed_task] is what the update route makes of [sample_task] on the
    body [{ isCompleted: true }] received at time 2000, with the database
    storage. *)
Example first_completion (Date_parse : string -> option Date)
    (Number_toString : number -> string)
    (multipleOf : number -> number -> bool) :
  patch_task Date_parse Number_toString multipleOf (Some "bruce") "t1" complete_body 2000
    sample_clock (DatabaseOf sample_tasks)
  = (mkResponse 200 (TaskBody completed_task),
     DatabaseOf (<[ "t1" := completed_task ]> sample_tasks)).
Proof.
  rewrite (patch_task_complete_body _ _ _ "bruce" "t1" 2000 sample_clock
             (DatabaseOf sample_tasks) sample_task);
    [| discriminate
     | cbn; unfold DatabaseStorage.getTask, db.select_where_id;
       by rewrite sample_tasks_lookup
     | reflexivity].
  cbn [updateTask Database_IStorage table_of].
  unfold DatabaseStorage.updateTask, DatabaseStorage.getTask,
    db.select_where_id, db.update_where_id.
  rewrite sample_tasks_lookup. reflexivity.
Qed.

(** ** Deletion *)

Lemma Mem_deleteTask_absent (tasks : gmap string Task.t) (id : string) :
  tasks !! id = None -> MemStorage.deleteTask id tasks = (false, tasks).
Proof.
  intros Hnone. unfold MemStorage.deleteTask. rewrite delete_id by exact Hnone.
  f_equal. apply bool_decide_eq_false. rewrite Hnone. by intros [t Ht].
Qed.

Lemma Database_deleteTask_absent (table : gmap string Task.t) (id : string) :
  table !! id = None -> DatabaseStorage.deleteTask id table = (false, table).
Proof.
  intros Hnone. unfold DatabaseStorage.deleteTask, db.delete_where_id.
  by rewrite Hnone.
Qed.

Lemma Mem_deleteTask_present (tasks : gmap string Task.t) (id : string) :
  is_Some (tasks !! id) -> MemStorage.deleteTask id tasks = (true, delete id tasks).
Proof.
  intros Hsome. unfold MemStorage.deleteTask. f_equal.
  by apply bool_decide_eq_true.
Qed.

Lemma Database_deleteTask_present (table : gmap string Task.t) (id : string) :
  is_Some (table !! id) ->
  DatabaseStorage.deleteTask id table = (true, delete id table).
Proof.
  intros [t Ht]. unfold DatabaseStorage.deleteTask, db.delete_where_id.
  by rewrite Ht.
Qed.

Lemma Database_getTask_lookup (table : gmap string Task.t) (id : string) :
  DatabaseStorage.getTask id table = table !! id.
Proof.
  unfold DatabaseStorage.getTask, db.select_where_id.
  by destruct (table !! id).
Qed.

(** C9.  [deleteTask] on an id that is not stored returns false, raises
    nothing and leaves the store as it was; on a stored id it returns true
    and a [getTask] of that id after it finds no task.  This holds for both
    storage classes. *)
Theorem delete_signal (tasks : gmap string Task.t) (id : string) :
  (tasks !! id = None ->
   MemStorage.deleteTask id tasks = (false, tasks)
   /\ DatabaseStorage.deleteTask id tasks = (false, tasks))
  /\ (is_Some (tasks !! id) ->
      (MemStorage.deleteTask id tasks).1 = true
      /\ MemStorage.getTask id (MemStorage.deleteTask id tasks).2 = None
      /\ (DatabaseStorage.deleteTask id tasks).1 = true
      /\ DatabaseStorage.getTask id (DatabaseStorage.deleteTask id tasks).2 = None).
Proof.
  split.
  - intros Hnone. split;
      [by apply Mem_deleteTask_absent | by apply Database_deleteTask_absent].
  - intros Hsome.
    rewrite Mem_deleteTask_present, Database_deleteTask_present by exact Hsome.
    cbn [fst snd]. rewrite Database_getTask_lookup. unfold MemStorage.getTask.
    rewrite lookup_delete_eq. by repeat split.
Qed.

Lemma delete_signal_witness :
  (sample_tasks !! "t2" = None
   /\ MemStorage.deleteTask "t2" sample_tasks = (false, sample_tasks))
  /\ (is_Some (sample_tasks !! "t1")
      /\ (DatabaseStorage.deleteTask "t1" sample_tasks).1 = true
      /\ DatabaseStorage.getTask "t1" (DatabaseStorage.deleteTask "t1" sample_tasks).2
         = None).
Proof.
  assert (Habsent : sample_tasks !! "t2" = None)
    by (unfold sample_tasks; by rewrite lookup_singleton_ne).
  assert (Hpresent : is_Some (sample_tasks !! "t1"))
    by (rewrite sample_tasks_lookup; by eexists).
  split.
  - split; [exact Habsent |].
    exact (proj1 (proj1 (delete_signal sample_tasks "t2") Habsent)).
  - split; [exact Hpresent |].
    destruct (proj2 (delete_signal sample_tasks "t1") Hpresent)
      as (_ & _ & Htrue & Hgone).
    split; assumption.
Defined.

(** ** Creation *)

(** C7.  For every create-task input, [createTask] followed by [getTask] of
    the assigned id yields the created task: not completed, with zero XP and
    EU rewards, no completion time and no actual hours; with the title,
    domain and owner supplied; with the description, priority, estimated
    hours and due date supplied, or else no description, priority "medium",
    estimated hours "1.0" (the number 1) and no due date; and with the
    assigned id and both timestamps set to the time of creation. *)
Theorem create_read_roundtrip (id : string) (now : Date) (insertTask : InsertTask.t)
    (tasks : gmap string Task.t) :
  let created := (MemStorage.createTask id now insertTask tasks).1 in
  let tasks' := (MemStorage.createTask id now insertTask tasks).2 in
  MemStorage.getTask id tasks' = Some created
  /\ Task.id created = id
  /\ Task.isCompleted created = false
  /\ Task.xpReward created = lit 0
  /\ Task.euReward created = lit 0
  /\ Task.completedAt created = None
  /\ Task.actualHours created = None
  /\ Task.userId created = InsertTask.userId insertTask
  /\ Task.title created = InsertTask.title insertTask
  /\ Task.domain created = InsertTask.domain insertTask
  /\ Task.description created
     = match InsertTask.description insertTask with
       | Some (Some d) => Some d
       | _ => None
       end
  /\ Task.priority created
     = match InsertTask.priority insertTask with
       | Some p => p
       | None => "medium"
       end
  /\ Task.estimatedHours created
     = match InsertTask.estimatedHours insertTask with
       | Some h => h
       | None => "1.0"
       end
  /\ parseFloat "1.0" = lit 1
  /\ Task.dueDate created
     = match InsertTask.dueDate insertTask with
       | Some (Some d) => Some d
       | _ => None
       end
  /\ Task.createdAt created = now
  /\ Task.updatedAt created = now.
Proof.
  cbn zeta. unfold MemStorage.createTask, MemStorage.getTask. cbn [fst snd].
  split; [apply lookup_insert_eq |].
  repeat split; reflexivity.
Qed.

(** ** The two storage classes side by side *)

(** On every update the two classes agree on the completion flag, on both
    rewards and on the actual hours of the task they return. *)
Lemma storages_agree_on_rewards (tasks : gmap string Task.t) (id : string)
    (patch : UpdateTask.t) (clk : Clock) :
  match (MemStorage.updateTask clk id patch tasks).1,
        (DatabaseStorage.updateTask clk id patch tasks).1 with
  | Some tm, Some td =>
      Task.isCompleted tm = Task.isCompleted td
      /\ Task.xpReward tm = Task.xpReward td
      /\ Task.euReward tm = Task.euReward td
      /\ Task.actualHours tm = Task.actualHours td
  | None, None => True
  | _, _ => False
  end.
Proof.
  unfold MemStorage.updateTask, DatabaseStorage.updateTask,
    DatabaseStorage.getTask, db.select_where_id, db.update_where_id.
  destruct (tasks !! id) as [existingTask |] eqn:Hlookup; cbn [head fst];
    [| exact I].
  destruct (truthy_flag (UpdateTask.isCompleted patch)
            && negb (Task.isCompleted existingTask));
    cbn; by repeat split.
Qed.

(** C6.  The two storage classes differ on [completedAt]: on the patch
    [{ isCompleted: true }] applied to the pending sample task, the memory
    storage returns a completed task without completion time, the database
    storage one completed at the time of the call. *)
Theorem storages_differ_on_completedAt :
  exists tm td,
    MemStorage.updateTask sample_clock "t1" complete_patch sample_tasks
    = (Some tm, <[ "t1" := tm ]> sample_tasks)
    /\ DatabaseStorage.updateTask sample_clock "t1" complete_patch sample_tasks
       = (Some td, <[ "t1" := td ]> sample_tasks)
    /\ Task.isCompleted tm = true
    /\ Task.isCompleted td = true
    /\ Task.completedAt tm = None
    /\ Task.completedAt td = Some 2000.
Proof.
  destruct (Mem_updateTask_completes sample_tasks "t1" sample_task complete_patch
              sample_clock sample_tasks_lookup eq_refl eq_refl)
    as (tm & Hm & [Hfm _ _ _] & Hatm).
  destruct (Database_updateTask_completes sample_tasks "t1" sample_task
              complete_patch sample_clock sample_tasks_lookup eq_refl eq_refl)
    as (td & Hd & [Hfd _ _ _] & Hatd).
  exists tm, td. repeat split; assumption.
Qed.

(** * The rest of the task and goal code *)

(** ** JavaScript [Map]s

    A [Map] enumerates its entries in the order in which their keys were
    first set; setting a key again keeps its place.  [MemStorage] above keeps
    of its maps the finite map [to_gmap]; the listing methods need the
    order. *)
Module JsMap.

Definition t (V : Type) : Type := list (string * V).

Definition empty {V : Type} : t V := [].

Fixpoint get {V : Type} (key : string) (m : t V) : option V :=
  match m with
  | [] => None
  | (k, v) :: rest => if String.eqb k key then Some v else get key rest
  end.

Fixpoint set {V : Type} (key : string) (value : V) (m : t V) : t V :=
  match m with
  | [] => [(key, value)]
  | (k, v) :: rest =>
      if String.eqb k key then (key, value) :: rest
      else (k, v) :: set key value rest
  end.

Fixpoint remove {V : Type} (key : string) (m : t V) : t V :=
  match m with
  | [] => []
  | (k, v) :: rest =>
      if String.eqb k key then remove key rest else (k, v) :: remove key rest
  end.

(** [m.delete(key)]: whether the key was there, and the map left. *)
Definition delete {V : Type} (key : string) (m : t V) : bool * t V :=
  (bool_decide (is_Some (get key m)), remove key m).

(** [Array.from(m.values())]. *)
Definition values {V : Type} (m : t V) : list V := map snd m.

Definition keys {V : Type} (m : t V) : list string := map fst m.

(** No key occurs twice: the maps built from [empty] by [set] and [delete]. *)
Definition wf {V : Type} (m : t V) : Prop := NoDup (keys m).

Definition to_gmap {V : Type} (m : t V) : gmap string V := list_to_map m.

End JsMap.

(** ** [Array.prototype.sort]

    The sort is stable, and with a comparator that is a consistent order its
    result is the one sorted arrangement that keeps equal elements in their
    original order, whatever algorithm the engine runs.  [compare a b] is
    the sign-carrying number of the comparator, an integer here. *)
Fixpoint sort_insert {A : Type} (compare : A -> A -> Z) (x : A) (l : list A)
  : list A :=
  match l with
  | [] => [x]
  | y :: rest =>
      if compare x y <=? 0 then x :: y :: rest
      else y :: sort_insert compare x rest
  end.

Fixpoint sort {A : Type} (compare : A -> A -> Z) (l : list A) : list A :=
  match l with
  | [] => []
  | x :: rest => sort_insert compare x (sort compare rest)
  end.

(** ** [MemStorage] on [Map]s: the task methods *)
Module MemStore.

(** The task [createTask] builds. *)
Definition new_task (id : string) (now : Date) (insertTask : InsertTask.t)
  : Task.t :=
  {| Task.userId := InsertTask.userId insertTask;
     Task.title := InsertTask.title insertTask;
     Task.domain := InsertTask.domain insertTask;
     Task.description := or_null (InsertTask.description insertTask);
     Task.priority := default "medium" (InsertTask.priority insertTask);
     Task.estimatedHours := default "1.0" (InsertTask.estimatedHours insertTask);
     Task.actualHours := None;
     Task.dueDate := or_null (InsertTask.dueDate insertTask);
     Task.id := id;
     Task.xpReward := lit 0;
     Task.euReward := lit 0;
     Task.isCompleted := false;
     Task.completedAt := None;
     Task.createdAt := now;
     Task.updatedAt := now |}.

(** [(a, b) => new Date(b.createdAt).getTime() - new Date(a.createdAt).getTime()]. *)
Definition newest_first (a b : Task.t) : Z := Task.createdAt b - Task.createdAt a.

Definition getTasks (userId : string) (tasks : JsMap.t Task.t) : list Task.t :=
  sort newest_first
    (List.filter (fun task => String.eqb (Task.userId task) userId)
       (JsMap.values tasks)).

Definition getTask (id : string) (tasks : JsMap.t Task.t) : option Task.t :=
  JsMap.get id tasks.

Definition createTask (id : string) (now : Date) (insertTask : InsertTask.t)
    (tasks : JsMap.t Task.t) : Task.t * JsMap.t Task.t :=
  let task := new_task id now insertTask in
  (task, JsMap.set id task tasks).

Definition updateTask (clk : Clock) (id : string) (updateData : UpdateTask.t)
    (tasks : JsMap.t Task.t) : option Task.t * JsMap.t Task.t :=
  match JsMap.get id tasks with
  | None => (None, tasks)
  | Some existingTask =>
      let calculatedRewards :=
        if truthy_flag (UpdateTask.isCompleted updateData)
           && negb (Task.isCompleted existingTask)
        then
          let actualHours :=
            string_or (UpdateTask.actualHours updateData)
                      (Task.estimatedHours existingTask) in
          let hoursAsNumber := parseFloat actualHours in
          let xpReward :=
            MemStorage.calculateXPReward (Task.priority existingTask) hoursAsNumber in
          let euReward :=
            MemStorage.calculateEUReward (Task.domain existingTask) hoursAsNumber in
          Some {| Rewards.xpReward := xpReward;
                  Rewards.euReward := euReward;
                  Rewards.actualHours := actualHours;
                  Rewards.completedAt := None |}
        else None in
      let updatedTask := merge_task existingTask updateData calculatedRewards (clk O) in
      (Some updatedTask, JsMap.set id updatedTask tasks)
  end.

Definition deleteTask (id : string) (tasks : JsMap.t Task.t)
  : bool * JsMap.t Task.t :=
  JsMap.delete id tasks.

End MemStore.

(** ** [DatabaseStorage]: listing and creating tasks *)
Module DatabaseStore.

(** Modelled from the spec: the query
    [db.select().from(tasks).where(eq(tasks.userId, userId))] on the missing
    [db] handle, the rows of that owner.  A select without an order clause
    leaves the order of the rows to the store; here it is the order in which
    the finite map enumerates. *)
Definition select_where_userId (userId : string) (table : gmap string Task.t)
  : list Task.t :=
  List.filter (fun row => String.eqb (Task.userId row) userId)
    (map snd (map_to_list table)).

(** Modelled from the spec: the row an insert of [values] on the missing
    [db] handle writes and returns.  The columns left out take the defaults
    the [tasks] table declares in the schema; [id] is the
    [gen_random_uuid()] and [now] the [now()] of the store.  The row keeps
    the values as they are given: what the column types do to them (the
    [numeric(4, 1)] columns of the hours return 2 as 2.0, and a value a
    column does not take makes the statement raise) is not represented. *)
Definition inserted_row (id : string) (now : Date) (values : InsertTask.t)
  : Task.t :=
  {| Task.id := id;
     Task.userId := InsertTask.userId values;
     Task.title := InsertTask.title values;
     Task.description := or_null (InsertTask.description values);
     Task.domain := InsertTask.domain values;
     Task.priority := default "medium" (InsertTask.priority values);
     Task.estimatedHours := default "1.0" (InsertTask.estimatedHours values);
     Task.actualHours := or_null (InsertTask.actualHours values);
     Task.xpReward := lit 0;
     Task.euReward := lit 0;
     Task.isCompleted := false;
     Task.completedAt := None;
     Task.dueDate := or_null (InsertTask.dueDate values);
     Task.createdAt := now;
     Task.updatedAt := now |}.

(** Modelled from the spec: the statement
    [db.insert(tasks).values(values).returning()] on the missing [db]
    handle, the row written and the table left; [None] when the primary key
    is taken and the statement raises. *)
Definition insert_returning (id : string) (now : Date) (values : InsertTask.t)
    (table : gmap string Task.t) : option (Task.t * gmap string Task.t) :=
  match table !! id with
  | Some _ => None
  | None =>
      let row := inserted_row id now values in
      Some (row, <[id := row]> table)
  end.

Definition getTasks (userId : string) (table : gmap string Task.t) : list Task.t :=
  select_where_userId userId table.

Definition createTask (id : string) (now : Date) (insertTask : InsertTask.t)
    (table : gmap string Task.t) : option (Task.t * gmap string Task.t) :=
  insert_returning id now insertTask table.

End DatabaseStore.

(** ** The storage interface, continued

    [getTasks] and [createTask] of [IStorage]; [createTask] is [None] when
    the storage raises. *)
Class ITaskStorage (Store : Type) : Type := {
  getTasks : string -> Store -> list Task.t;
  createTask : string -> Date -> InsertTask.t -> Store -> option (Task.t * Store)
}.

(** [MemStorage] with its task [Map]. *)
Inductive MemTasks : Type := MemTasksOf (tasks : JsMap.t Task.t).

Definition task_map (s : MemTasks) : JsMap.t Task.t := let 'MemTasksOf m := s in m.

#[export] Instance MemTasks_IStorage : IStorage MemTasks := {
  getTask id s := MemStore.getTask id (task_map s);
  updateTask clk id u s :=
    let '(r, m) := MemStore.updateTask clk id u (task_map s) in (r, MemTasksOf m);
  deleteTask id s :=
    let '(r, m) := MemStore.deleteTask id (task_map s) in (r, MemTasksOf m)
}.

#[export] Instance MemTasks_ITaskStorage : ITaskStorage MemTasks := {
  getTasks userId s := MemStore.getTasks userId (task_map s);
  createTask id now insertTask s :=
    let '(task, m) := MemStore.createTask id now insertTask (task_map s) in
    Some (task, MemTasksOf m)
}.

#[export] Instance Database_ITaskStorage : ITaskStorage Database := {
  getTasks userId s := DatabaseStore.getTasks userId (table_of s);
  createTask id now insertTask s :=
    match DatabaseStore.createTask id now insertTask (table_of s) with
    | Some (task, m) => Some (task, DatabaseOf m)
    | None => None
    end
}.

(** ** The task routes, continued *)

(** What a handler sends: a status with a JSON value, an error object, an
    error object with the issues of a [ZodError], or no body. *)
Inductive Answer (A : Type) : Type :=
  | Json (status : Z) (value : A)
  | Error (status : Z) (error : string)
  | ErrorDetails (status : Z) (error : string) (details : list string)
  | NoContent (status : Z).

Arguments Json {A} status value.
Arguments Error {A} status error.
Arguments ErrorDetails {A} status error details.
Arguments NoContent {A} status.

Definition answer_status {A : Type} (a : Answer A) : Z :=
  match a with
  | Json status _ | Error status _ | ErrorDetails status _ _ | NoContent status =>
      status
  end.

(** [z.infer<typeof clientTaskSchema>]: the insert schema with the estimated
    hours as a required number and the due date as a string, without
    [userId].  A request body is taken with its keys already of these
    types. *)
Module ClientTask.
Record t : Type := mk {
  title : string;
  description : option (option string);
  domain : string;
  priority : option string;
  estimatedHours : number;
  actualHours : option (option string);
  dueDate : option string
}.
End ClientTask.

Section TaskRoutes.

Context {Store : Type} `{IStorage Store} `{ITaskStorage Store}.

Variable Date_parse : string -> option Date.
Variable Number_toString : number -> string.
Variable multipleOf : number -> number -> bool.

(** [app.get("/api/tasks", ...)]. *)
Definition get_tasks (userId : option string) (s : Store) : Answer (list Task.t) :=
  match session_user userId with
  | None => Error 401 "Unauthorized"
  | Some userId => Json 200 (getTasks userId s)
  end.

(** [clientTaskSchema.parse(body)]: the validated data, or the paths of the
    issues of the [ZodError], one for each check the estimated hours
    fail. *)
Definition clientTaskSchema_parse (body : ClientTask.t)
  : list string + ClientTask.t :=
  match number_issues multipleOf "estimatedHours" (of_decimal false 5 (-1))
          (lit 24) (of_decimal false 5 (-1)) (ClientTask.estimatedHours body) with
  | [] => inr body
  | issue :: issues => inl (issue :: issues)
  end.

(** The conversion of validated data to the server format, the keys left
    [undefined] deleted, followed by [insertTaskSchema.parse]: that parse
    rejects an invalid [dueDate]; a missing or empty one becomes [null]. *)
Definition to_insert_task (userId : string) (validatedData : ClientTask.t)
  : list string + InsertTask.t :=
  let taskData (dueDate : option Date) : InsertTask.t :=
    {| InsertTask.userId := userId;
       InsertTask.title := ClientTask.title validatedData;
       InsertTask.description := ClientTask.description validatedData;
       InsertTask.domain := ClientTask.domain validatedData;
       InsertTask.priority := ClientTask.priority validatedData;
       InsertTask.estimatedHours :=
         Some (Number_toString (ClientTask.estimatedHours validatedData));
       InsertTask.actualHours := ClientTask.actualHours validatedData;
       InsertTask.dueDate := Some dueDate |} in
  match ClientTask.dueDate validatedData with
  | Some (String c r) =>
      match Date_parse (String c r) with
      | Some d => inr (taskData (Some d))
      | None => inl ["dueDate"]
      end
  | _ => inr (taskData None)
  end.

(** [app.post("/api/tasks", ...)].  [id] and [now] are what the storage
    draws for the new task. *)
Definition post_task (userId : option string) (body : ClientTask.t)
    (id : string) (now : Date) (s : Store) : Answer Task.t * Store :=
  match session_user userId with
  | None => (Error 401 "Unauthorized", s)
  | Some userId =>
      match clientTaskSchema_parse body with
      | inl details => (ErrorDetails 400 "Invalid task data" details, s)
      | inr validatedData =>
          match to_insert_task userId validatedData with
          | inl details => (ErrorDetails 400 "Invalid task data" details, s)
          | inr insertTask =>
              match createTask id now insertTask s with
              | Some (task, s') => (Json 201 task, s')
              | None => (Error 500 "Failed to create task", s)
              end
          end
      end
  end.

End TaskRoutes.

(** * Properties of the rest of the code *)

(** ** [Map]s and finite maps *)

Lemma JsMap_get_to_gmap {V : Type} (key : string) (m : JsMap.t V) :
  JsMap.get key m = JsMap.to_gmap m !! key.
Proof.
  unfold JsMap.to_gmap. induction m as [| [k v] rest IH]; [done |].
  cbn [JsMap.get list_to_map foldr]. cbn.
  destruct (String.eqb_spec k key) as [-> | Hne].
  - by rewrite lookup_insert_eq.
  - by rewrite lookup_insert_ne.
Qed.

Lemma JsMap_to_gmap_set {V : Type} (key : string) (value : V) (m : JsMap.t V) :
  JsMap.to_gmap (JsMap.set key value m) = <[key := value]> (JsMap.to_gmap m).
Proof.
  unfold JsMap.to_gmap. induction m as [| [k v] rest IH]; [done |].
  cbn [JsMap.set]. destruct (String.eqb_spec k key) as [-> | Hne]; cbn.
  - by rewrite insert_insert_eq.
  - rewrite IH. by apply insert_insert_ne.
Qed.

Lemma JsMap_to_gmap_remove {V : Type} (key : string) (m : JsMap.t V) :
  JsMap.to_gmap (JsMap.remove key m) = delete key (JsMap.to_gmap m).
Proof.
  unfold JsMap.to_gmap. induction m as [| [k v] rest IH]; cbn.
  - by rewrite delete_empty.
  - destruct (String.eqb_spec k key) as [-> | Hne]; cbn.
    + by rewrite delete_insert_eq.
    + rewrite delete_insert_ne by done. by rewrite IH.
Qed.

Lemma JsMap_keys_set {V : Type} (key : string) (value : V) (m : JsMap.t V) :
  forall k, k ∈ JsMap.keys (JsMap.set key value m) <-> k = key \/ k ∈ JsMap.keys m.
Proof.
  intros k0. induction m as [| [k v] rest IH]; cbn.
  - rewrite list_elem_of_singleton. split; [by left | intros [? | H]; [done |]].
    by apply elem_of_nil in H.
  - destruct (String.eqb_spec k key) as [-> | Hne]; cbn;
      rewrite !elem_of_cons; [tauto |].
    rewrite IH. tauto.
Qed.

Lemma JsMap_wf_set {V : Type} (key : string) (value : V) (m : JsMap.t V) :
  JsMap.wf m -> JsMap.wf (JsMap.set key value m).
Proof.
  unfold JsMap.wf. induction m as [| [k v] rest IH]; cbn; intros Hwf.
  - apply NoDup_singleton.
  - apply NoDup_cons in Hwf as [Hk Hrest].
    destruct (String.eqb_spec k key) as [-> | Hne]; cbn.
    + by apply NoDup_cons.
    + apply NoDup_cons. split; [| by apply IH].
      intros Hin. apply (JsMap_keys_set key value rest k) in Hin as [-> | Hin];
        [by apply Hne | by apply Hk].
Qed.

Lemma JsMap_keys_remove {V : Type} (key : string) (m : JsMap.t V) :
  forall k, k ∈ JsMap.keys (JsMap.remove key m) <-> k <> key /\ k ∈ JsMap.keys m.
Proof.
  intros k0. induction m as [| [k v] rest IH]; cbn.
  - split; [intros H; by apply elem_of_nil in H | intros [_ H]; by apply elem_of_nil in H].
  - destruct (String.eqb_spec k key) as [-> | Hne]; cbn; rewrite !elem_of_cons, ?IH.
    + split; [tauto | intros [Hk [-> | Hin]]; [done | tauto]].
    + split; [intros [-> | [? ?]]; tauto | tauto].
Qed.

Lemma JsMap_wf_remove {V : Type} (key : string) (m : JsMap.t V) :
  JsMap.wf m -> JsMap.wf (JsMap.remove key m).
Proof.
  unfold JsMap.wf. induction m as [| [k v] rest IH]; cbn; intros Hwf; [done |].
  apply NoDup_cons in Hwf as [Hk Hrest].
  destruct (String.eqb_spec k key) as [-> | Hne]; cbn; [by apply IH |].
  apply NoDup_cons. split; [| by apply IH].
  intros Hin. apply (JsMap_keys_remove key rest k) in Hin as [_ Hin]. by apply Hk.
Qed.

Lemma JsMap_get_None {V : Type} (key : string) (m : JsMap.t V) :
  key ∉ JsMap.keys m -> JsMap.get key m = None.
Proof.
  induction m as [| [k v] rest IH]; cbn; [done |].
  rewrite not_elem_of_cons. intros [Hne Hin].
  destruct (String.eqb_spec k key) as [-> | _]; [done | by apply IH].
Qed.

(** The values of a map are what its keys look up. *)
Lemma JsMap_elem_of_values {V : Type} (m : JsMap.t V) (v : V) :
  JsMap.wf m ->
  v ∈ JsMap.values m <-> exists key, JsMap.get key m = Some v.
Proof.
  unfold JsMap.wf. induction m as [| [k x] rest IH]; cbn; intros Hwf.
  - split; [intros H; by apply elem_of_nil in H | by intros [? ?]].
  - apply NoDup_cons in Hwf as [Hk Hrest]. rewrite elem_of_cons, (IH Hrest).
    split.
    + intros [-> | [key Hget]].
      * exists k. by rewrite String.eqb_refl.
      * exists key. destruct (String.eqb_spec k key) as [-> | _]; [| done].
        rewrite JsMap_get_None in Hget by done. discriminate.
    + intros [key Hget].
      destruct (String.eqb_spec k key) as [-> | _]; [left; congruence |].
      right. by exists key.
Qed.

(** ** Sorting *)

Lemma sort_insert_Permutation {A : Type} (compare : A -> A -> Z) (x : A)
    (l : list A) :
  sort_insert compare x l ≡ₚ x :: l.
Proof.
  induction l as [| y rest IH]; cbn; [done |].
  destruct (compare x y <=? 0); [done |].
  rewrite IH. apply Permutation_swap.
Qed.

Lemma sort_Permutation {A : Type} (compare : A -> A -> Z) (l : list A) :
  sort compare l ≡ₚ l.
Proof.
  induction l as [| x rest IH]; cbn; [done |].
  rewrite sort_insert_Permutation. by rewrite IH.
Qed.

(** Sorting keeps, among the elements a test selects, their original order,
    provided the comparator puts every selected element on one side of
    every element it is compared unequal to, as a key comparison does. *)
Lemma sort_insert_filter {A : Type} (compare : A -> A -> Z) (sel : A -> bool)
    (x : A) (l : list A) :
  (forall y, sel x = true -> sel y = true -> compare x y = 0) ->
  List.filter sel (sort_insert compare x l) = List.filter sel (x :: l).
Proof.
  intros Hsel. induction l as [| y rest IH]; [done |].
  cbn [sort_insert]. destruct (compare x y <=? 0) eqn:Hle; [done |].
  cbn [List.filter] in *. destruct (sel y) eqn:Hy.
  - destruct (sel x) eqn:Hx.
    + rewrite (Hsel y) in Hle by done. discriminate.
    + by rewrite IH.
  - exact IH.
Qed.

Lemma sort_filter {A : Type} (compare : A -> A -> Z) (sel : A -> bool)
    (l : list A) :
  (forall x y, sel x = true -> sel y = true -> compare x y = 0) ->
  List.filter sel (sort compare l) = List.filter sel l.
Proof.
  intros Hsel. induction l as [| x rest IH]; [done |].
  cbn [sort]. rewrite sort_insert_filter by (intros y; apply Hsel).
  cbn [List.filter]. by rewrite IH.
Qed.

(** Newest first: every task is at least as recent as those after it. *)
Definition not_older (a b : Task.t) : Prop := Task.createdAt b <= Task.createdAt a.

Lemma sort_insert_newest_first (x : Task.t) (l : list Task.t) :
  StronglySorted not_older l ->
  StronglySorted not_older (sort_insert MemStore.newest_first x l).
Proof.
  induction 1 as [| y rest Hrest IH Hy]; cbn.
  - repeat constructor.
  - unfold MemStore.newest_first at 1.
    destruct (Task.createdAt y - Task.createdAt x <=? 0) eqn:Hle.
    + apply Z.leb_le in Hle. constructor; [by constructor |].
      constructor; [unfold not_older; lia |].
      eapply Forall_impl; [exact Hy |]. unfold not_older. intros z Hz. lia.
    + apply Z.leb_gt in Hle. constructor; [exact IH |].
      rewrite sort_insert_Permutation. constructor; [unfold not_older; lia | exact Hy].
Qed.

Lemma sort_newest_first (l : list Task.t) :
  StronglySorted not_older (sort MemStore.newest_first l).
Proof.
  induction l as [| x rest IH]; cbn; [constructor |].
  by apply sort_insert_newest_first.
Qed.

(** ** [MemStore] and [MemStorage]

    The methods on [Map]s act on the finite map of the [Map] as the methods
    of [MemStorage] above do. *)

Lemma MemStore_getTask_view (id : string) (m : JsMap.t Task.t) :
  MemStore.getTask id m = MemStorage.getTask id (JsMap.to_gmap m).
Proof. apply JsMap_get_to_gmap. Qed.

Lemma MemStore_createTask_view (id : string) (now : Date) (insertTask : InsertTask.t)
    (m : JsMap.t Task.t) :
  ((MemStore.createTask id now insertTask m).1,
   JsMap.to_gmap (MemStore.createTask id now insertTask m).2)
  = MemStorage.createTask id now insertTask (JsMap.to_gmap m).
Proof.
  unfold MemStore.createTask, MemStorage.createTask. cbn [fst snd].
  by rewrite JsMap_to_gmap_set.
Qed.

Lemma MemStore_updateTask_view (clk : Clock) (id : string) (updateData : UpdateTask.t)
    (m : JsMap.t Task.t) :
  ((MemStore.updateTask clk id updateData m).1,
   JsMap.to_gmap (MemStore.updateTask clk id updateData m).2)
  = MemStorage.updateTask clk id updateData (JsMap.to_gmap m).
Proof.
  unfold MemStore.updateTask, MemStorage.updateTask.
  rewrite <- JsMap_get_to_gmap.
  destruct (JsMap.get id m) as [existingTask |]; [| done].
  cbn [fst snd]. by rewrite JsMap_to_gmap_set.
Qed.

Lemma MemStore_deleteTask_view (id : string) (m : JsMap.t Task.t) :
  ((MemStore.deleteTask id m).1, JsMap.to_gmap (MemStore.deleteTask id m).2)
  = MemStorage.deleteTask id (JsMap.to_gmap m).
Proof.
  unfold MemStore.deleteTask, MemStorage.deleteTask, JsMap.delete. cbn [fst snd].
  by rewrite JsMap_to_gmap_remove, JsMap_get_to_gmap.
Qed.

(** ** What an update does to a task *)

(** The task [t'] is [existingTask] updated by [patch], the storage class
    stamping the completion time itself ([stamps]) or not, at the clock
    [clk]. *)
Record updates (stamps : bool) (clk : Clock) (existingTask : Task.t)
    (patch : UpdateTask.t) (t' : Task.t) : Prop := {
  updates_id : Task.id t' = Task.id existingTask;
  updates_userId : Task.userId t' = Task.userId existingTask;
  updates_createdAt : Task.createdAt t' = Task.createdAt existingTask;
  updates_updatedAt :
    Task.updatedAt t'
    = clk (if stamps && completing existingTask patch then 1%nat else O);
  updates_isCompleted :
    Task.isCompleted t'
    = spread (Task.isCompleted existingTask) (UpdateTask.isCompleted patch);
  updates_priority :
    Task.priority t' = spread (Task.priority existingTask) (UpdateTask.priority patch);
  updates_domain :
    Task.domain t' = spread (Task.domain existingTask) (UpdateTask.domain patch);
  updates_rewards :
    if completing existingTask patch
    then completes existingTask patch t'
    else Task.xpReward t' = Task.xpReward existingTask
         /\ Task.euReward t' = Task.euReward existingTask
         /\ Task.actualHours t'
            = spread (Task.actualHours existingTask) (UpdateTask.actualHours patch);
  updates_completedAt :
    Task.completedAt t'
    = if stamps && completing existingTask patch then Some (clk O)
      else spread (Task.completedAt existingTask) (UpdateTask.completedAt patch)
}.

(** [updateTask] of the storage class that stamps or not. *)
Definition updateTask_of (stamps : bool) :
  Clock -> string -> UpdateTask.t -> gmap string Task.t ->
  option Task.t * gmap string Task.t :=
  if stamps then DatabaseStorage.updateTask else MemStorage.updateTask.

Lemma completing_true (existingTask : Task.t) (patch : UpdateTask.t) :
  completing existingTask patch = true ->
  Task.isCompleted existingTask = false /\ UpdateTask.isCompleted patch = Some true.
Proof.
  unfold completing. intros [Hflag Hdone]%andb_prop.
  destruct (UpdateTask.isCompleted patch) as [[|] |]; try discriminate.
  by destruct (Task.isCompleted existingTask).
Qed.

Lemma updateTask_of_present (stamps : bool) (tasks : gmap string Task.t)
    (id : string) (existingTask : Task.t) (patch : UpdateTask.t) (clk : Clock) :
  tasks !! id = Some existingTask ->
  exists t',
    updateTask_of stamps clk id patch tasks = (Some t', <[id := t']> tasks)
    /\ updates stamps clk existingTask patch t'.
Proof.
  intros Hlookup.
  destruct (completing existingTask patch) eqn:Hguard.
  - destruct (completing_true _ _ Hguard) as [Hpending Hflag].
    destruct stamps; cbn [updateTask_of].
    + destruct (Database_updateTask_completes tasks id existingTask patch clk
                  Hlookup Hpending Hflag) as (t' & Hupd & Hc & Hat).
      exists t'. split; [exact Hupd |].
      revert Hupd. unfold DatabaseStorage.updateTask, DatabaseStorage.getTask,
        db.select_where_id, db.update_where_id.
      rewrite Hlookup. cbn [head]. unfold completing in Hguard. rewrite Hguard.
      intros [= <-]. split; cbn; rewrite ?Hguard; try done.
      all: unfold completing; by rewrite ?Hguard.
    + destruct (Mem_updateTask_completes tasks id existingTask patch clk
                  Hlookup Hpending Hflag) as (t' & Hupd & Hc & Hat).
      exists t'. split; [exact Hupd |].
      revert Hupd. unfold MemStorage.updateTask.
      rewrite Hlookup. unfold completing in Hguard. rewrite Hguard.
      intros [= <-]. split; cbn; try done.
      unfold completing; by rewrite ?Hguard.
  - exists (merge_task existingTask patch None (clk O)). split.
    + destruct stamps; cbn [updateTask_of];
        [by apply Database_updateTask_plain | by apply Mem_updateTask_plain].
    + split; cbn; rewrite ?Hguard, ?andb_false_r; done.
Qed.

Lemma updateTask_of_absent (stamps : bool) (tasks : gmap string Task.t)
    (id : string) (patch : UpdateTask.t) (clk : Clock) :
  tasks !! id = None ->
  updateTask_of stamps clk id patch tasks = (None, tasks).
Proof.
  intros Hnone. destruct stamps; cbn [updateTask_of].
  - unfold DatabaseStorage.updateTask, DatabaseStorage.getTask, db.select_where_id.
    by rewrite Hnone.
  - unfold MemStorage.updateTask. by rewrite Hnone.
Qed.

Lemma updateTask_of_frame (stamps : bool) (tasks : gmap string Task.t)
    (id : string) (patch : UpdateTask.t) (clk : Clock) :
  let tasks' := (updateTask_of stamps clk id patch tasks).2 in
  (forall id', id' <> id -> tasks' !! id' = tasks !! id')
  /\ (is_Some (tasks' !! id) <-> is_Some (tasks !! id))
  /\ dom tasks' = dom tasks.
Proof.
  destruct (tasks !! id) as [existingTask |] eqn:Hlookup.
  - destruct (updateTask_of_present stamps tasks id existingTask patch clk Hlookup)
      as (t' & -> & _).
    cbn [snd]. split; [intros id' Hne; by rewrite lookup_insert_ne |].
    split; [rewrite lookup_insert_eq; split; by eauto |].
    apply dom_insert_lookup_L. by eexists.
  - rewrite (updateTask_of_absent stamps tasks id patch clk Hlookup). cbn [snd].
    rewrite Hlookup. by repeat split.
Qed.

(** X1.  [updateTask] touches the task of its id and nothing else: every
    other task is stored as before, no task is created and none removed; on
    an id that is not stored it returns no task and leaves the store as it
    was.  This holds for both storage classes. *)
Theorem updateTask_touches_one_task (tasks : gmap string Task.t) (id : string)
    (patch : UpdateTask.t) (clk : Clock) :
  (forall id', id' <> id ->
     (MemStorage.updateTask clk id patch tasks).2 !! id' = tasks !! id'
     /\ (DatabaseStorage.updateTask clk id patch tasks).2 !! id' = tasks !! id')
  /\ dom (MemStorage.updateTask clk id patch tasks).2 = dom tasks
  /\ dom (DatabaseStorage.updateTask clk id patch tasks).2 = dom tasks
  /\ (tasks !! id = None ->
      MemStorage.updateTask clk id patch tasks = (None, tasks)
      /\ DatabaseStorage.updateTask clk id patch tasks = (None, tasks)).
Proof.
  destruct (updateTask_of_frame false tasks id patch clk) as (Hm & _ & Hdm).
  destruct (updateTask_of_frame true tasks id patch clk) as (Hd & _ & Hdd).
  split; [intros id' Hne; split; [by apply Hm | by apply Hd] |].
  split; [exact Hdm |]. split; [exact Hdd |].
  intros Hnone. split;
    [exact (updateTask_of_absent false tasks id patch clk Hnone)
    | exact (updateTask_of_absent true tasks id patch clk Hnone)].
Qed.

Lemma updateTask_touches_one_task_witness :
  sample_tasks !! "t2" = None
  /\ MemStorage.updateTask sample_clock "t2" complete_patch sample_tasks
     = (None, sample_tasks)
  /\ (DatabaseStorage.updateTask sample_clock "t2" complete_patch sample_tasks).2
     !! "t1" = sample_tasks !! "t1".
Proof.
  assert (Habsent : sample_tasks !! "t2" = None)
    by (unfold sample_tasks; by rewrite lookup_singleton_ne).
  destruct (updateTask_touches_one_task sample_tasks "t2" complete_patch sample_clock)
    as (Hother & _ & _ & Hmissing).
  split; [exact Habsent |].
  split; [exact (proj1 (Hmissing Habsent)) |].
  assert (Hne : "t1" <> "t2") by discriminate.
  exact (proj2 (Hother "t1" Hne)).
Defined.






(** ** Listing tasks *)

Lemma elem_of_List_filter {A : Type} (f : A -> bool) (l : list A) (x : A) :
  x ∈ List.filter f l <-> x ∈ l /\ f x = true.
Proof. rewrite !list_elem_of_In. apply filter_In. Qed.

Lemma List_filter_app {A : Type} (f : A -> bool) (l1 l2 : list A) :
  List.filter f (l1 ++ l2)%list = (List.filter f l1 ++ List.filter f l2)%list.
Proof. apply List.filter_app. Qed.

Lemma JsMap_set_fresh {V : Type} (key : string) (value : V) (m : JsMap.t V) :
  JsMap.get key m = None -> JsMap.set key value m = (m ++ [(key, value)])%list.
Proof.
  induction m as [| [k v] rest IH]; cbn; [done |].
  destruct (String.eqb_spec k key) as [-> | _]; [discriminate |].
  intros Hnone. by rewrite IH.
Qed.

Lemma DatabaseStore_elem_of_getTasks (table : gmap string Task.t)
    (userId : string) (t : Task.t) :
  t ∈ DatabaseStore.getTasks userId table
  <-> exists id, table !! id = Some t /\ Task.userId t = userId.
Proof.
  unfold DatabaseStore.getTasks, DatabaseStore.select_where_userId.
  rewrite elem_of_List_filter, String.eqb_eq. split.
  - intros [Hin Hu]. apply list_elem_of_In, in_map_iff in Hin as ([id t0] & Heq & Hin).
    cbn in Heq. subst t0. apply list_elem_of_In, elem_of_map_to_list in Hin.
    by exists id.
  - intros (id & Hlookup & Hu). split; [| done].
    apply list_elem_of_In, in_map_iff. exists (id, t). split; [done |].
    by apply list_elem_of_In, elem_of_map_to_list.
Qed.

(** X4.  [getTasks] returns the tasks of the owner asked for and no other:
    a task is listed exactly when it is stored under some id with that
    [userId].  This holds for the memory storage, whose [Map] has no key
    twice, and for the database storage. *)
Theorem getTasks_lists_owner_tasks (userId : string) (t : Task.t) :
  (forall tasks : JsMap.t Task.t,
      JsMap.wf tasks ->
      t ∈ MemStore.getTasks userId tasks
      <-> exists id, MemStore.getTask id tasks = Some t /\ Task.userId t = userId)
  /\ (forall table : gmap string Task.t,
         t ∈ DatabaseStore.getTasks userId table
         <-> exists id, DatabaseStorage.getTask id table = Some t
                        /\ Task.userId t = userId).
Proof.
  split.
  - intros tasks Hwf. unfold MemStore.getTasks, MemStore.getTask.
    rewrite sort_Permutation, elem_of_List_filter, String.eqb_eq.
    rewrite (JsMap_elem_of_values tasks t Hwf). split.
    + intros [[id Hget] Hu]. by exists id.
    + intros (id & Hget & Hu). split; [by exists id | done].
  - intros table. rewrite DatabaseStore_elem_of_getTasks.
    split; intros (id & Hget & Hu); exists id;
      by rewrite ?Database_getTask_lookup in *.
Qed.

(** A memory store of two tasks of bruce and one of selina, the second of
    bruce's the newest. *)
Definition task_of (id userId : string) (createdAt : Date) : Task.t :=
  {| Task.id := id;
     Task.userId := userId;
     Task.title := "Patrol";
     Task.description := None;
     Task.domain := "fitness";
     Task.priority := "medium";
     Task.estimatedHours := "1.0";
     Task.actualHours := None;
     Task.xpReward := lit 0;
     Task.euReward := lit 0;
     Task.isCompleted := false;
     Task.completedAt := None;
     Task.dueDate := None;
     Task.createdAt := createdAt;
     Task.updatedAt := createdAt |}.

Definition three_tasks : JsMap.t Task.t :=
  [ ("a", task_of "a" "bruce" 10); ("b", task_of "b" "selina" 20);
    ("c", task_of "c" "bruce" 30) ].

Lemma three_tasks_wf : JsMap.wf three_tasks.
Proof.
  unfold JsMap.wf, three_tasks. cbn.
  repeat (apply NoDup_cons; split;
          [rewrite ?elem_of_cons, elem_of_nil; intros H; decompose [or] H;
           discriminate || contradiction |]).
  apply NoDup_nil_2.
Qed.

Example getTasks_three_tasks :
  MemStore.getTasks "bruce" three_tasks
  = [task_of "c" "bruce" 30; task_of "a" "bruce" 10].
Proof. reflexivity. Qed.

Lemma getTasks_lists_owner_tasks_witness :
  JsMap.wf three_tasks
  /\ task_of "c" "bruce" 30 ∈ MemStore.getTasks "bruce" three_tasks.
Proof.
  split; [exact three_tasks_wf |].
  apply (proj1 (getTasks_lists_owner_tasks "bruce" (task_of "c" "bruce" 30))
           three_tasks three_tasks_wf).
  by exists "c".
Defined.

(** X5.  The memory storage lists an owner's tasks newest first: the list
    is a rearrangement of the owner's tasks in the [Map], each task created
    no earlier than those after it, and tasks created at the same time keep
    the order in which they were stored. *)
Theorem getTasks_newest_first (userId : string) (tasks : JsMap.t Task.t) :
  let owned :=
    List.filter (fun task => String.eqb (Task.userId task) userId)
      (JsMap.values tasks) in
  MemStore.getTasks userId tasks ≡ₚ owned
  /\ StronglySorted not_older (MemStore.getTasks userId tasks)
  /\ forall createdAt : Date,
       List.filter (fun task => Task.createdAt task =? createdAt)
         (MemStore.getTasks userId tasks)
       = List.filter (fun task => Task.createdAt task =? createdAt) owned.
Proof.
  cbn zeta. unfold MemStore.getTasks.
  split; [apply sort_Permutation |]. split; [apply sort_newest_first |].
  intros createdAt. apply sort_filter.
  intros x y Hx%Z.eqb_eq Hy%Z.eqb_eq. unfold MemStore.newest_first. lia.
Qed.

(** X6.  In the memory storage a task created under a fresh id is stored
    under that id, joins the list of its owner and no other list: the
    owner's list is the old one with the new task added, every other
    owner's list is the same list as before, and every other id looks up
    what it did. *)
Theorem createTask_then_getTasks (tasks : JsMap.t Task.t) (id : string)
    (now : Date) (insertTask : InsertTask.t) :
  JsMap.wf tasks ->
  MemStore.getTask id tasks = None ->
  let task := (MemStore.createTask id now insertTask tasks).1 in
  let tasks' := (MemStore.createTask id now insertTask tasks).2 in
  JsMap.wf tasks'
  /\ MemStore.getTask id tasks' = Some task
  /\ (forall id', id' <> id -> MemStore.getTask id' tasks' = MemStore.getTask id' tasks)
  /\ MemStore.getTasks (InsertTask.userId insertTask) tasks'
     ≡ₚ task :: MemStore.getTasks (InsertTask.userId insertTask) tasks
  /\ (forall userId, userId <> InsertTask.userId insertTask ->
        MemStore.getTasks userId tasks' = MemStore.getTasks userId tasks).
Proof.
  intros Hwf Hfresh. cbn zeta. unfold MemStore.createTask. cbn [fst snd].
  split; [by apply JsMap_wf_set |].
  unfold MemStore.getTask in *.
  split; [by rewrite JsMap_get_to_gmap, JsMap_to_gmap_set, lookup_insert_eq |].
  split.
  { intros id' Hne.
    by rewrite !JsMap_get_to_gmap, JsMap_to_gmap_set, lookup_insert_ne. }
  rewrite (JsMap_set_fresh id _ tasks Hfresh).
  unfold MemStore.getTasks, JsMap.values. rewrite map_app, List_filter_app.
  cbn [map snd List.filter MemStore.new_task Task.userId].
  split.
  - rewrite String.eqb_refl, !sort_Permutation.
    by rewrite <- Permutation_cons_append.
  - intros userId Hne.
    assert (Heq : String.eqb (InsertTask.userId insertTask) userId = false)
      by (apply String.eqb_neq; congruence).
    rewrite List_filter_app. cbn [List.filter].
    change (Task.userId (MemStore.new_task id now insertTask))
      with (InsertTask.userId insertTask).
    by rewrite Heq, app_nil_r.
Qed.

(** The input [{ userId: "bruce", title: "Patrol", domain: "fitness" }]. *)
Definition patrol_input : InsertTask.t :=
  InsertTask.mk "bruce" "Patrol" None "fitness" None None None None.

Lemma createTask_then_getTasks_witness :
  JsMap.wf three_tasks
  /\ MemStore.getTask "d" three_tasks = None
  /\ MemStore.getTasks "selina" (MemStore.createTask "d" 40 patrol_input three_tasks).2
     = MemStore.getTasks "selina" three_tasks.
Proof.
  split; [exact three_tasks_wf |]. split; [reflexivity |].
  destruct (createTask_then_getTasks three_tasks "d" 40 patrol_input
              three_tasks_wf eq_refl) as (_ & _ & _ & _ & Hother).
  apply Hother. discriminate.
Defined.

(** ** Hours that are not a number *)

Lemma number_mul_NaN (x : number) : number_mul x NaN = NaN.
Proof. by destruct x. Qed.

Lemma calculateXPReward_NaN (priority : string) :
  MemStorage.calculateXPReward priority NaN = NaN.
Proof. unfold MemStorage.calculateXPReward. by rewrite number_mul_NaN. Qed.

Lemma calculateEUReward_NaN (domain : string) :
  MemStorage.calculateEUReward domain NaN = NaN.
Proof.
  unfold MemStorage.calculateEUReward.
  destruct (ToNumber _) as [s | s | | s m e]; reflexivity.
Qed.

(** X7.  In the memory storage, completing a task whose effective hours
    do not start with a number, so that [parseFloat] gives [NaN], stores the
    task completed with both rewards [NaN], whatever the priority and the
    domain. *)
Theorem completion_without_numeric_hours (tasks : gmap string Task.t)
    (id : string) (existingTask : Task.t) (patch : UpdateTask.t) (clk : Clock) :
  tasks !! id = Some existingTask ->
  Task.isCompleted existingTask = false ->
  UpdateTask.isCompleted patch = Some true ->
  parseFloat (effectiveHours patch existingTask) = NaN ->
  exists t',
    MemStorage.updateTask clk id patch tasks = (Some t', <[id := t']> tasks)
    /\ Task.isCompleted t' = true
    /\ Task.xpReward t' = NaN /\ Task.euReward t' = NaN.
Proof.
  intros Hlookup Hpending Hflag Hnan.
  destruct (Mem_updateTask_completes tasks id existingTask patch clk
              Hlookup Hpending Hflag) as (tm & Hm & [Hdone _ Hxm Hem] & _).
  rewrite Hnan in Hxm, Hem.
  rewrite calculateXPReward_NaN in Hxm. rewrite calculateEUReward_NaN in Hem.
  by exists tm.
Qed.

(** The patch [{ isCompleted: true, actualHours: "two" }]. *)
Definition complete_patch_words : UpdateTask.t :=
  UpdateTask.mk None None None None None (Some (Some "two")) (Some true) None None.

Lemma completion_without_numeric_hours_witness :
  sample_tasks !! "t1" = Some sample_task
  /\ Task.isCompleted sample_task = false
  /\ UpdateTask.isCompleted complete_patch_words = Some true
  /\ parseFloat (effectiveHours complete_patch_words sample_task) = NaN
  /\ exists t',
       MemStorage.updateTask sample_clock "t1" complete_patch_words sample_tasks
       = (Some t', <[ "t1" := t' ]> sample_tasks)
       /\ Task.xpReward t' = NaN /\ Task.euReward t' = NaN.
Proof.
  split; [exact sample_tasks_lookup |]. split; [reflexivity |].
  split; [reflexivity |]. split; [reflexivity |].
  destruct (completion_without_numeric_hours sample_tasks "t1" sample_task
              complete_patch_words sample_clock sample_tasks_lookup
              eq_refl eq_refl eq_refl) as (t' & Hupd & _ & Hxp & Heu).
  by exists t'.
Defined.

(** ** Storages seen as finite maps

    Both storage classes act on the finite map from id to task: [view] is
    the map a store holds, [stamps] tells whether its [updateTask] is the
    one of [DatabaseStorage], which stamps the completion time itself. *)
Class TaskView (Store : Type) `{IStorage Store} `{ITaskStorage Store} : Type := {
  view : Store -> gmap string Task.t;
  stamps : bool;
  getTask_view : forall id s, getTask id s = view s !! id;
  updateTask_view : forall clk id u s,
    ((updateTask clk id u s).1, view (updateTask clk id u s).2)
    = updateTask_of stamps clk id u (view s);
  deleteTask_view : forall id s,
    ((deleteTask id s).1, view (deleteTask id s).2)
    = MemStorage.deleteTask id (view s);
  createTask_view : forall id now insertTask s task s',
    createTask id now insertTask s = Some (task, s') ->
    view s' = <[id := task]> (view s)
    /\ (task = MemStore.new_task id now insertTask
        \/ task = DatabaseStore.inserted_row id now insertTask);
  createTask_fresh : forall id now insertTask s,
    view s !! id = None -> is_Some (createTask id now insertTask s)
}.

Lemma MemTasks_updateTask_view (clk : Clock) (id : string) (u : UpdateTask.t)
    (s : MemTasks) :
  ((updateTask clk id u s).1, JsMap.to_gmap (task_map (updateTask clk id u s).2))
  = updateTask_of false clk id u (JsMap.to_gmap (task_map s)).
Proof.
  destruct s as [m]. cbn [updateTask MemTasks_IStorage task_map updateTask_of].
  rewrite <- MemStore_updateTask_view.
  by destruct (MemStore.updateTask clk id u m).
Qed.

Lemma MemTasks_deleteTask_view (id : string) (s : MemTasks) :
  ((deleteTask id s).1, JsMap.to_gmap (task_map (deleteTask id s).2))
  = MemStorage.deleteTask id (JsMap.to_gmap (task_map s)).
Proof.
  destruct s as [m]. cbn [deleteTask MemTasks_IStorage task_map].
  rewrite <- MemStore_deleteTask_view.
  by destruct (MemStore.deleteTask id m).
Qed.

Lemma MemTasks_createTask_view (id : string) (now : Date)
    (insertTask : InsertTask.t) (s : MemTasks) (task : Task.t) (s' : MemTasks) :
  createTask id now insertTask s = Some (task, s') ->
  JsMap.to_gmap (task_map s') = <[id := task]> (JsMap.to_gmap (task_map s))
  /\ (task = MemStore.new_task id now insertTask
      \/ task = DatabaseStore.inserted_row id now insertTask).
Proof.
  destruct s as [m].
  cbn [createTask MemTasks_ITaskStorage task_map MemStore.createTask].
  intros [= <- <-]. cbn [task_map]. split; [apply JsMap_to_gmap_set | by left].
Qed.

Lemma MemTasks_createTask_fresh (id : string) (now : Date)
    (insertTask : InsertTask.t) (s : MemTasks) :
  JsMap.to_gmap (task_map s) !! id = None ->
  is_Some (createTask id now insertTask s).
Proof. intros _. by eexists. Qed.

#[export] Instance MemTasks_TaskView : TaskView MemTasks := {|
  view s := JsMap.to_gmap (task_map s);
  stamps := false;
  getTask_view id s := JsMap_get_to_gmap id (task_map s);
  updateTask_view := MemTasks_updateTask_view;
  deleteTask_view := MemTasks_deleteTask_view;
  createTask_view := MemTasks_createTask_view;
  createTask_fresh := MemTasks_createTask_fresh
|}.

Lemma Database_updateTask_view (clk : Clock) (id : string) (u : UpdateTask.t)
    (s : Database) :
  ((updateTask clk id u s).1, table_of (updateTask clk id u s).2)
  = updateTask_of true clk id u (table_of s).
Proof.
  destruct s as [m]. cbn [updateTask Database_IStorage table_of updateTask_of].
  by destruct (DatabaseStorage.updateTask clk id u m).
Qed.

Lemma Database_deleteTask_view (id : string) (s : Database) :
  ((deleteTask id s).1, table_of (deleteTask id s).2)
  = MemStorage.deleteTask id (table_of s).
Proof.
  destruct s as [m]. cbn [deleteTask Database_IStorage table_of].
  unfold MemStorage.deleteTask.
  destruct (m !! id) as [t |] eqn:Hlookup.
  - rewrite Database_deleteTask_present by (by eexists). cbn [fst snd table_of].
    reflexivity.
  - rewrite Database_deleteTask_absent by done. cbn [fst snd table_of].
    by rewrite delete_id.
Qed.

Lemma Database_createTask_view (id : string) (now : Date)
    (insertTask : InsertTask.t) (s : Database) (task : Task.t) (s' : Database) :
  createTask id now insertTask s = Some (task, s') ->
  table_of s' = <[id := task]> (table_of s)
  /\ (task = MemStore.new_task id now insertTask
      \/ task = DatabaseStore.inserted_row id now insertTask).
Proof.
  destruct s as [m]. cbn [createTask Database_ITaskStorage table_of].
  unfold DatabaseStore.createTask, DatabaseStore.insert_returning.
  destruct (m !! id); [discriminate |]. intros [= <- <-]. cbn [table_of].
  split; [done | by right].
Qed.

Lemma Database_createTask_fresh (id : string) (now : Date)
    (insertTask : InsertTask.t) (s : Database) :
  table_of s !! id = None -> is_Some (createTask id now insertTask s).
Proof.
  destruct s as [m]. cbn [createTask Database_ITaskStorage table_of].
  unfold DatabaseStore.createTask, DatabaseStore.insert_returning.
  intros ->. by eexists.
Qed.

#[export] Instance Database_TaskView : TaskView Database := {|
  view := table_of;
  stamps := true;
  getTask_view id s := Database_getTask_lookup (table_of s) id;
  updateTask_view := Database_updateTask_view;
  deleteTask_view := Database_deleteTask_view;
  createTask_view := Database_createTask_view;
  createTask_fresh := Database_createTask_fresh
|}.

(** ** The update route on the finite map of the store *)

Section RouteViews.

Context {Store : Type} `{TaskView Store}.
Variable Date_parse : string -> option Date.
Variable Number_toString : number -> string.
Variable multipleOf : number -> number -> bool.

Local Abbreviation patch := (patch_task Date_parse Number_toString multipleOf).

(** What the conversion to the server format passes on. *)
Lemma to_server_format_inr (now : Date) (body : ClientUpdateTask.t)
    (updateData : UpdateTask.t) :
  to_server_format Date_parse Number_toString now body = inr updateData ->
  UpdateTask.isCompleted updateData = ClientUpdateTask.isCompleted body
  /\ UpdateTask.completedAt updateData
     = (if truthy_flag (ClientUpdateTask.isCompleted body)
        then Some (Some now) else None)
  /\ UpdateTask.priority updateData = ClientUpdateTask.priority body
  /\ UpdateTask.domain updateData = ClientUpdateTask.domain body.
Proof.
  unfold to_server_format.
  destruct (ClientUpdateTask.dueDate body) as [[| c r] |];
    [| destruct (Date_parse (String c r)); [| discriminate] |];
    by intros [= <-].
Qed.

(** A request to the update route either leaves the finite map as it was
    and answers an error, or updates the requester's own task by the
    converted body and answers 200 with it. *)
Lemma patch_task_cases (userId : option string) (taskId : string)
    (body : ClientUpdateTask.t) (now : Date) (clk : Clock) (s : Store) :
  (view (patch userId taskId body now clk s).2 = view s
   /\ status (patch userId taskId body now clk s).1 <> 200)
  \/ exists u existingTask updateData t',
       session_user userId = Some u
       /\ view s !! taskId = Some existingTask
       /\ Task.userId existingTask = u
       /\ to_server_format Date_parse Number_toString now body = inr updateData
       /\ ~ (ClientUpdateTask.isCompleted body = Some false
             /\ Task.isCompleted existingTask = true)
       /\ view (patch userId taskId body now clk s).2
          = <[taskId := t']> (view s)
       /\ updates stamps clk existingTask updateData t'
       /\ (patch userId taskId body now clk s).1 = mkResponse 200 (TaskBody t').
Proof.
  unfold patch_task.
  destruct (session_user userId) as [u |] eqn:Hu; [| by left].
  rewrite getTask_view.
  destruct (view s !! taskId) as [existingTask |] eqn:Hlookup; [| by left].
  destruct (String.eqb_spec (Task.userId existingTask) u) as [Howner | _];
    cbn [negb]; [| by left].
  destruct (clientUpdateTaskSchema_parse multipleOf body) as [details | v] eqn:Hparse;
    [by left |].
  apply clientUpdateTaskSchema_parse_inr in Hparse. subst v.
  destruct (match ClientUpdateTask.isCompleted body with
            | Some false => Task.isCompleted existingTask
            | _ => false
            end) eqn:Hguard; [by left |].
  destruct (to_server_format Date_parse Number_toString now body)
    as [details | updateData] eqn:Hconv; [by left |].
  pose proof (updateTask_view clk taskId updateData s) as Hview.
  destruct (updateTask_of_present stamps (view s) taskId existingTask updateData clk
              Hlookup) as (t' & Hupd & Hupdates).
  rewrite Hupd in Hview.
  destruct (updateTask clk taskId updateData s) as [r s'].
  cbn [fst snd] in Hview. injection Hview as -> Hs'.
  right. exists u, existingTask, updateData, t'.
  do 4 (split; [done |]).
  split; [intros [Hflag Hdone]; by rewrite Hflag, Hdone in Hguard |].
  split; [done |]. split; [exact Hupdates | done].
Qed.

(** A request to the delete route either leaves the finite map as it was
    or removes the requester's own task. *)
Lemma delete_task_cases (userId : option string) (taskId : string) (s : Store) :
  (view (delete_task userId taskId s).2 = view s
   /\ (delete_task userId taskId s).1 <> mkResponse 204 EmptyBody)
  \/ exists u existingTask,
       session_user userId = Some u
       /\ view s !! taskId = Some existingTask
       /\ Task.userId existingTask = u
       /\ view (delete_task userId taskId s).2 = delete taskId (view s)
       /\ (delete_task userId taskId s).1 = mkResponse 204 EmptyBody.
Proof.
  unfold delete_task.
  destruct (session_user userId) as [u |] eqn:Hu; [| by left].
  rewrite getTask_view.
  destruct (view s !! taskId) as [existingTask |] eqn:Hlookup; [| by left].
  destruct (String.eqb_spec (Task.userId existingTask) u) as [Howner | _];
    cbn [negb]; [| by left].
  pose proof (deleteTask_view taskId s) as Hview.
  unfold MemStorage.deleteTask in Hview.
  rewrite bool_decide_eq_true_2 in Hview by (by eexists).
  destruct (deleteTask taskId s) as [r s'].
  cbn [fst snd] in Hview. injection Hview as -> Hs'.
  right. by exists u, existingTask.
Qed.

End RouteViews.

(** ** The task routes as a state machine *)

(** A task in a state the life cycle allows: while it is not completed it
    has zero rewards and no completion time; once completed it has a
    completion time. *)
Definition lifecycle_ok (t : Task.t) : Prop :=
  if Task.isCompleted t then Task.completedAt t <> None
  else Task.xpReward t = lit 0 /\ Task.euReward t = lit 0
       /\ Task.completedAt t = None.

(** A request to one of the routes that write tasks, with what the server
    draws while it serves it. *)
Inductive request : Type :=
  | PostTask (userId : option string) (body : ClientTask.t) (id : string) (now : Date)
  | PatchTask (userId : option string) (taskId : string)
      (body : ClientUpdateTask.t) (now : Date) (clk : Clock)
  | DeleteTask (userId : option string) (taskId : string).

Section TaskStateMachine.

Context {Store : Type} `{TaskView Store}.
Variable Date_parse : string -> option Date.
Variable Number_toString : number -> string.
Variable multipleOf : number -> number -> bool.

Local Abbreviation patch := (patch_task Date_parse Number_toString multipleOf).
Local Abbreviation post := (post_task Date_parse Number_toString multipleOf).

(** The store after a request. *)
Definition handle (r : request) (s : Store) : Store :=
  match r with
  | PostTask userId body id now => (post userId body id now s).2
  | PatchTask userId taskId body now clk => (patch userId taskId body now clk s).2
  | DeleteTask userId taskId => (delete_task userId taskId s).2
  end.

(** The store after a sequence of requests, served one after the other. *)
Definition handle_all (rs : list request) (s : Store) : Store :=
  foldl (fun s r => handle r s) s rs.

Lemma to_insert_task_inr (u : string) (body : ClientTask.t) (insertTask : InsertTask.t) :
  to_insert_task Date_parse Number_toString u body = inr insertTask ->
  InsertTask.userId insertTask = u
  /\ InsertTask.estimatedHours insertTask
     = Some (Number_toString (ClientTask.estimatedHours body))
  /\ InsertTask.title insertTask = ClientTask.title body
  /\ InsertTask.domain insertTask = ClientTask.domain body
  /\ InsertTask.priority insertTask = ClientTask.priority body.
Proof.
  unfold to_insert_task.
  destruct (ClientTask.dueDate body) as [[| c r] |];
    [| destruct (Date_parse (String c r)); [| discriminate] |];
    by intros [= <-].
Qed.

(** A request to the create route either leaves the finite map as it was
    and answers an error, or stores a new task under the id drawn and
    answers 201 with it. *)
Lemma post_task_cases (userId : option string) (body : ClientTask.t)
    (id : string) (now : Date) (s : Store) :
  (view (post userId body id now s).2 = view s
   /\ answer_status (post userId body id now s).1 <> 201)
  \/ exists u insertTask task,
       session_user userId = Some u
       /\ to_insert_task Date_parse Number_toString u body = inr insertTask
       /\ (task = MemStore.new_task id now insertTask
           \/ task = DatabaseStore.inserted_row id now insertTask)
       /\ view (post userId body id now s).2 = <[id := task]> (view s)
       /\ (post userId body id now s).1 = Json 201 task.
Proof.
  unfold post_task.
  destruct (session_user userId) as [u |] eqn:Hu; [| by left].
  destruct (clientTaskSchema_parse multipleOf body) as [details | v] eqn:Hparse;
    [by left |].
  assert (v = body) as ->.
  { unfold clientTaskSchema_parse in Hparse.
    destruct (number_issues _ _ _ _ _ _); [by injection Hparse | discriminate]. }
  destruct (to_insert_task Date_parse Number_toString u body)
    as [details | insertTask] eqn:Hconv; [by left |].
  destruct (createTask id now insertTask s) as [[task s'] |] eqn:Hcreate;
    [| by left].
  destruct (createTask_view id now insertTask s task s' Hcreate) as [Hview Htask].
  right. by exists u, insertTask, task.
Qed.

Lemma new_task_lifecycle_ok (id : string) (now : Date) (insertTask : InsertTask.t)
    (task : Task.t) :
  task = MemStore.new_task id now insertTask
  \/ task = DatabaseStore.inserted_row id now insertTask ->
  lifecycle_ok task.
Proof. intros [-> | ->]; by repeat split. Qed.

(** An update that the route lets through keeps a task within its life
    cycle. *)
Lemma updates_lifecycle_ok (clk : Clock) (now : Date) (body : ClientUpdateTask.t)
    (existingTask : Task.t) (updateData : UpdateTask.t) (t' : Task.t) :
  to_server_format Date_parse Number_toString now body = inr updateData ->
  ~ (ClientUpdateTask.isCompleted body = Some false
     /\ Task.isCompleted existingTask = true) ->
  updates stamps clk existingTask updateData t' ->
  lifecycle_ok existingTask -> lifecycle_ok t'.
Proof.
  intros Hconv Hguard [_ _ _ _ Hflag _ _ Hrewards Hat] Hok.
  destruct (to_server_format_inr Date_parse Number_toString now body updateData Hconv)
    as (Hf & Hc & _ & _).
  unfold lifecycle_ok, completing in *.
  rewrite Hf in Hflag, Hrewards, Hat. rewrite Hc in Hat.
  destruct (Task.isCompleted existingTask) eqn:Hdone,
    (ClientUpdateTask.isCompleted body) as [[|] |];
    cbn in Hflag, Hrewards, Hat, Hguard; rewrite Hflag, Hat;
    rewrite ?andb_false_r; cbn.
  - done.
  - by destruct Hguard.
  - done.
  - by destruct stamps.
  - destruct Hrewards as (-> & -> & _). by destruct Hok as (? & ? & ?).
  - destruct Hrewards as (-> & -> & _). by destruct Hok as (? & ? & ?).
Qed.

Lemma handle_lifecycle_ok (r : request) (s : Store) :
  (forall id t, view s !! id = Some t -> lifecycle_ok t) ->
  forall id t, view (handle r s) !! id = Some t -> lifecycle_ok t.
Proof.
  intros Hinv id t. destruct r as [userId body id0 now | userId taskId body now clk
                                  | userId taskId]; cbn [handle].
  - destruct (post_task_cases userId body id0 now s)
      as [[-> _] | (u & insertTask & task & _ & _ & Htask & -> & _)];
      [apply Hinv |].
    destruct (decide (id0 = id)) as [-> | Hne].
    + rewrite lookup_insert_eq. intros [= <-].
      by apply (new_task_lifecycle_ok id now insertTask).
    + rewrite lookup_insert_ne by done. apply Hinv.
  - destruct (patch_task_cases Date_parse Number_toString multipleOf
                userId taskId body now clk s)
      as [[-> _] | (u & existingTask & updateData & t' & _ & Hlookup & _ & Hconv
                    & Hguard & -> & Hupdates & _)];
      [apply Hinv |].
    destruct (decide (taskId = id)) as [-> | Hne].
    + rewrite lookup_insert_eq. intros [= <-].
      apply (updates_lifecycle_ok clk now body existingTask updateData); try done.
      by apply (Hinv id).
    + rewrite lookup_insert_ne by done. apply Hinv.
  - destruct (delete_task_cases userId taskId s)
      as [[-> _] | (u & existingTask & _ & _ & _ & -> & _)];
      [apply Hinv |].
    intros Hlookup. apply lookup_delete_Some in Hlookup as [_ Hlookup].
    by apply (Hinv id).
Qed.

(** X8.  The routes that write tasks keep every task within its life
    cycle, whatever requests arrive and whoever sends them: in a store
    where every task that is not completed has zero rewards and no
    completion time, and every completed task has a completion time, the
    same holds after any sequence of create, update and delete requests.
    This holds for both storage classes. *)
Theorem routes_keep_the_life_cycle (rs : list request) (s : Store) :
  (forall id t, getTask id s = Some t -> lifecycle_ok t) ->
  forall id t, getTask id (handle_all rs s) = Some t -> lifecycle_ok t.
Proof.
  unfold handle_all. revert s.
  induction rs as [| r rs IH]; intros s Hinv; cbn [foldl]; [exact Hinv |].
  apply IH. intros id t. rewrite getTask_view.
  apply handle_lifecycle_ok. intros id' t'. rewrite <- getTask_view. apply Hinv.
Qed.

End TaskStateMachine.

(** The body [{ title: "Patrol", domain: "fitness", estimatedHours: 1.5 }]. *)
Definition patrol_body : ClientTask.t :=
  ClientTask.mk "Patrol" None "fitness" None hours_1_5 None None.

(** Bruce creates a task, completes it and asks to complete it again. *)
Definition sample_requests : list request :=
  [ PostTask (Some "bruce") patrol_body "t9" 100;
    PatchTask (Some "bruce") "t9" complete_body 200 sample_clock;
    PatchTask (Some "bruce") "t9" complete_body 300 sample_clock ].

Lemma routes_keep_the_life_cycle_witness :
  (forall id t, getTask id (DatabaseOf ∅) = Some t -> lifecycle_ok t)
  /\ forall id t,
       getTask id
         (handle_all no_date print_zero any_multiple sample_requests (DatabaseOf ∅))
       = Some t ->
       lifecycle_ok t.
Proof.
  assert (Hempty : forall id t, getTask id (DatabaseOf ∅) = Some t -> lifecycle_ok t).
  { intros id t. rewrite getTask_view. cbn [view Database_TaskView table_of].
    by rewrite lookup_empty. }
  split; [exact Hempty |].
  exact (routes_keep_the_life_cycle no_date print_zero any_multiple
           sample_requests (DatabaseOf ∅) Hempty).
Defined.

Section RouteExtras.

Context {Store : Type} `{TaskView Store}.
Variable Date_parse : string -> option Date.
Variable Number_toString : number -> string.
Variable multipleOf : number -> number -> bool.

Local Abbreviation patch := (patch_task Date_parse Number_toString multipleOf).
Local Abbreviation post := (post_task Date_parse Number_toString multipleOf).

(** X9.  An update request changes at most the task it names: after it,
    whatever it was and whoever sent it, the same ids are stored, every
    other task is as before, and the named task has the id, the owner and
    the creation time it had.  This holds for both storage classes. *)
Theorem patch_task_touches_one_task (userId : option string) (taskId : string)
    (body : ClientUpdateTask.t) (now : Date) (clk : Clock) (s : Store) :
  let s' := (patch userId taskId body now clk s).2 in
  (forall id, is_Some (getTask id s') <-> is_Some (getTask id s))
  /\ (forall id, id <> taskId -> getTask id s' = getTask id s)
  /\ (forall t t',
        getTask taskId s = Some t -> getTask taskId s' = Some t' ->
        Task.id t' = Task.id t
        /\ Task.userId t' = Task.userId t
        /\ Task.createdAt t' = Task.createdAt t).
Proof.
  cbn zeta.
  destruct (patch_task_cases Date_parse Number_toString multipleOf
              userId taskId body now clk s)
    as [[Hsame _] | (u & existingTask & updateData & t0 & _ & Hlookup & _ & _ & _
                     & Hview & [Hid Huser Hcreated _ _ _ _ _ _] & _)].
  - split; [intros id; by rewrite !getTask_view, Hsame |].
    split; [intros id _; by rewrite !getTask_view, Hsame |].
    intros t t'. rewrite !getTask_view, Hsame. by intros -> [= ->].
  - split.
    { intros id. rewrite !getTask_view, Hview.
      destruct (decide (taskId = id)) as [<- | Hne];
        [rewrite lookup_insert_eq, Hlookup; split; by eauto
        | by rewrite lookup_insert_ne]. }
    split; [intros id Hne; by rewrite !getTask_view, Hview, lookup_insert_ne |].
    intros t t'. rewrite !getTask_view, Hview, lookup_insert_eq, Hlookup.
    by intros [= <-] [= <-].
Qed.

(** X10.  Through the update route completion is final and the rewards of
    a completed task are fixed: a task that is completed stays stored and
    completed, with the same [xpReward] and [euReward], after any update
    request, whatever its body and whoever sends it.  This holds for both
    storage classes. *)
Theorem patch_task_keeps_completed (userId : option string) (taskId : string)
    (body : ClientUpdateTask.t) (now : Date) (clk : Clock) (s : Store)
    (id : string) (t : Task.t) :
  getTask id s = Some t ->
  Task.isCompleted t = true ->
  exists t',
    getTask id (patch userId taskId body now clk s).2 = Some t'
    /\ Task.isCompleted t' = true
    /\ Task.xpReward t' = Task.xpReward t
    /\ Task.euReward t' = Task.euReward t.
Proof.
  intros Hget Hdone. rewrite getTask_view in Hget.
  destruct (patch_task_cases Date_parse Number_toString multipleOf
              userId taskId body now clk s)
    as [[Hsame _] | (u & existingTask & updateData & t0 & _ & Hlookup & _ & Hconv
                     & Hguard & Hview & [_ _ _ _ Hflag _ _ Hrewards _] & _)].
  - exists t. by rewrite getTask_view, Hsame.
  - destruct (decide (taskId = id)) as [-> | Hne].
    + rewrite Hlookup in Hget. injection Hget as ->.
      exists t0. rewrite getTask_view, Hview, lookup_insert_eq.
      split; [done |].
      destruct (to_server_format_inr Date_parse Number_toString now body
                  updateData Hconv) as (Hf & _).
      rewrite (completing_completed t updateData Hdone) in Hrewards.
      destruct Hrewards as (Hxp & Heu & _).
      split; [| done].
      rewrite Hflag, Hf, Hdone.
      destruct (ClientUpdateTask.isCompleted body) as [[|] |]; try done.
      by destruct Hguard.
    + exists t. by rewrite getTask_view, Hview, lookup_insert_ne.
Qed.

(** X11.  A delete request of the owner removes the task and nothing else:
    the answer is 204, the id is no longer stored and every other id looks
    up what it did.  Any other delete request leaves every task as it was.
    This holds for both storage classes. *)
Theorem delete_task_removes_one_task (userId : option string) (taskId : string)
    (s : Store) :
  let s' := (delete_task userId taskId s).2 in
  (forall id, id <> taskId -> getTask id s' = getTask id s)
  /\ (forall u t,
        userId = Some u -> u <> "" ->
        getTask taskId s = Some t -> Task.userId t = u ->
        (delete_task userId taskId s).1 = mkResponse 204 EmptyBody
        /\ getTask taskId s' = None)
  /\ ((delete_task userId taskId s).1 <> mkResponse 204 EmptyBody ->
      forall id, getTask id s' = getTask id s).
Proof.
  cbn zeta.
  destruct (delete_task_cases userId taskId s)
    as [[Hsame Hnot] | (u & existingTask & Hu & Hlookup & Howner & Hview & Hans)].
  - split; [intros id _; by rewrite !getTask_view, Hsame |].
    split; [| intros _ id; by rewrite !getTask_view, Hsame].
    intros u t -> Hne Hget Howner. exfalso. apply Hnot.
    unfold delete_task. rewrite session_user_nonempty by done.
    rewrite Hget, Howner, String.eqb_refl. cbn [negb].
    pose proof (deleteTask_view taskId s) as Hv.
    unfold MemStorage.deleteTask in Hv.
    rewrite getTask_view in Hget.
    rewrite bool_decide_eq_true_2 in Hv by (by eexists).
    destruct (deleteTask taskId s) as [r s']. cbn [fst] in Hv.
    by injection Hv as -> _.
  - split; [intros id Hne; by rewrite !getTask_view, Hview, lookup_delete_ne |].
    split; [| by rewrite Hans].
    intros _ _ _ _ _ _. split; [exact Hans |].
    by rewrite getTask_view, Hview, lookup_delete_eq.
Qed.

End RouteExtras.

Lemma patch_task_keeps_completed_witness :
  getTask "t1" (DatabaseOf completed_tasks) = Some completed_task
  /\ Task.isCompleted completed_task = true
  /\ exists t',
       getTask "t1"
         (patch_task no_date print_zero any_multiple (Some "bruce") "t1"
            uncomplete_body 5000 sample_clock (DatabaseOf completed_tasks)).2
       = Some t'
       /\ Task.isCompleted t' = true
       /\ Task.xpReward t' = lit 120
       /\ Task.euReward t' = lit 30.
Proof.
  assert (Hget : getTask "t1" (DatabaseOf completed_tasks) = Some completed_task).
  { rewrite getTask_view. exact completed_tasks_lookup. }
  split; [exact Hget |]. split; [reflexivity |].
  exact (patch_task_keeps_completed no_date print_zero any_multiple (Some "bruce")
           "t1" uncomplete_body 5000 sample_clock (DatabaseOf completed_tasks)
           "t1" completed_task Hget eq_refl).
Defined.

Lemma delete_task_removes_one_task_witness :
  Some "bruce" = Some "bruce" /\ "bruce" <> ""
  /\ getTask "t1" (MemTasksOf three_tasks) = None
  /\ getTask "a" (MemTasksOf three_tasks) = Some (task_of "a" "bruce" 10)
  /\ Task.userId (task_of "a" "bruce" 10) = "bruce"
  /\ (delete_task (Some "bruce") "a" (MemTasksOf three_tasks)).1
     = mkResponse 204 EmptyBody
  /\ getTask "a" (delete_task (Some "bruce") "a" (MemTasksOf three_tasks)).2 = None.
Proof.
  assert (Hu : "bruce" <> "") by discriminate.
  split; [reflexivity |]. split; [exact Hu |]. split; [reflexivity |].
  split; [reflexivity |]. split; [reflexivity |].
  exact (proj1 (proj2 (delete_task_removes_one_task (Some "bruce") "a"
                         (MemTasksOf three_tasks)))
           "bruce" (task_of "a" "bruce" 10) eq_refl Hu eq_refl eq_refl).
Defined.

(** ** Creating a task through the route *)

Section CreateRoute.

Context {Store : Type} `{TaskView Store}.
Variable Date_parse : string -> option Date.
Variable Number_toString : number -> string.
Variable multipleOf : number -> number -> bool.

Local Abbreviation patch := (patch_task Date_parse Number_toString multipleOf).
Local Abbreviation post := (post_task Date_parse Number_toString multipleOf).

(** The estimated hours pass [min(0.5).max(24).multipleOf(0.5)]. *)
Definition estimatedHours_ok (hours : number) : bool :=
  number_check multipleOf (of_decimal false 5 (-1)) (lit 24)
    (of_decimal false 5 (-1)) hours.

(** The due date is missing, empty, or a string that parses to a date. *)
Definition dueDate_ok (dueDate : option string) : Prop :=
  match dueDate with
  | Some (String c r) => is_Some (Date_parse (String c r))
  | _ => True
  end.

(** X12.  Without a session user, or with an empty one, every task route
    answers 401 "Unauthorized" and leaves the store as it was. *)
Theorem task_routes_need_a_session (userId : option string) (s : Store)
    (taskId id : string) (taskBody : ClientTask.t) (body : ClientUpdateTask.t)
    (now : Date) (clk : Clock) :
  userId = None \/ userId = Some "" ->
  get_tasks userId s = Error 401 "Unauthorized"
  /\ post userId taskBody id now s = (Error 401 "Unauthorized", s)
  /\ patch userId taskId body now clk s = (Unauthorized, s)
  /\ delete_task userId taskId s = (Unauthorized, s)
  /\ status Unauthorized = 401.
Proof. by intros [-> | ->]. Qed.

(** The issues of a number are none exactly when it passes the checks. *)
Lemma number_issues_nil (path : string) (lo hi step x : number) :
  number_issues multipleOf path lo hi step x = []
  <-> number_check multipleOf lo hi step x = true.
Proof.
  unfold number_issues, number_check.
  destruct x as [sx | sx | | sx mx ex]; [| | by destruct lo | ];
    destruct (SFleb lo _), (SFleb _ hi), (multipleOf step _); by cbn.
Qed.

(** Every issue of a number is at its path. *)
Lemma number_issues_path (path : string) (lo hi step x : number) :
  Forall (eq path) (number_issues multipleOf path lo hi step x).
Proof.
  unfold number_issues.
  destruct x as [sx | sx | | sx mx ex]; [| | by repeat constructor | ];
    destruct (SFleb lo _), (SFleb _ hi), (multipleOf step _);
    by repeat constructor.
Qed.

(** X13.  A create request whose estimated hours fail a check of the
    schema is answered 400 "Invalid task data" with issues, one or more,
    all of them at the estimated hours; one whose estimated hours pass and
    whose due date does not parse is answered 400 "Invalid task data" with
    the due date as the issue.  In both cases nothing is stored. *)
Theorem post_task_rejects (u : string) (body : ClientTask.t) (id : string)
    (now : Date) (s : Store) :
  u <> "" ->
  (estimatedHours_ok (ClientTask.estimatedHours body) = false ->
   exists issue issues,
     post (Some u) body id now s
     = (ErrorDetails 400 "Invalid task data" (issue :: issues), s)
     /\ Forall (eq "estimatedHours") (issue :: issues))
  /\ (estimatedHours_ok (ClientTask.estimatedHours body) = true ->
      ~ dueDate_ok (ClientTask.dueDate body) ->
      post (Some u) body id now s
      = (ErrorDetails 400 "Invalid task data" ["dueDate"], s)).
Proof.
  intros Hu. unfold post_task, clientTaskSchema_parse, estimatedHours_ok.
  rewrite session_user_nonempty by done.
  pose proof (number_issues_path "estimatedHours" (of_decimal false 5 (-1))
                (lit 24) (of_decimal false 5 (-1))
                (ClientTask.estimatedHours body)) as Hpath.
  pose proof (number_issues_nil "estimatedHours" (of_decimal false 5 (-1))
                (lit 24) (of_decimal false 5 (-1))
                (ClientTask.estimatedHours body)) as Hnil.
  destruct (number_issues _ _ _ _ _ _) as [| issue issues].
  - split; [intros Hbad; rewrite (proj1 Hnil eq_refl) in Hbad; discriminate |].
    intros _ Hdate. unfold to_insert_task, dueDate_ok in *.
    destruct (ClientTask.dueDate body) as [[| c r] |]; try by destruct Hdate.
    destruct (Date_parse (String c r)); [| done].
    destruct Hdate. by eexists.
  - split; [intros _; by exists issue, issues |].
    intros Hok. apply Hnil in Hok. discriminate.
Qed.

(** X14.  A create request that passes validation, served with a fresh id,
    is answered 201 with the task stored under that id: the task belongs to
    the session user, is not completed, has zero rewards and no completion
    time, carries the title, the domain and the priority (or "medium") of
    the body, and both timestamps are the time of creation; every other id
    looks up what it did.  This holds for the memory storage, and for the
    database storage where no column refuses a value of the task. *)
Theorem post_task_creates (u : string) (body : ClientTask.t) (id : string)
    (now : Date) (s : Store) :
  u <> "" ->
  estimatedHours_ok (ClientTask.estimatedHours body) = true ->
  dueDate_ok (ClientTask.dueDate body) ->
  getTask id s = None ->
  exists task,
    (post (Some u) body id now s).1 = Json 201 task
    /\ getTask id (post (Some u) body id now s).2 = Some task
    /\ (forall id', id' <> id ->
          getTask id' (post (Some u) body id now s).2 = getTask id' s)
    /\ Task.id task = id
    /\ Task.userId task = u
    /\ Task.isCompleted task = false
    /\ Task.xpReward task = lit 0
    /\ Task.euReward task = lit 0
    /\ Task.completedAt task = None
    /\ Task.title task = ClientTask.title body
    /\ Task.domain task = ClientTask.domain body
    /\ Task.priority task
       = match ClientTask.priority body with
         | Some p => p
         | None => "medium"
         end
    /\ Task.createdAt task = now
    /\ Task.updatedAt task = now.
Proof.
  intros Hu Hhours Hdate Hfresh. rewrite getTask_view in Hfresh.
  assert (Hconv : exists insertTask,
             to_insert_task Date_parse Number_toString u body = inr insertTask).
  { unfold to_insert_task, dueDate_ok in *.
    destruct (ClientTask.dueDate body) as [[| c r] |]; try by eexists.
    destruct Hdate as [d ->]. by eexists. }
  destruct Hconv as [insertTask Hconv].
  destruct (to_insert_task_inr Date_parse Number_toString u body insertTask Hconv)
    as (Huser & _ & Htitle & Hdomain & Hprio).
  destruct (createTask_fresh id now insertTask s Hfresh) as [[task s'] Hcreate].
  destruct (createTask_view id now insertTask s task s' Hcreate) as [Hview Htask].
  unfold post_task, clientTaskSchema_parse.
  rewrite session_user_nonempty by done.
  unfold estimatedHours_ok in Hhours.
  apply (number_issues_nil "estimatedHours") in Hhours.
  rewrite Hhours, Hconv, Hcreate. cbn [fst snd].
  exists task. split; [done |].
  split; [by rewrite getTask_view, Hview, lookup_insert_eq |].
  split; [intros id' Hne; by rewrite !getTask_view, Hview, lookup_insert_ne |].
  destruct Htask as [-> | ->]; cbn; rewrite Huser, Htitle, Hdomain, Hprio;
    by repeat split.
Qed.

End CreateRoute.

Lemma task_routes_need_a_session_witness :
  (Some "" = None \/ Some "" = Some "")
  /\ post_task no_date print_zero any_multiple (Some "") patrol_body "t9" 100
       (DatabaseOf sample_tasks)
     = (Error 401 "Unauthorized", DatabaseOf sample_tasks).
Proof.
  assert (H : Some "" = None \/ Some "" = @Some string "") by (by right).
  split; [exact H |].
  exact (proj1 (proj2 (task_routes_need_a_session no_date print_zero any_multiple
                         (Some "") (DatabaseOf sample_tasks) "t1" "t9" patrol_body
                         complete_body 100 sample_clock H))).
Defined.

(** The body [{ title: "Patrol", domain: "fitness", estimatedHours: 25 }]:
    25 is a multiple of 0.5 above the 24 the schema allows. *)
Definition long_patrol_body : ClientTask.t :=
  ClientTask.mk "Patrol" None "fitness" None (lit 25) None None.

Lemma post_task_rejects_witness :
  "bruce" <> ""
  /\ estimatedHours_ok any_multiple (ClientTask.estimatedHours long_patrol_body)
     = false
  /\ exists issue issues,
       post_task no_date print_zero any_multiple (Some "bruce") long_patrol_body
         "t9" 100 (DatabaseOf sample_tasks)
       = (ErrorDetails 400 "Invalid task data" (issue :: issues),
          DatabaseOf sample_tasks)
       /\ Forall (eq "estimatedHours") (issue :: issues).
Proof.
  assert (Hu : "bruce" <> "") by discriminate.
  split; [exact Hu |]. split; [reflexivity |].
  exact (proj1 (post_task_rejects no_date print_zero any_multiple "bruce"
                  long_patrol_body "t9" 100 (DatabaseOf sample_tasks) Hu) eq_refl).
Defined.

Lemma post_task_creates_witness :
  "bruce" <> ""
  /\ estimatedHours_ok any_multiple (ClientTask.estimatedHours patrol_body) = true
  /\ dueDate_ok no_date (ClientTask.dueDate patrol_body)
  /\ getTask "t9" (DatabaseOf sample_tasks) = None
  /\ exists task,
       (post_task no_date print_zero any_multiple (Some "bruce") patrol_body "t9" 100
          (DatabaseOf sample_tasks)).1 = Json 201 task
       /\ Task.userId task = "bruce"
       /\ Task.priority task = "medium".
Proof.
  assert (Hu : "bruce" <> "") by discriminate.
  assert (Hfresh : getTask "t9" (DatabaseOf sample_tasks) = None).
  { rewrite getTask_view. cbn [view Database_TaskView table_of].
    unfold sample_tasks. by rewrite lookup_singleton_ne. }
  split; [exact Hu |]. split; [reflexivity |]. split; [exact I |].
  split; [exact Hfresh |].
  destruct (post_task_creates no_date print_zero any_multiple "bruce" patrol_body
              "t9" 100 (DatabaseOf sample_tasks) Hu eq_refl I Hfresh)
    as (task & Hans & _ & _ & _ & Huser & _ & _ & _ & _ & _ & _ & Hprio & _).
  exists task. split; [exact Hans |]. split; [exact Huser | exact Hprio].
Defined.

(** * Goals *)

(** ** The goal schema ([shared/schema.ts]) *)

(** A goal object.  The database gives every row all its columns; the
    memory storage builds a goal from the keys of its input, so the keys a
    caller may leave out can be missing from it: for those [None] is the
    missing key. *)
Module Goal.
Record t : Type := mk {
  id : string;
  userId : string;
  title : string;
  description : option (option string);
  category : string;
  priority : option string;
  targetValue : string;
  currentValue : option string;
  unit : string;
  deadline : Date;
  month : number;
  year : number;
  tasks : option (option (list string));
  isCompleted : bool;
  completedAt : option Date;
  createdAt : Date;
  updatedAt : Date
}.
End Goal.

(** [z.infer<typeof insertGoalSchema>]. *)
Module InsertGoal.
Record t : Type := mk {
  userId : string;
  title : string;
  description : option (option string);
  category : string;
  priority : option string;
  targetValue : string;
  currentValue : option string;
  unit : string;
  deadline : Date;
  month : number;
  year : number;
  tasks : option (option (list string))
}.
End InsertGoal.

(** [z.infer<typeof updateGoalSchema>]. *)
Module UpdateGoal.
Record t : Type := mk {
  title : option string;
  description : option (option string);
  category : option string;
  priority : option string;
  targetValue : option string;
  currentValue : option string;
  unit : option string;
  deadline : option Date;
  month : option number;
  year : option number;
  tasks : option (option (list string));
  isCompleted : option bool;
  completedAt : option (option Date)
}.
End UpdateGoal.

(** [a === b] on numbers: [NaN] equals nothing, the two zeros are equal. *)
Definition number_eq (a b : number) : bool := SFeqb a b.

(** [{...existingGoal, ...updateData, updatedAt}]. *)
Definition merge_goal (existingGoal : Goal.t) (updateData : UpdateGoal.t)
    (updatedAt : Date) : Goal.t :=
  {| Goal.id := Goal.id existingGoal;
     Goal.userId := Goal.userId existingGoal;
     Goal.title := spread (Goal.title existingGoal) (UpdateGoal.title updateData);
     Goal.description :=
       match UpdateGoal.description updateData with
       | Some d => Some d
       | None => Goal.description existingGoal
       end;
     Goal.category :=
       spread (Goal.category existingGoal) (UpdateGoal.category updateData);
     Goal.priority :=
       match UpdateGoal.priority updateData with
       | Some p => Some p
       | None => Goal.priority existingGoal
       end;
     Goal.targetValue :=
       spread (Goal.targetValue existingGoal) (UpdateGoal.targetValue updateData);
     Goal.currentValue :=
       match UpdateGoal.currentValue updateData with
       | Some v => Some v
       | None => Goal.currentValue existingGoal
       end;
     Goal.unit := spread (Goal.unit existingGoal) (UpdateGoal.unit updateData);
     Goal.deadline :=
       spread (Goal.deadline existingGoal) (UpdateGoal.deadline updateData);
     Goal.month := spread (Goal.month existingGoal) (UpdateGoal.month updateData);
     Goal.year := spread (Goal.year existingGoal) (UpdateGoal.year updateData);
     Goal.tasks :=
       match UpdateGoal.tasks updateData with
       | Some l => Some l
       | None => Goal.tasks existingGoal
       end;
     Goal.isCompleted :=
       spread (Goal.isCompleted existingGoal) (UpdateGoal.isCompleted updateData);
     Goal.completedAt :=
       spread (Goal.completedAt existingGoal) (UpdateGoal.completedAt updateData);
     Goal.createdAt := Goal.createdAt existingGoal;
     Goal.updatedAt := updatedAt |}.

(** ** [MemStorage]: the goal methods, on the [goals] [Map] *)
Module MemGoals.

Definition getGoals (userId : string) (goals : JsMap.t Goal.t) : list Goal.t :=
  List.filter (fun goal => String.eqb (Goal.userId goal) userId)
    (JsMap.values goals).

Definition getGoalsForMonth (userId : string) (month year : number)
    (goals : JsMap.t Goal.t) : list Goal.t :=
  List.filter
    (fun goal =>
       String.eqb (Goal.userId goal) userId
       && number_eq (Goal.month goal) month
       && number_eq (Goal.year goal) year)
    (JsMap.values goals).

Definition getGoal (id : string) (goals : JsMap.t Goal.t) : option Goal.t :=
  JsMap.get id goals.

(** [{...insertGoal, id, isCompleted: false, completedAt: null, createdAt,
    updatedAt}]: no default is filled in. *)
Definition new_goal (id : string) (now : Date) (insertGoal : InsertGoal.t)
  : Goal.t :=
  {| Goal.userId := InsertGoal.userId insertGoal;
     Goal.title := InsertGoal.title insertGoal;
     Goal.description := InsertGoal.description insertGoal;
     Goal.category := InsertGoal.category insertGoal;
     Goal.priority := InsertGoal.priority insertGoal;
     Goal.targetValue := InsertGoal.targetValue insertGoal;
     Goal.currentValue := InsertGoal.currentValue insertGoal;
     Goal.unit := InsertGoal.unit insertGoal;
     Goal.deadline := InsertGoal.deadline insertGoal;
     Goal.month := InsertGoal.month insertGoal;
     Goal.year := InsertGoal.year insertGoal;
     Goal.tasks := InsertGoal.tasks insertGoal;
     Goal.id := id;
     Goal.isCompleted := false;
     Goal.completedAt := None;
     Goal.createdAt := now;
     Goal.updatedAt := now |}.

Definition createGoal (id : string) (now : Date) (insertGoal : InsertGoal.t)
    (goals : JsMap.t Goal.t) : Goal.t * JsMap.t Goal.t :=
  let goal := new_goal id now insertGoal in
  (goal, JsMap.set id goal goals).

Definition updateGoal (clk : Clock) (id : string) (updateData : UpdateGoal.t)
    (goals : JsMap.t Goal.t) : option Goal.t * JsMap.t Goal.t :=
  match JsMap.get id goals with
  | None => (None, goals)
  | Some existingGoal =>
      let updatedGoal := merge_goal existingGoal updateData (clk O) in
      (Some updatedGoal, JsMap.set id updatedGoal goals)
  end.

Definition deleteGoal (id : string) (goals : JsMap.t Goal.t)
  : bool * JsMap.t Goal.t :=
  JsMap.delete id goals.

End MemGoals.

(** The integer a number is, if it is one. *)
Definition to_integer (x : number) : option Z :=
  match x with
  | S754_zero _ => Some 0
  | S754_finite s m e =>
      if 0 <=? e then Some (cond_Zopp s (Z.pos m * 2 ^ e))
      else if Z.pos m mod 2 ^ (- e) =? 0
           then Some (cond_Zopp s (Z.pos m / 2 ^ (- e)))
           else None
  | _ => None
  end.

(** A number an [integer] column can be compared with: an integer of 32
    bits.  Any other number, [NaN] among them, is not the text of such an
    integer when it is sent as the parameter of a query. *)
Definition int4 (x : number) : bool :=
  match to_integer x with
  | Some z => (- 2 ^ 31 <=? z) && (z <=? 2 ^ 31 - 1)
  | None => false
  end.

(** ** [DatabaseStorage]: the goal methods

    As for the tasks, the [goals] table is a finite map from the primary
    key to its row.  A row keeps the values it is given: what the column
    types do to the values written (the [numeric(10, 2)] columns of the
    values return 5 as 5.00, and a value a column does not take makes the
    statement raise) is not represented. *)
Module DatabaseGoals.

(** Modelled from the spec: the row an insert of [values] on the missing
    [db] handle writes and returns, with the defaults the [goals] table
    declares in the schema; the values are kept as they are given. *)
Definition inserted_row (id : string) (now : Date) (values : InsertGoal.t)
  : Goal.t :=
  {| Goal.id := id;
     Goal.userId := InsertGoal.userId values;
     Goal.title := InsertGoal.title values;
     Goal.description := Some (or_null (InsertGoal.description values));
     Goal.category := InsertGoal.category values;
     Goal.priority := Some (default "medium" (InsertGoal.priority values));
     Goal.targetValue := InsertGoal.targetValue values;
     Goal.currentValue := Some (default "0" (InsertGoal.currentValue values));
     Goal.unit := InsertGoal.unit values;
     Goal.deadline := InsertGoal.deadline values;
     Goal.month := InsertGoal.month values;
     Goal.year := InsertGoal.year values;
     Goal.tasks := Some (default (Some []) (InsertGoal.tasks values));
     Goal.isCompleted := false;
     Goal.completedAt := None;
     Goal.createdAt := now;
     Goal.updatedAt := now |}.

(** Modelled from the spec: the rows a select on the missing [db] handle
    yields for a condition on the rows of the [goals] table, in the order in
    which the finite map enumerates. *)
Definition select_where (condition : Goal.t -> bool) (table : gmap string Goal.t)
  : list Goal.t :=
  List.filter condition (map snd (map_to_list table)).

(** Modelled from the spec: the query
    [db.select().from(goals).where(eq(goals.id, id))] on the missing [db]
    handle, the rows of that primary key. *)
Definition select_where_id (id : string) (table : gmap string Goal.t)
  : list Goal.t :=
  match table !! id with
  | Some row => [row]
  | None => []
  end.

(** Modelled from the spec: the statement
    [db.insert(goals).values(values).returning()] on the missing [db]
    handle; [None] when the primary key is taken and the statement raises. *)
Definition insert_returning (id : string) (now : Date) (values : InsertGoal.t)
    (table : gmap string Goal.t) : option (Goal.t * gmap string Goal.t) :=
  match table !! id with
  | Some _ => None
  | None =>
      let row := inserted_row id now values in
      Some (row, <[id := row]> table)
  end.

(** Modelled from the spec: the statement
    [db.update(goals).set({...updateData, updatedAt}).where(eq(goals.id,
    id)).returning()] on the missing [db] handle; the values of the update
    are kept as they are given. *)
Definition update_returning (updateData : UpdateGoal.t) (updatedAt : Date)
    (id : string) (table : gmap string Goal.t)
  : list Goal.t * gmap string Goal.t :=
  match table !! id with
  | Some row =>
      let row' := merge_goal row updateData updatedAt in
      ([row'], <[id := row']> table)
  | None => ([], table)
  end.

(** Modelled from the spec: the statement
    [db.delete(goals).where(eq(goals.id, id))] on the missing [db] handle,
    its [rowCount] and the table left. *)
Definition delete_where_id (id : string) (table : gmap string Goal.t)
  : option Z * gmap string Goal.t :=
  match table !! id with
  | Some _ => (Some 1, delete id table)
  | None => (Some 0, table)
  end.

Definition getGoals (userId : string) (table : gmap string Goal.t) : list Goal.t :=
  select_where (fun row => String.eqb (Goal.userId row) userId) table.

(** The query compares the [month] and [year] columns with its
    parameters; [None] when a parameter is not a 32-bit integer and the
    query raises. *)
Definition getGoalsForMonth (userId : string) (month year : number)
    (table : gmap string Goal.t) : option (list Goal.t) :=
  if int4 month && int4 year
  then
    Some
      (select_where
         (fun row =>
            String.eqb (Goal.userId row) userId
            && number_eq (Goal.month row) month
            && number_eq (Goal.year row) year)
         table)
  else None.

Definition getGoal (id : string) (table : gmap string Goal.t) : option Goal.t :=
  head (select_where_id id table).

Definition createGoal (id : string) (now : Date) (insertGoal : InsertGoal.t)
    (table : gmap string Goal.t) : option (Goal.t * gmap string Goal.t) :=
  insert_returning id now insertGoal table.

Definition updateGoal (clk : Clock) (id : string) (updateData : UpdateGoal.t)
    (table : gmap string Goal.t) : option Goal.t * gmap string Goal.t :=
  let '(rows, table') := update_returning updateData (clk O) id table in
  (head rows, table').

Definition deleteGoal (id : string) (table : gmap string Goal.t)
  : bool * gmap string Goal.t :=
  let '(rowCount, table') := delete_where_id id table in
  (0 <? default 0 rowCount, table').

End DatabaseGoals.

(** The goal methods of the [IStorage] interface of [server/storage.ts].
    [createGoal] takes the id and the time the storage draws;
    [getGoalsForMonth] and [createGoal] give [None] when the storage
    raises. *)
Class IGoalStorage (Store : Type) : Type := {
  getGoals : string -> Store -> list Goal.t;
  getGoalsForMonth :
    string -> number -> number -> Store -> option (list Goal.t);
  getGoal : string -> Store -> option Goal.t;
  createGoal : string -> Date -> InsertGoal.t -> Store -> option (Goal.t * Store);
  updateGoal : Clock -> string -> UpdateGoal.t -> Store -> option Goal.t * Store;
  deleteGoal : string -> Store -> bool * Store
}.

(** The [goals] field of a [MemStorage] object. *)
Inductive MemGoalStore : Type := MemGoalsOf (goals : JsMap.t Goal.t).

Definition goal_map (s : MemGoalStore) : JsMap.t Goal.t :=
  match s with MemGoalsOf goals => goals end.

(** The [goals] table behind a [DatabaseStorage] object. *)
Inductive GoalTable : Type := GoalTableOf (table : gmap string Goal.t).

Definition goal_table (s : GoalTable) : gmap string Goal.t :=
  match s with GoalTableOf table => table end.

#[export] Instance MemGoals_IGoalStorage : IGoalStorage MemGoalStore := {|
  getGoals userId s := MemGoals.getGoals userId (goal_map s);
  getGoalsForMonth userId month year s :=
    Some (MemGoals.getGoalsForMonth userId month year (goal_map s));
  getGoal id s := MemGoals.getGoal id (goal_map s);
  createGoal id now insertGoal s :=
    let '(goal, goals) := MemGoals.createGoal id now insertGoal (goal_map s) in
    Some (goal, MemGoalsOf goals);
  updateGoal clk id updateData s :=
    let '(goal, goals) := MemGoals.updateGoal clk id updateData (goal_map s) in
    (goal, MemGoalsOf goals);
  deleteGoal id s :=
    let '(deleted, goals) := MemGoals.deleteGoal id (goal_map s) in
    (deleted, MemGoalsOf goals)
|}.

#[export] Instance Database_IGoalStorage : IGoalStorage GoalTable := {|
  getGoals userId s := DatabaseGoals.getGoals userId (goal_table s);
  getGoalsForMonth userId month year s :=
    DatabaseGoals.getGoalsForMonth userId month year (goal_table s);
  getGoal id s := DatabaseGoals.getGoal id (goal_table s);
  createGoal id now insertGoal s :=
    match DatabaseGoals.createGoal id now insertGoal (goal_table s) with
    | Some (goal, table) => Some (goal, GoalTableOf table)
    | None => None
    end;
  updateGoal clk id updateData s :=
    let '(goal, table) := DatabaseGoals.updateGoal clk id updateData (goal_table s) in
    (goal, GoalTableOf table);
  deleteGoal id s :=
    let '(deleted, table) := DatabaseGoals.deleteGoal id (goal_table s) in
    (deleted, GoalTableOf table)
|}.

(** ** [parseInt] *)

(** The value of [c] as a digit: [0] to [9], and the letters of either case
    for 10 to 35. *)
Definition digit_of (c : ascii) : option Z :=
  let n := Z.of_nat (nat_of_ascii c) in
  if (48 <=? n) && (n <=? 57) then Some (n - 48)
  else if (97 <=? n) && (n <=? 122) then Some (n - 87)
  else if (65 <=? n) && (n <=? 90) then Some (n - 55)
  else None.

(** Reads the longest run of digits of [radix] at the head of [s]: the value
    accumulated onto [acc] and the number of digits read. *)
Fixpoint read_radix_digits (radix : Z) (s : string) (acc : Z) (n : nat)
  : Z * nat :=
  match s with
  | String c r =>
      match digit_of c with
      | Some d =>
          if d <? radix then read_radix_digits radix r (radix * acc + d) (S n)
          else (acc, n)
      | None => (acc, n)
      end
  | EmptyString => (acc, n)
  end.

(** [parseInt(s)] without a radix: the white space at the head is skipped,
    then a sign, then [0x] or [0X], which makes the radix 16 instead of 10;
    the result is the number nearest to the integer the longest run of
    digits writes, [NaN] when there is no digit. *)
Definition parseInt (s : string) : number :=
  let s0 := trimStart s in
  let '(negative, s1) :=
    match s0 with
    | String "-" r => (true, r)
    | String "+" r => (false, r)
    | _ => (false, s0)
    end in
  let '(radix, s2) :=
    match s1 with
    | String "0" (String c r) =>
        if Ascii.eqb c "x" || Ascii.eqb c "X" then (16, r) else (10, s1)
    | _ => (10, s1)
    end in
  let '(mathInt, n) := read_radix_digits radix s2 0 0 in
  match n with
  | O => NaN
  | S _ => of_decimal negative mathInt 0
  end.

(** ** The goal routes ([server/routes.ts]) *)

(** [z.infer<typeof clientGoalSchema>].  A request body is taken with its
    keys already of these types. *)
Module ClientGoal.
Record t : Type := mk {
  title : string;
  description : option (option string);
  category : string;
  priority : option string;
  targetValue : number;
  currentValue : number;
  unit : string;
  deadline : string;
  month : number;
  year : number;
  tasks : option (option (list string))
}.
End ClientGoal.

(** [z.infer<typeof clientUpdateGoalSchema>]. *)
Module ClientUpdateGoal.
Record t : Type := mk {
  title : option string;
  description : option (option string);
  category : option string;
  priority : option string;
  targetValue : option number;
  currentValue : option number;
  unit : option string;
  deadline : option string;
  month : option number;
  year : option number;
  tasks : option (option (list string));
  isCompleted : option bool
}.
End ClientUpdateGoal.

(** The paths of the checks that fail. *)
Definition issues (checks : list (string * bool)) : list string :=
  map fst (List.filter (fun check => negb (snd check)) checks).

(** [req.query.month] and the like when truthy: a string that is not
    empty. *)
Definition query_param (q : option string) : option string :=
  match q with
  | Some (String c r) => Some (String c r)
  | _ => None
  end.

Section GoalRoutes.

Context {Store : Type} `{IGoalStorage Store}.

Variable Date_parse : string -> option Date.
Variable Number_toString : number -> string.

(** The check the schema derives for an [integer] column. *)
Variable integer_column : number -> bool.

(** [app.get("/api/goals", ...)]. *)
Definition get_goals (userId : option string) (month year : option string)
    (s : Store) : Answer (list Goal.t) :=
  match session_user userId with
  | None => Error 401 "Unauthorized"
  | Some userId =>
      match query_param month, query_param year with
      | Some month, Some year =>
          match getGoalsForMonth userId (parseInt month) (parseInt year) s with
          | Some goals => Json 200 goals
          | None => Error 500 "Failed to fetch goals"
          end
      | _, _ => Json 200 (getGoals userId s)
      end
  end.

(** [clientGoalSchema.parse(body)]. *)
Definition clientGoalSchema_parse (body : ClientGoal.t)
  : list string + ClientGoal.t :=
  match issues
          [ ("targetValue", SFleb (lit 0) (ClientGoal.targetValue body));
            ("currentValue", SFleb (lit 0) (ClientGoal.currentValue body));
            ("month", integer_column (ClientGoal.month body));
            ("year", integer_column (ClientGoal.year body)) ] with
  | [] => inr body
  | details => inl details
  end.

(** The conversion of validated data to the server format followed by
    [insertGoalSchema.parse]: that parse rejects the [null] an empty
    [deadline] becomes, and an invalid date. *)
Definition to_insert_goal (userId : string) (validatedData : ClientGoal.t)
  : list string + InsertGoal.t :=
  match ClientGoal.deadline validatedData with
  | String c r =>
      match Date_parse (String c r) with
      | Some deadline =>
          inr {| InsertGoal.userId := userId;
                 InsertGoal.title := ClientGoal.title validatedData;
                 InsertGoal.description := ClientGoal.description validatedData;
                 InsertGoal.category := ClientGoal.category validatedData;
                 InsertGoal.priority := ClientGoal.priority validatedData;
                 InsertGoal.targetValue :=
                   Number_toString (ClientGoal.targetValue validatedData);
                 InsertGoal.currentValue :=
                   Some (Number_toString (ClientGoal.currentValue validatedData));
                 InsertGoal.unit := ClientGoal.unit validatedData;
                 InsertGoal.deadline := deadline;
                 InsertGoal.month := ClientGoal.month validatedData;
                 InsertGoal.year := ClientGoal.year validatedData;
                 InsertGoal.tasks := ClientGoal.tasks validatedData |}
      | None => inl ["deadline"]
      end
  | EmptyString => inl ["deadline"]
  end.

(** [app.post("/api/goals", ...)].  [id] and [now] are what the storage
    draws for the new goal. *)
Definition post_goal (userId : option string) (body : ClientGoal.t)
    (id : string) (now : Date) (s : Store) : Answer Goal.t * Store :=
  match session_user userId with
  | None => (Error 401 "Unauthorized", s)
  | Some userId =>
      match clientGoalSchema_parse body with
      | inl details => (ErrorDetails 400 "Invalid goal data" details, s)
      | inr validatedData =>
          match to_insert_goal userId validatedData with
          | inl details => (ErrorDetails 400 "Invalid goal data" details, s)
          | inr insertGoal =>
              match createGoal id now insertGoal s with
              | Some (goal, s') => (Json 201 goal, s')
              | None => (Error 500 "Failed to create goal", s)
              end
          end
      end
  end.

(** [clientUpdateGoalSchema.parse(body)]. *)
Definition clientUpdateGoalSchema_parse (body : ClientUpdateGoal.t)
  : list string + ClientUpdateGoal.t :=
  let optional (check : number -> bool) (x : option number) : bool :=
    match x with
    | Some x => check x
    | None => true
    end in
  match issues
          [ ("targetValue",
             optional (SFleb (lit 0)) (ClientUpdateGoal.targetValue body));
            ("currentValue",
             optional (SFleb (lit 0)) (ClientUpdateGoal.currentValue body));
            ("month", optional integer_column (ClientUpdateGoal.month body));
            ("year", optional integer_column (ClientUpdateGoal.year body)) ] with
  | [] => inr body
  | details => inl details
  end.

(** [x ? x.toString() : undefined], the key then deleted. *)
Definition truthy_toString (x : option number) : option string :=
  match x with
  | Some x => if number_truthy x then Some (Number_toString x) else None
  | None => None
  end.

(** The conversion of a validated update to the server format, the keys left
    [undefined] deleted, followed by [updateGoalSchema.parse], which rejects
    an invalid date. *)
Definition to_update_goal (validatedUpdate : ClientUpdateGoal.t)
  : list string + UpdateGoal.t :=
  let updateData (deadline : option Date) : UpdateGoal.t :=
    {| UpdateGoal.title := ClientUpdateGoal.title validatedUpdate;
       UpdateGoal.description := ClientUpdateGoal.description validatedUpdate;
       UpdateGoal.category := ClientUpdateGoal.category validatedUpdate;
       UpdateGoal.priority := ClientUpdateGoal.priority validatedUpdate;
       UpdateGoal.targetValue :=
         truthy_toString (ClientUpdateGoal.targetValue validatedUpdate);
       UpdateGoal.currentValue :=
         truthy_toString (ClientUpdateGoal.currentValue validatedUpdate);
       UpdateGoal.unit := ClientUpdateGoal.unit validatedUpdate;
       UpdateGoal.deadline := deadline;
       UpdateGoal.month := ClientUpdateGoal.month validatedUpdate;
       UpdateGoal.year := ClientUpdateGoal.year validatedUpdate;
       UpdateGoal.tasks := ClientUpdateGoal.tasks validatedUpdate;
       UpdateGoal.isCompleted := ClientUpdateGoal.isCompleted validatedUpdate;
       UpdateGoal.completedAt := None |} in
  match ClientUpdateGoal.deadline validatedUpdate with
  | Some (String c r) =>
      match Date_parse (String c r) with
      | Some d => inr (updateData (Some d))
      | None => inl ["deadline"]
      end
  | _ => inr (updateData None)
  end.

(** [app.patch("/api/goals/:id", ...)]. *)
Definition patch_goal (userId : option string) (goalId : string)
    (body : ClientUpdateGoal.t) (clk : Clock) (s : Store)
  : Answer Goal.t * Store :=
  match session_user userId with
  | None => (Error 401 "Unauthorized", s)
  | Some userId =>
      match getGoal goalId s with
      | Some existingGoal =>
          if negb (String.eqb (Goal.userId existingGoal) userId)
          then (Error 404 "Goal not found", s)
          else
            match clientUpdateGoalSchema_parse body with
            | inl details => (ErrorDetails 400 "Invalid update data" details, s)
            | inr validatedUpdate =>
                match to_update_goal validatedUpdate with
                | inl details =>
                    (ErrorDetails 400 "Invalid update data" details, s)
                | inr updateData =>
                    match updateGoal clk goalId updateData s with
                    | (Some updatedGoal, s') => (Json 200 updatedGoal, s')
                    | (None, s') => (Error 404 "Goal not found", s')
                    end
                end
            end
      | None => (Error 404 "Goal not found", s)
      end
  end.

(** [app.delete("/api/goals/:id", ...)]. *)
Definition delete_goal (userId : option string) (goalId : string) (s : Store)
  : Answer Goal.t * Store :=
  match session_user userId with
  | None => (Error 401 "Unauthorized", s)
  | Some userId =>
      match getGoal goalId s with
      | Some existingGoal =>
          if negb (String.eqb (Goal.userId existingGoal) userId)
          then (Error 404 "Goal not found", s)
          else
            match deleteGoal goalId s with
            | (true, s') => (NoContent 204, s')
            | (false, s') => (Error 404 "Goal not found", s')
            end
      | None => (Error 404 "Goal not found", s)
      end
  end.

End GoalRoutes.

(** The requests to the goal routes that write. *)
Inductive goal_request : Type :=
  | PostGoal (userId : option string) (body : ClientGoal.t) (id : string)
      (now : Date)
  | PatchGoal (userId : option string) (goalId : string)
      (body : ClientUpdateGoal.t) (clk : Clock)
  | DeleteGoal (userId : option string) (goalId : string).

(** * Properties of the goal code *)

(** ** Both goal storages as one finite map *)

(** Both storage classes act on the finite map from id to goal in the same
    way, but for the defaults of a new goal: [goal_view] is the map a store
    holds. *)
Class GoalView (Store : Type) `{IGoalStorage Store} : Type := {
  goal_view : Store -> gmap string Goal.t;
  getGoal_view : forall id s, getGoal id s = goal_view s !! id;
  updateGoal_view : forall clk id u s,
    ((updateGoal clk id u s).1, goal_view (updateGoal clk id u s).2)
    = DatabaseGoals.updateGoal clk id u (goal_view s);
  deleteGoal_view : forall id s,
    ((deleteGoal id s).1, goal_view (deleteGoal id s).2)
    = DatabaseGoals.deleteGoal id (goal_view s);
  createGoal_view : forall id now insertGoal s goal s',
    createGoal id now insertGoal s = Some (goal, s') ->
    goal_view s' = <[id := goal]> (goal_view s)
    /\ (goal = MemGoals.new_goal id now insertGoal
        \/ goal = DatabaseGoals.inserted_row id now insertGoal);
  createGoal_fresh : forall id now insertGoal s,
    goal_view s !! id = None -> is_Some (createGoal id now insertGoal s)
}.

Lemma DatabaseGoals_getGoal_lookup (table : gmap string Goal.t) (id : string) :
  DatabaseGoals.getGoal id table = table !! id.
Proof.
  unfold DatabaseGoals.getGoal, DatabaseGoals.select_where_id.
  by destruct (table !! id).
Qed.

Lemma DatabaseGoals_updateGoal_lookup (clk : Clock) (id : string)
    (u : UpdateGoal.t) (table : gmap string Goal.t) :
  DatabaseGoals.updateGoal clk id u table
  = match table !! id with
    | Some goal =>
        (Some (merge_goal goal u (clk O)),
         <[id := merge_goal goal u (clk O)]> table)
    | None => (None, table)
    end.
Proof.
  unfold DatabaseGoals.updateGoal, DatabaseGoals.update_returning.
  by destruct (table !! id).
Qed.

Lemma DatabaseGoals_deleteGoal_lookup (id : string) (table : gmap string Goal.t) :
  DatabaseGoals.deleteGoal id table
  = (bool_decide (is_Some (table !! id)), delete id table).
Proof.
  unfold DatabaseGoals.deleteGoal, DatabaseGoals.delete_where_id.
  destruct (table !! id) as [goal |] eqn:Hlookup; cbn; [done |].
  by rewrite delete_id.
Qed.

Lemma MemGoals_updateGoal_view (clk : Clock) (id : string) (u : UpdateGoal.t)
    (s : MemGoalStore) :
  ((updateGoal clk id u s).1, JsMap.to_gmap (goal_map (updateGoal clk id u s).2))
  = DatabaseGoals.updateGoal clk id u (JsMap.to_gmap (goal_map s)).
Proof.
  destruct s as [m]. rewrite DatabaseGoals_updateGoal_lookup.
  cbn [updateGoal MemGoals_IGoalStorage goal_map]. unfold MemGoals.updateGoal.
  rewrite <- JsMap_get_to_gmap.
  destruct (JsMap.get id m) as [existingGoal |]; [| done].
  cbn [fst snd goal_map]. by rewrite JsMap_to_gmap_set.
Qed.

Lemma MemGoals_deleteGoal_view (id : string) (s : MemGoalStore) :
  ((deleteGoal id s).1, JsMap.to_gmap (goal_map (deleteGoal id s).2))
  = DatabaseGoals.deleteGoal id (JsMap.to_gmap (goal_map s)).
Proof.
  destruct s as [m]. rewrite DatabaseGoals_deleteGoal_lookup.
  cbn [deleteGoal MemGoals_IGoalStorage goal_map].
  unfold MemGoals.deleteGoal, JsMap.delete. cbn [fst snd goal_map].
  by rewrite JsMap_to_gmap_remove, JsMap_get_to_gmap.
Qed.

Lemma MemGoals_createGoal_view (id : string) (now : Date)
    (insertGoal : InsertGoal.t) (s : MemGoalStore) (goal : Goal.t)
    (s' : MemGoalStore) :
  createGoal id now insertGoal s = Some (goal, s') ->
  JsMap.to_gmap (goal_map s') = <[id := goal]> (JsMap.to_gmap (goal_map s))
  /\ (goal = MemGoals.new_goal id now insertGoal
      \/ goal = DatabaseGoals.inserted_row id now insertGoal).
Proof.
  destruct s as [m].
  cbn [createGoal MemGoals_IGoalStorage goal_map MemGoals.createGoal].
  intros [= <- <-]. cbn [goal_map]. split; [apply JsMap_to_gmap_set | by left].
Qed.

Lemma MemGoals_createGoal_fresh (id : string) (now : Date)
    (insertGoal : InsertGoal.t) (s : MemGoalStore) :
  JsMap.to_gmap (goal_map s) !! id = None ->
  is_Some (createGoal id now insertGoal s).
Proof. intros _. by eexists. Qed.

#[export] Instance MemGoals_GoalView : GoalView MemGoalStore := {|
  goal_view s := JsMap.to_gmap (goal_map s);
  getGoal_view id s := JsMap_get_to_gmap id (goal_map s);
  updateGoal_view := MemGoals_updateGoal_view;
  deleteGoal_view := MemGoals_deleteGoal_view;
  createGoal_view := MemGoals_createGoal_view;
  createGoal_fresh := MemGoals_createGoal_fresh
|}.

Lemma Database_updateGoal_view (clk : Clock) (id : string) (u : UpdateGoal.t)
    (s : GoalTable) :
  ((updateGoal clk id u s).1, goal_table (updateGoal clk id u s).2)
  = DatabaseGoals.updateGoal clk id u (goal_table s).
Proof.
  destruct s as [m]. cbn [updateGoal Database_IGoalStorage goal_table].
  by destruct (DatabaseGoals.updateGoal clk id u m).
Qed.

Lemma Database_deleteGoal_view (id : string) (s : GoalTable) :
  ((deleteGoal id s).1, goal_table (deleteGoal id s).2)
  = DatabaseGoals.deleteGoal id (goal_table s).
Proof.
  destruct s as [m]. cbn [deleteGoal Database_IGoalStorage goal_table].
  by destruct (DatabaseGoals.deleteGoal id m).
Qed.

Lemma Database_createGoal_view (id : string) (now : Date)
    (insertGoal : InsertGoal.t) (s : GoalTable) (goal : Goal.t) (s' : GoalTable) :
  createGoal id now insertGoal s = Some (goal, s') ->
  goal_table s' = <[id := goal]> (goal_table s)
  /\ (goal = MemGoals.new_goal id now insertGoal
      \/ goal = DatabaseGoals.inserted_row id now insertGoal).
Proof.
  destruct s as [m]. cbn [createGoal Database_IGoalStorage goal_table].
  unfold DatabaseGoals.createGoal, DatabaseGoals.insert_returning.
  destruct (m !! id); [discriminate |]. intros [= <- <-]. cbn [goal_table].
  split; [done | by right].
Qed.

Lemma Database_createGoal_fresh (id : string) (now : Date)
    (insertGoal : InsertGoal.t) (s : GoalTable) :
  goal_table s !! id = None -> is_Some (createGoal id now insertGoal s).
Proof.
  destruct s as [m]. cbn [createGoal Database_IGoalStorage goal_table].
  unfold DatabaseGoals.createGoal, DatabaseGoals.insert_returning.
  intros ->. by eexists.
Qed.

#[export] Instance Database_GoalView : GoalView GoalTable := {|
  goal_view := goal_table;
  getGoal_view id s := DatabaseGoals_getGoal_lookup (goal_table s) id;
  updateGoal_view := Database_updateGoal_view;
  deleteGoal_view := Database_deleteGoal_view;
  createGoal_view := Database_createGoal_view;
  createGoal_fresh := Database_createGoal_fresh
|}.

(** A new goal of either storage class. *)
Lemma new_goal_fields (id : string) (now : Date) (insertGoal : InsertGoal.t)
    (goal : Goal.t) :
  goal = MemGoals.new_goal id now insertGoal
  \/ goal = DatabaseGoals.inserted_row id now insertGoal ->
  Goal.id goal = id
  /\ Goal.userId goal = InsertGoal.userId insertGoal
  /\ Goal.isCompleted goal = false
  /\ Goal.completedAt goal = None
  /\ Goal.createdAt goal = now
  /\ Goal.updatedAt goal = now.
Proof. by intros [-> | ->]. Qed.

(** ** The goal routes on the finite map of the store *)

Section GoalRouteViews.

Context {Store : Type} `{GoalView Store}.
Variable Date_parse : string -> option Date.
Variable Number_toString : number -> string.
Variable integer_column : number -> bool.

Local Abbreviation patch :=
  (patch_goal Date_parse Number_toString integer_column).
Local Abbreviation post :=
  (post_goal Date_parse Number_toString integer_column).

Lemma issues_nil_inr {A : Type} (checks : list (string * bool)) (body v : A) :
  match issues checks with
  | [] => inr body
  | details => inl details
  end = (inr v : list string + A) ->
  v = body /\ forall check, check ∈ checks -> snd check = true.
Proof.
  unfold issues.
  destruct (List.filter (fun check => negb (snd check)) checks) eqn:Hfilter;
    [| discriminate].
  intros [= <-]. split; [done |]. intros check Hin.
  destruct (snd check) eqn:Hcheck; [done |].
  assert (check ∈ List.filter (fun check => negb (snd check)) checks) as Hbad
    by (apply elem_of_List_filter; by rewrite Hcheck).
  rewrite Hfilter in Hbad. by apply elem_of_nil in Hbad.
Qed.

(** What the conversion of an update to the server format passes on. *)
Lemma to_update_goal_inr (body : ClientUpdateGoal.t) (updateData : UpdateGoal.t) :
  to_update_goal Date_parse Number_toString body = inr updateData ->
  UpdateGoal.isCompleted updateData = ClientUpdateGoal.isCompleted body
  /\ UpdateGoal.completedAt updateData = None
  /\ UpdateGoal.currentValue updateData
     = truthy_toString Number_toString (ClientUpdateGoal.currentValue body)
  /\ UpdateGoal.targetValue updateData
     = truthy_toString Number_toString (ClientUpdateGoal.targetValue body).
Proof.
  unfold to_update_goal.
  destruct (ClientUpdateGoal.deadline body) as [[| c r] |];
    [| destruct (Date_parse (String c r)); [| discriminate] |];
    by intros [= <-].
Qed.

(** A request to the update route either leaves the finite map as it was
    and answers an error, or merges the converted body into the requester's
    own goal and answers 200 with it. *)
Lemma patch_goal_cases (userId : option string) (goalId : string)
    (body : ClientUpdateGoal.t) (clk : Clock) (s : Store) :
  (goal_view (patch userId goalId body clk s).2 = goal_view s
   /\ answer_status (patch userId goalId body clk s).1 <> 200)
  \/ exists u existingGoal updateData,
       session_user userId = Some u
       /\ goal_view s !! goalId = Some existingGoal
       /\ Goal.userId existingGoal = u
       /\ clientUpdateGoalSchema_parse integer_column body = inr body
       /\ to_update_goal Date_parse Number_toString body = inr updateData
       /\ goal_view (patch userId goalId body clk s).2
          = <[goalId := merge_goal existingGoal updateData (clk O)]> (goal_view s)
       /\ (patch userId goalId body clk s).1
          = Json 200 (merge_goal existingGoal updateData (clk O)).
Proof.
  unfold patch_goal.
  destruct (session_user userId) as [u |] eqn:Hu; [| by left].
  rewrite getGoal_view.
  destruct (goal_view s !! goalId) as [existingGoal |] eqn:Hlookup; [| by left].
  destruct (String.eqb_spec (Goal.userId existingGoal) u) as [Howner | _];
    cbn [negb]; [| by left].
  destruct (clientUpdateGoalSchema_parse integer_column body)
    as [details | v] eqn:Hparse; [by left |].
  assert (v = body) as ->.
  { unfold clientUpdateGoalSchema_parse in Hparse.
    by apply issues_nil_inr in Hparse as [-> _]. }
  destruct (to_update_goal Date_parse Number_toString body)
    as [details | updateData] eqn:Hconv; [by left |].
  pose proof (updateGoal_view clk goalId updateData s) as Hview.
  rewrite DatabaseGoals_updateGoal_lookup, Hlookup in Hview.
  destruct (updateGoal clk goalId updateData s) as [r s'].
  cbn [fst snd] in Hview. injection Hview as -> Hs'.
  right. exists u, existingGoal, updateData. by cbn [fst snd].
Qed.

(** A request to the delete route either leaves the finite map as it was
    or removes the requester's own goal. *)
Lemma delete_goal_cases (userId : option string) (goalId : string) (s : Store) :
  (goal_view (delete_goal userId goalId s).2 = goal_view s
   /\ answer_status (delete_goal userId goalId s).1 <> 204)
  \/ exists u existingGoal,
       session_user userId = Some u
       /\ goal_view s !! goalId = Some existingGoal
       /\ Goal.userId existingGoal = u
       /\ goal_view (delete_goal userId goalId s).2 = delete goalId (goal_view s)
       /\ (delete_goal userId goalId s).1 = NoContent 204.
Proof.
  unfold delete_goal.
  destruct (session_user userId) as [u |] eqn:Hu; [| by left].
  rewrite getGoal_view.
  destruct (goal_view s !! goalId) as [existingGoal |] eqn:Hlookup; [| by left].
  destruct (String.eqb_spec (Goal.userId existingGoal) u) as [Howner | _];
    cbn [negb]; [| by left].
  pose proof (deleteGoal_view goalId s) as Hview.
  rewrite DatabaseGoals_deleteGoal_lookup, Hlookup in Hview.
  rewrite bool_decide_eq_true_2 in Hview by (by eexists).
  destruct (deleteGoal goalId s) as [deleted s'].
  cbn [fst snd] in Hview. injection Hview as -> Hs'.
  right. exists u, existingGoal. by cbn [fst snd].
Qed.

Lemma to_insert_goal_inr (u : string) (body : ClientGoal.t)
    (insertGoal : InsertGoal.t) :
  to_insert_goal Date_parse Number_toString u body = inr insertGoal ->
  InsertGoal.userId insertGoal = u
  /\ InsertGoal.priority insertGoal = ClientGoal.priority body
  /\ InsertGoal.description insertGoal = ClientGoal.description body
  /\ InsertGoal.tasks insertGoal = ClientGoal.tasks body
  /\ InsertGoal.currentValue insertGoal
     = Some (Number_toString (ClientGoal.currentValue body))
  /\ Date_parse (ClientGoal.deadline body) = Some (InsertGoal.deadline insertGoal)
  /\ ClientGoal.deadline body <> "".
Proof.
  unfold to_insert_goal.
  destruct (ClientGoal.deadline body) as [| c r]; [discriminate |].
  destruct (Date_parse (String c r)); [| discriminate].
  by intros [= <-].
Qed.

(** A request to the create route either leaves the finite map as it was
    and answers an error, or stores a new goal under the id drawn and
    answers 201 with it. *)
Lemma post_goal_cases (userId : option string) (body : ClientGoal.t)
    (id : string) (now : Date) (s : Store) :
  (goal_view (post userId body id now s).2 = goal_view s
   /\ answer_status (post userId body id now s).1 <> 201)
  \/ exists u insertGoal goal,
       session_user userId = Some u
       /\ clientGoalSchema_parse integer_column body = inr body
       /\ to_insert_goal Date_parse Number_toString u body = inr insertGoal
       /\ (goal = MemGoals.new_goal id now insertGoal
           \/ goal = DatabaseGoals.inserted_row id now insertGoal)
       /\ goal_view (post userId body id now s).2 = <[id := goal]> (goal_view s)
       /\ (post userId body id now s).1 = Json 201 goal.
Proof.
  unfold post_goal.
  destruct (session_user userId) as [u |] eqn:Hu; [| by left].
  destruct (clientGoalSchema_parse integer_column body)
    as [details | v] eqn:Hparse; [by left |].
  assert (v = body) as ->.
  { unfold clientGoalSchema_parse in Hparse.
    by apply issues_nil_inr in Hparse as [-> _]. }
  destruct (to_insert_goal Date_parse Number_toString u body)
    as [details | insertGoal] eqn:Hconv; [by left |].
  destruct (createGoal id now insertGoal s) as [[goal s'] |] eqn:Hcreate;
    [| by left].
  apply createGoal_view in Hcreate as [Hview Hgoal].
  right. exists u, insertGoal, goal. by cbn [fst snd].
Qed.

End GoalRouteViews.

(** ** Lists and numbers *)

Lemma List_filter_filter {A : Type} (f g : A -> bool) (l : list A) :
  List.filter g (List.filter f l) = List.filter (fun x => f x && g x) l.
Proof.
  induction l as [| x l IH]; cbn; [done |].
  destruct (f x); cbn; [| done]. destruct (g x); by rewrite IH.
Qed.

Lemma List_filter_none {A : Type} (f : A -> bool) (l : list A) :
  (forall x, f x = false) -> List.filter f l = [].
Proof.
  intros Hf. induction l as [| x l IH]; cbn; [done |]. by rewrite Hf.
Qed.

Lemma number_eq_NaN (x : number) : number_eq x NaN = false.
Proof. by destruct x. Qed.

Lemma DatabaseGoals_elem_of_select_where (condition : Goal.t -> bool)
    (table : gmap string Goal.t) (goal : Goal.t) :
  goal ∈ DatabaseGoals.select_where condition table
  <-> exists id, table !! id = Some goal /\ condition goal = true.
Proof.
  unfold DatabaseGoals.select_where. rewrite elem_of_List_filter. split.
  - intros [Hin Hc].
    apply list_elem_of_In, in_map_iff in Hin as ([id g0] & Heq & Hin).
    cbn in Heq. subst g0. apply list_elem_of_In, elem_of_map_to_list in Hin.
    by exists id.
  - intros (id & Hlookup & Hc). split; [| done].
    apply list_elem_of_In, in_map_iff. exists (id, goal). split; [done |].
    by apply list_elem_of_In, elem_of_map_to_list.
Qed.

(** [Number.isInteger], the check of an [integer] column in the samples. *)
Definition Number_isInteger (x : number) : bool :=
  match x with
  | S754_zero _ => true
  | S754_finite _ m e => (0 <=? e) || (Z.pos m mod 2 ^ (- e) =? 0)
  | _ => false
  end.

(** ** The goal routes *)

Section GoalExtras.

Context {Store : Type} `{GoalView Store}.
Variable Date_parse : string -> option Date.
Variable Number_toString : number -> string.
Variable integer_column : number -> bool.

Local Abbreviation patch :=
  (patch_goal Date_parse Number_toString integer_column).
Local Abbreviation post :=
  (post_goal Date_parse Number_toString integer_column).

(** The store after a request to a goal route that writes. *)
Definition handle_goal (r : goal_request) (s : Store) : Store :=
  match r with
  | PostGoal userId body id now => (post userId body id now s).2
  | PatchGoal userId goalId body clk => (patch userId goalId body clk s).2
  | DeleteGoal userId goalId => (delete_goal userId goalId s).2
  end.

(** The store after a sequence of such requests, served one after the
    other. *)
Definition handle_goals (rs : list goal_request) (s : Store) : Store :=
  foldl (fun s r => handle_goal r s) s rs.

(** No goal of the store has a completion time. *)
Definition never_stamped (s : Store) : Prop :=
  forall id goal, getGoal id s = Some goal -> Goal.completedAt goal = None.

Lemma handle_goal_never_stamped (r : goal_request) (s : Store) :
  never_stamped s -> never_stamped (handle_goal r s).
Proof.
  unfold never_stamped. intros Hinv id goal. rewrite getGoal_view.
  destruct r as [userId body id0 now | userId goalId body clk | userId goalId];
    cbn [handle_goal].
  - destruct (post_goal_cases Date_parse Number_toString integer_column
                userId body id0 now s)
      as [[-> _] | (u & insertGoal & g0 & _ & _ & _ & Hnew & -> & _)].
    + rewrite <- getGoal_view. apply Hinv.
    + destruct (decide (id0 = id)) as [-> | Hne].
      * rewrite lookup_insert_eq. intros [= <-].
        by apply new_goal_fields in Hnew as (_ & _ & _ & Hat & _).
      * rewrite lookup_insert_ne by done. rewrite <- getGoal_view. apply Hinv.
  - destruct (patch_goal_cases Date_parse Number_toString integer_column
                userId goalId body clk s)
      as [[-> _] | (u & g0 & updateData & _ & Hlookup & _ & _ & Hconv & -> & _)].
    + rewrite <- getGoal_view. apply Hinv.
    + destruct (decide (goalId = id)) as [-> | Hne].
      * rewrite lookup_insert_eq. intros [= <-].
        apply to_update_goal_inr in Hconv as (_ & Hat & _).
        cbn [merge_goal Goal.completedAt]. rewrite Hat. cbn [spread].
        apply (Hinv id). by rewrite getGoal_view.
      * rewrite lookup_insert_ne by done. rewrite <- getGoal_view. apply Hinv.
  - destruct (delete_goal_cases userId goalId s)
      as [[-> _] | (u & g0 & _ & _ & _ & -> & _)].
    + rewrite <- getGoal_view. apply Hinv.
    + intros [_ Hlookup]%lookup_delete_Some. apply (Hinv id).
      by rewrite getGoal_view.
Qed.

(** X15.  No goal route ever sets the completion time of a goal: in a store
    whose goals have none, no goal has one after any sequence of create,
    update and delete requests, whoever sends them and whatever they hold,
    also when they mark goals completed.  This holds for both storage
    classes. *)
Theorem goal_routes_never_stamp (rs : list goal_request) (s : Store) :
  never_stamped s -> never_stamped (handle_goals rs s).
Proof.
  unfold handle_goals. revert s.
  induction rs as [| r rs IH]; intros s Hinv; cbn [foldl]; [exact Hinv |].
  apply IH. by apply handle_goal_never_stamped.
Qed.

(** The update route for the owner of a goal and a body that passes the
    schema. *)
Lemma patch_goal_owner (u goalId : string) (body : ClientUpdateGoal.t)
    (clk : Clock) (s : Store) (goal : Goal.t) :
  u <> "" ->
  getGoal goalId s = Some goal ->
  Goal.userId goal = u ->
  clientUpdateGoalSchema_parse integer_column body = inr body ->
  dueDate_ok Date_parse (ClientUpdateGoal.deadline body) ->
  exists updateData,
    to_update_goal Date_parse Number_toString body = inr updateData
    /\ (patch (Some u) goalId body clk s).1
       = Json 200 (merge_goal goal updateData (clk O))
    /\ goal_view (patch (Some u) goalId body clk s).2
       = <[goalId := merge_goal goal updateData (clk O)]> (goal_view s).
Proof.
  intros Hu Hget Howner Hparse Hdate.
  assert (exists updateData,
             to_update_goal Date_parse Number_toString body = inr updateData)
    as [updateData Hconv].
  { unfold to_update_goal, dueDate_ok in *.
    destruct (ClientUpdateGoal.deadline body) as [[| c r] |]; [by eexists | | by eexists].
    destruct Hdate as [d ->]. by eexists. }
  exists updateData. split; [done |].
  unfold patch_goal. rewrite (session_user_nonempty u Hu), Hget, Howner.
  rewrite String.eqb_refl. cbn [negb]. rewrite Hparse, Hconv.
  pose proof (updateGoal_view clk goalId updateData s) as Hview.
  rewrite getGoal_view in Hget.
  rewrite DatabaseGoals_updateGoal_lookup, Hget in Hview.
  destruct (updateGoal clk goalId updateData s) as [r s'].
  cbn [fst snd] in Hview. by injection Hview as -> Hs'.
Qed.

(** X16.  A completed goal can be set back to not completed through the
    update route, unlike a task: the owner's request with
    [isCompleted: false] and a body that passes the schema is answered 200
    with the goal not completed, and that goal is stored; its completion
    time stays what it was.  This holds for the memory storage, and for the
    database storage where no column refuses a value of the update. *)
Theorem patch_goal_can_uncomplete (u goalId : string) (body : ClientUpdateGoal.t)
    (clk : Clock) (s : Store) (goal : Goal.t) :
  u <> "" ->
  getGoal goalId s = Some goal ->
  Goal.userId goal = u ->
  clientUpdateGoalSchema_parse integer_column body = inr body ->
  dueDate_ok Date_parse (ClientUpdateGoal.deadline body) ->
  ClientUpdateGoal.isCompleted body = Some false ->
  exists goal',
    (patch (Some u) goalId body clk s).1 = Json 200 goal'
    /\ getGoal goalId (patch (Some u) goalId body clk s).2 = Some goal'
    /\ Goal.isCompleted goal' = false
    /\ Goal.completedAt goal' = Goal.completedAt goal
    /\ Goal.updatedAt goal' = clk O.
Proof.
  intros Hu Hget Howner Hparse Hdate Hflag.
  destruct (patch_goal_owner u goalId body clk s goal Hu Hget Howner Hparse Hdate)
    as (updateData & Hconv & Hans & Hview).
  apply to_update_goal_inr in Hconv as (Hdone & Hat & _).
  eexists. split; [exact Hans |].
  split; [by rewrite getGoal_view, Hview, lookup_insert_eq |].
  cbn [merge_goal Goal.isCompleted Goal.completedAt Goal.updatedAt].
  by rewrite Hdone, Hat, Hflag.
Qed.

(** X17.  The update route cannot set a value of a goal to zero: when it
    answers 200, a [currentValue] or [targetValue] of the body that is zero
    has passed the schema and leaves the stored value as it was.  This
    holds for both storage classes. *)
Theorem patch_goal_drops_zero (userId : option string) (goalId : string)
    (body : ClientUpdateGoal.t) (clk : Clock) (s : Store) (goal goal' : Goal.t) :
  getGoal goalId s = Some goal ->
  (patch userId goalId body clk s).1 = Json 200 goal' ->
  (forall x, ClientUpdateGoal.currentValue body = Some x ->
             number_truthy x = false ->
             SFleb (lit 0) x = true
             /\ Goal.currentValue goal' = Goal.currentValue goal)
  /\ (forall x, ClientUpdateGoal.targetValue body = Some x ->
                number_truthy x = false ->
                SFleb (lit 0) x = true
                /\ Goal.targetValue goal' = Goal.targetValue goal).
Proof.
  intros Hget Hans. rewrite getGoal_view in Hget.
  destruct (patch_goal_cases Date_parse Number_toString integer_column
              userId goalId body clk s)
    as [[_ Hstatus] | (u & g0 & updateData & _ & Hlookup & _ & Hparse & Hconv
                       & _ & Hans')].
  { rewrite Hans in Hstatus. by destruct Hstatus. }
  rewrite Hans in Hans'. injection Hans' as ->.
  rewrite Hget in Hlookup. injection Hlookup as <-.
  apply to_update_goal_inr in Hconv as (_ & _ & Hcurrent & Htarget).
  unfold clientUpdateGoalSchema_parse in Hparse.
  apply issues_nil_inr in Hparse as [_ Hchecks].
  split; intros x Hx Hzero.
  - split.
    + specialize (Hchecks ("currentValue", SFleb (lit 0) x)).
      rewrite Hx in Hchecks. apply Hchecks. set_solver.
    + cbn [merge_goal Goal.currentValue]. rewrite Hcurrent, Hx.
      cbn [truthy_toString]. by rewrite Hzero.
  - split.
    + specialize (Hchecks ("targetValue", SFleb (lit 0) x)).
      rewrite Hx in Hchecks. apply Hchecks. set_solver.
    + cbn [merge_goal Goal.targetValue]. rewrite Htarget, Hx.
      cbn [truthy_toString]. by rewrite Hzero.
Qed.

(** X18.  A goal is hidden from everyone but its owner: for a goal that is
    not stored, or is stored with another [userId], the update route and the
    delete route answer 404 "Goal not found" and leave the store as it
    was, whatever the body. *)
Theorem goal_routes_hide_other_users (u goalId : string)
    (body : ClientUpdateGoal.t) (clk : Clock) (s : Store) :
  u <> "" ->
  (forall goal, getGoal goalId s = Some goal -> Goal.userId goal <> u) ->
  patch (Some u) goalId body clk s = (Error 404 "Goal not found", s)
  /\ delete_goal (Some u) goalId s = (Error 404 "Goal not found", s).
Proof.
  intros Hu Hother. unfold patch_goal, delete_goal.
  rewrite (session_user_nonempty u Hu).
  destruct (getGoal goalId s) as [goal |]; [| done].
  specialize (Hother goal eq_refl).
  by destruct (String.eqb_spec (Goal.userId goal) u).
Qed.

(** X19.  The delete route removes the owner's goal and nothing else: it
    answers 204, the goal is no longer stored, and every other goal is as
    before.  This holds for both storage classes. *)
Theorem delete_goal_removes_one_goal (u goalId : string) (s : Store)
    (goal : Goal.t) :
  u <> "" ->
  getGoal goalId s = Some goal ->
  Goal.userId goal = u ->
  (delete_goal (Some u) goalId s).1 = NoContent 204
  /\ getGoal goalId (delete_goal (Some u) goalId s).2 = None
  /\ (forall id, id <> goalId ->
                 getGoal id (delete_goal (Some u) goalId s).2 = getGoal id s).
Proof.
  intros Hu Hget Howner.
  destruct (delete_goal_cases (Some u) goalId s)
    as [[_ Hstatus] | (u' & g0 & _ & _ & _ & Hview & Hans)].
  - exfalso. revert Hstatus. unfold delete_goal.
    rewrite (session_user_nonempty u Hu), Hget, Howner, String.eqb_refl.
    cbn [negb]. pose proof (deleteGoal_view goalId s) as Hview.
    rewrite getGoal_view in Hget.
    rewrite DatabaseGoals_deleteGoal_lookup, Hget in Hview.
    rewrite bool_decide_eq_true_2 in Hview by (by eexists).
    destruct (deleteGoal goalId s) as [deleted s']. cbn [fst snd] in Hview.
    injection Hview as -> _. cbn. by intros Hne.
  - split; [exact Hans |].
    split; [by rewrite getGoal_view, Hview, lookup_delete_eq |].
    intros id Hne. by rewrite !getGoal_view, Hview, lookup_delete_ne.
Qed.

(** X20.  The create route stores a new goal for the session user: with a
    body that passes the schema, a deadline that parses to a date and a
    fresh id, it answers 201 with a goal of that id and owner, not
    completed and without completion time, created and updated at the time
    drawn; that goal is stored and every other goal is as before.  This
    holds for the memory storage, and for the database storage where no
    column refuses a value of the goal. *)
Theorem post_goal_creates (u : string) (body : ClientGoal.t) (id : string)
    (now : Date) (s : Store) :
  u <> "" ->
  clientGoalSchema_parse integer_column body = inr body ->
  ClientGoal.deadline body <> "" ->
  is_Some (Date_parse (ClientGoal.deadline body)) ->
  getGoal id s = None ->
  exists goal,
    (post (Some u) body id now s).1 = Json 201 goal
    /\ getGoal id (post (Some u) body id now s).2 = Some goal
    /\ (forall id', id' <> id ->
                    getGoal id' (post (Some u) body id now s).2 = getGoal id' s)
    /\ Goal.id goal = id
    /\ Goal.userId goal = u
    /\ Goal.isCompleted goal = false
    /\ Goal.completedAt goal = None
    /\ Goal.createdAt goal = now
    /\ Goal.updatedAt goal = now
    /\ Some (Goal.deadline goal) = Date_parse (ClientGoal.deadline body).
Proof.
  intros Hu Hparse Hne [deadline Hdate] Hfresh.
  rewrite getGoal_view in Hfresh.
  assert (exists insertGoal,
             to_insert_goal Date_parse Number_toString u body = inr insertGoal)
    as [insertGoal Hconv].
  { unfold to_insert_goal.
    destruct (ClientGoal.deadline body) as [| c r]; [by destruct Hne |].
    rewrite Hdate. by eexists. }
  destruct (createGoal_fresh id now insertGoal s Hfresh) as [[goal s'] Hcreate].
  assert (post (Some u) body id now s = (Json 201 goal, s')) as ->.
  { unfold post_goal.
    by rewrite (session_user_nonempty u Hu), Hparse, Hconv, Hcreate. }
  apply createGoal_view in Hcreate as [Hview Hnew].
  apply new_goal_fields in Hnew as Hfields.
  destruct Hfields as (Hid & Huser & Hdone & Hat & Hcreated & Hupdated).
  apply to_insert_goal_inr in Hconv as (Hiu & _ & _ & _ & _ & Hdl & _).
  exists goal. cbn [fst snd].
  split; [done |]. split; [by rewrite getGoal_view, Hview, lookup_insert_eq |].
  split; [intros id' Hne'; by rewrite !getGoal_view, Hview, lookup_insert_ne |].
  do 2 (split; [congruence |]). do 4 (split; [done |]).
  rewrite Hdl. f_equal. by destruct Hnew as [-> | ->].
Qed.

(** X21.  The create route rejects a body that fails a check, and stores
    nothing: a target or current value that is negative or not a number, a
    month or year that fails the check of its integer column, an empty
    deadline or one that does not parse to a date are each answered 400
    "Invalid goal data". *)
Theorem post_goal_rejects (u : string) (body : ClientGoal.t) (id : string)
    (now : Date) (s : Store) :
  u <> "" ->
  SFleb (lit 0) (ClientGoal.targetValue body) = false
  \/ SFleb (lit 0) (ClientGoal.currentValue body) = false
  \/ integer_column (ClientGoal.month body) = false
  \/ integer_column (ClientGoal.year body) = false
  \/ ClientGoal.deadline body = ""
  \/ Date_parse (ClientGoal.deadline body) = None ->
  exists details,
    post (Some u) body id now s
    = (ErrorDetails 400 "Invalid goal data" details, s).
Proof.
  intros Hu Hbad. unfold post_goal. rewrite (session_user_nonempty u Hu).
  destruct (clientGoalSchema_parse integer_column body) as [details | v] eqn:Hparse;
    [by eexists |].
  unfold clientGoalSchema_parse in Hparse.
  apply issues_nil_inr in Hparse as [-> Hchecks].
  assert (forall name check,
             (name, check) ∈
               [ ("targetValue", SFleb (lit 0) (ClientGoal.targetValue body));
                 ("currentValue", SFleb (lit 0) (ClientGoal.currentValue body));
                 ("month", integer_column (ClientGoal.month body));
                 ("year", integer_column (ClientGoal.year body)) ] ->
             check = true) as Hall
    by (intros name check Hin; apply (Hchecks _ Hin)).
  destruct Hbad as [Hb | [Hb | [Hb | [Hb | Hb]]]].
  - rewrite (Hall "targetValue" _) in Hb by set_solver. discriminate.
  - rewrite (Hall "currentValue" _) in Hb by set_solver. discriminate.
  - rewrite (Hall "month" _) in Hb by set_solver. discriminate.
  - rewrite (Hall "year" _) in Hb by set_solver. discriminate.
  - unfold to_insert_goal.
    destruct (ClientGoal.deadline body) as [| c r]; [by eexists |].
    destruct Hb as [Hb | ->]; [discriminate | by eexists].
Qed.

End GoalExtras.

(** ** The goal lists *)

Lemma MemGoals_getGoalsForMonth_filter (userId : string) (month year : number)
    (goals : JsMap.t Goal.t) :
  MemGoals.getGoalsForMonth userId month year goals
  = List.filter
      (fun goal =>
         number_eq (Goal.month goal) month && number_eq (Goal.year goal) year)
      (MemGoals.getGoals userId goals).
Proof.
  unfold MemGoals.getGoalsForMonth, MemGoals.getGoals.
  rewrite List_filter_filter. apply List.filter_ext. intros goal.
  by rewrite andb_assoc.
Qed.

(** X22.  With the memory storage, the list route filters by month and year
    only when both query parameters are there and not empty: then it
    answers the user's goals whose [month] and [year] equal what [parseInt]
    reads from the parameters, in the order of the full list; when either
    reads as [NaN] the answer is the empty list.  With a parameter missing
    or empty the other is ignored and all the user's goals are answered. *)
Theorem get_goals_by_month (u : string) (month year : option string)
    (s : MemGoalStore) :
  u <> "" ->
  match query_param month, query_param year with
  | Some m, Some y =>
      get_goals (Some u) month year s
      = Json 200
          (List.filter
             (fun goal =>
                number_eq (Goal.month goal) (parseInt m)
                && number_eq (Goal.year goal) (parseInt y))
             (getGoals u s))
      /\ (parseInt m = NaN \/ parseInt y = NaN ->
          get_goals (Some u) month year s = Json 200 [])
  | _, _ => get_goals (Some u) month year s = Json 200 (getGoals u s)
  end.
Proof.
  intros Hu. unfold get_goals. rewrite (session_user_nonempty u Hu).
  destruct (query_param month) as [m |]; [| done].
  destruct (query_param year) as [y |]; [| done].
  destruct s as [goals]. cbn [getGoalsForMonth getGoals MemGoals_IGoalStorage goal_map].
  rewrite MemGoals_getGoalsForMonth_filter. split; [done |].
  intros Hnan. f_equal. apply List_filter_none. intros goal.
  destruct Hnan as [-> | ->]; rewrite number_eq_NaN; [done |].
  apply andb_false_r.
Qed.

(** X23.  Without the month and year filter the list route answers the
    goals of the session user and no other: a goal is listed exactly when
    it is stored under some id with that [userId].  This holds for the
    memory storage, whose [Map] has no key twice, and for the database
    storage. *)
Theorem get_goals_lists_owner_goals (u : string) (goal : Goal.t) :
  u <> "" ->
  (forall goals : JsMap.t Goal.t,
      JsMap.wf goals ->
      exists l,
        get_goals (Some u) None None (MemGoalsOf goals) = Json 200 l
        /\ (goal ∈ l
            <-> exists id, getGoal id (MemGoalsOf goals) = Some goal
                           /\ Goal.userId goal = u))
  /\ (forall table : gmap string Goal.t,
         exists l,
           get_goals (Some u) None None (GoalTableOf table) = Json 200 l
           /\ (goal ∈ l
               <-> exists id, getGoal id (GoalTableOf table) = Some goal
                              /\ Goal.userId goal = u)).
Proof.
  intros Hu. unfold get_goals. rewrite (session_user_nonempty u Hu).
  cbn [query_param]. split.
  - intros goals Hwf. eexists. split; [reflexivity |].
    cbn [getGoals getGoal MemGoals_IGoalStorage goal_map].
    unfold MemGoals.getGoals, MemGoals.getGoal.
    rewrite elem_of_List_filter, String.eqb_eq.
    rewrite (JsMap_elem_of_values goals goal Hwf). split.
    + intros [[id Hget] Hown]. by exists id.
    + intros (id & Hget & Hown). split; [by exists id | done].
  - intros table. eexists. split; [reflexivity |].
    cbn [getGoals getGoal Database_IGoalStorage goal_table].
    unfold DatabaseGoals.getGoals.
    rewrite DatabaseGoals_elem_of_select_where.
    split; intros (id & Hget & Hown); exists id;
      rewrite ?DatabaseGoals_getGoal_lookup, ?String.eqb_eq in *; done.
Qed.


(** X24.  The two storage classes answer a create request with different
    goals: where the body leaves out [priority], [description] or [tasks],
    the goal of the database storage has the defaults of the table
    ("medium", null, the empty list) and the goal of the memory storage has
    no such key. *)
Theorem storages_differ_on_goal_defaults
    (Date_parse : string -> option Date) (Number_toString : number -> string)
    (integer_column : number -> bool)
    (userId : option string) (body : ClientGoal.t) (id : string) (now : Date)
    (goals : JsMap.t Goal.t) (table : gmap string Goal.t)
    (fromMemory fromDatabase : Goal.t) :
  (post_goal Date_parse Number_toString integer_column userId body id now
     (MemGoalsOf goals)).1 = Json 201 fromMemory ->
  (post_goal Date_parse Number_toString integer_column userId body id now
     (GoalTableOf table)).1 = Json 201 fromDatabase ->
  Goal.priority fromMemory = ClientGoal.priority body
  /\ Goal.priority fromDatabase
     = Some (default "medium" (ClientGoal.priority body))
  /\ Goal.description fromMemory = ClientGoal.description body
  /\ Goal.description fromDatabase = Some (or_null (ClientGoal.description body))
  /\ Goal.tasks fromMemory = ClientGoal.tasks body
  /\ Goal.tasks fromDatabase = Some (default (Some []) (ClientGoal.tasks body)).
Proof.
  unfold post_goal.
  destruct (session_user userId) as [u |]; [| discriminate].
  destruct (clientGoalSchema_parse integer_column body) as [details | v] eqn:Hparse;
    [discriminate |].
  unfold clientGoalSchema_parse in Hparse.
  apply issues_nil_inr in Hparse as [-> _].
  destruct (to_insert_goal Date_parse Number_toString u body)
    as [details | insertGoal] eqn:Hconv; [discriminate |].
  apply to_insert_goal_inr in Hconv as (_ & Hp & Hd & Ht & _).
  cbn [createGoal MemGoals_IGoalStorage Database_IGoalStorage goal_map goal_table
       MemGoals.createGoal].
  intros [= <-]. unfold DatabaseGoals.createGoal, DatabaseGoals.insert_returning.
  destruct (table !! id); [discriminate |]. intros [= <-].
  cbn [MemGoals.new_goal DatabaseGoals.inserted_row Goal.priority Goal.description
       Goal.tasks].
  by rewrite Hp, Hd, Ht.
Qed.

(** ** Sample goals and requests *)

(** Bruce's completed goal of ten workouts, four done. *)
Definition sample_goal : Goal.t :=
  Goal.mk "g1" "bruce" "Train" (Some None) "fitness" (Some "medium") "10"
    (Some "4") "workouts" 5000 (lit 11) (lit 2026) (Some (Some [])) true None
    1000 1000.

(** The same goal after an update at the first reading of [sample_clock]
    that changes no key. *)
Definition touched_goal : Goal.t :=
  Goal.mk "g1" "bruce" "Train" (Some None) "fitness" (Some "medium") "10"
    (Some "4") "workouts" 5000 (lit 11) (lit 2026) (Some (Some [])) true None
    1000 2000.

Definition sample_goals : MemGoalStore := MemGoalsOf [("g1", sample_goal)].

(** The body [{ isCompleted: false }]. *)
Definition uncomplete_goal_body : ClientUpdateGoal.t :=
  ClientUpdateGoal.mk None None None None None None None None None None None
    (Some false).

(** The body [{ isCompleted: true }]. *)
Definition complete_goal_body : ClientUpdateGoal.t :=
  ClientUpdateGoal.mk None None None None None None None None None None None
    (Some true).

(** The body [{ currentValue: 0 }]. *)
Definition zero_progress_body : ClientUpdateGoal.t :=
  ClientUpdateGoal.mk None None None None None (Some (lit 0)) None None None None
    None None.

(** A [Date] reader that knows one day. *)
Definition sample_dates : string -> option Date :=
  fun s => if String.eqb s "2026-12-01" then Some 5000 else None.

(** A goal of ten workouts for December 2026, with neither priority nor
    description nor tasks. *)
Definition train_body : ClientGoal.t :=
  ClientGoal.mk "Train" None "fitness" None (lit 10) (lit 0) "workouts"
    "2026-12-01" (lit 12) (lit 2026) None.

(** The same with a target of minus one. *)
Definition negative_body : ClientGoal.t :=
  ClientGoal.mk "Train" None "fitness" None (lit (-1)) (lit 0) "workouts"
    "2026-12-01" (lit 12) (lit 2026) None.

(** Bruce creates a goal and completes it; selina asks to delete it. *)
Definition sample_goal_requests : list goal_request :=
  [ PostGoal (Some "bruce") train_body "g9" 100;
    PatchGoal (Some "bruce") "g9" complete_goal_body sample_clock;
    DeleteGoal (Some "selina") "g9" ].

Example parseInt_samples :
  parseInt "11" = lit 11
  /\ parseInt " 2026th" = lit 2026
  /\ parseInt "0x1F" = lit 31
  /\ parseInt "-0" = S754_zero true
  /\ parseInt "1e3" = lit 1
  /\ parseInt "november" = NaN
  /\ parseInt "" = NaN.
Proof. repeat split; reflexivity. Qed.

Lemma goal_routes_never_stamp_witness :
  never_stamped (MemGoalsOf [])
  /\ never_stamped
       (handle_goals sample_dates print_zero Number_isInteger sample_goal_requests
          (MemGoalsOf [])).
Proof.
  assert (Hempty : never_stamped (MemGoalsOf [])) by (intros id goal; discriminate).
  split; [exact Hempty |].
  exact (goal_routes_never_stamp sample_dates print_zero Number_isInteger
           sample_goal_requests (MemGoalsOf []) Hempty).
Defined.

Lemma patch_goal_can_uncomplete_witness :
  "bruce" <> ""
  /\ getGoal "g1" sample_goals = Some sample_goal
  /\ Goal.isCompleted sample_goal = true
  /\ clientUpdateGoalSchema_parse Number_isInteger uncomplete_goal_body
     = inr uncomplete_goal_body
  /\ dueDate_ok sample_dates (ClientUpdateGoal.deadline uncomplete_goal_body)
  /\ exists goal',
       (patch_goal sample_dates print_zero Number_isInteger (Some "bruce") "g1"
          uncomplete_goal_body sample_clock sample_goals).1 = Json 200 goal'
       /\ Goal.isCompleted goal' = false.
Proof.
  assert (Hu : "bruce" <> "") by discriminate.
  assert (Hget : getGoal "g1" sample_goals = Some sample_goal) by reflexivity.
  assert (Hparse : clientUpdateGoalSchema_parse Number_isInteger uncomplete_goal_body
                   = inr uncomplete_goal_body) by reflexivity.
  split; [exact Hu |]. split; [exact Hget |]. split; [reflexivity |].
  split; [exact Hparse |]. split; [exact I |].
  destruct (patch_goal_can_uncomplete sample_dates print_zero Number_isInteger
              "bruce" "g1" uncomplete_goal_body sample_clock sample_goals sample_goal
              Hu Hget eq_refl Hparse I eq_refl)
    as (goal' & Hans & _ & Hdone & _).
  exists goal'. split; [exact Hans | exact Hdone].
Defined.

Lemma patch_goal_drops_zero_witness :
  getGoal "g1" sample_goals = Some sample_goal
  /\ (patch_goal sample_dates print_zero Number_isInteger (Some "bruce") "g1"
        zero_progress_body sample_clock sample_goals).1 = Json 200 touched_goal
  /\ ClientUpdateGoal.currentValue zero_progress_body = Some (lit 0)
  /\ Goal.currentValue touched_goal = Some "4".
Proof.
  assert (Hget : getGoal "g1" sample_goals = Some sample_goal) by reflexivity.
  assert (Hans : (patch_goal sample_dates print_zero Number_isInteger (Some "bruce")
                    "g1" zero_progress_body sample_clock sample_goals).1
                 = Json 200 touched_goal) by reflexivity.
  split; [exact Hget |]. split; [exact Hans |]. split; [reflexivity |].
  exact (proj2 (proj1 (patch_goal_drops_zero sample_dates print_zero
                         Number_isInteger (Some "bruce") "g1" zero_progress_body
                         sample_clock sample_goals sample_goal touched_goal
                         Hget Hans)
                  (lit 0) eq_refl eq_refl)).
Defined.

Lemma goal_routes_hide_other_users_witness :
  "selina" <> ""
  /\ (forall goal, getGoal "g1" sample_goals = Some goal -> Goal.userId goal <> "selina")
  /\ patch_goal sample_dates print_zero Number_isInteger (Some "selina") "g1"
       complete_goal_body sample_clock sample_goals
     = (Error 404 "Goal not found", sample_goals).
Proof.
  assert (Hu : "selina" <> "") by discriminate.
  assert (Hother : forall goal, getGoal "g1" sample_goals = Some goal ->
                                Goal.userId goal <> "selina")
    by (intros goal [= <-]; discriminate).
  split; [exact Hu |]. split; [exact Hother |].
  exact (proj1 (goal_routes_hide_other_users sample_dates print_zero
                  Number_isInteger "selina" "g1" complete_goal_body sample_clock
                  sample_goals Hu Hother)).
Defined.

Lemma delete_goal_removes_one_goal_witness :
  "bruce" <> ""
  /\ getGoal "g1" sample_goals = Some sample_goal
  /\ Goal.userId sample_goal = "bruce"
  /\ (delete_goal (Some "bruce") "g1" sample_goals).1 = NoContent 204
  /\ getGoal "g1" (delete_goal (Some "bruce") "g1" sample_goals).2 = None.
Proof.
  assert (Hu : "bruce" <> "") by discriminate.
  assert (Hget : getGoal "g1" sample_goals = Some sample_goal) by reflexivity.
  split; [exact Hu |]. split; [exact Hget |]. split; [reflexivity |].
  destruct (delete_goal_removes_one_goal "bruce" "g1" sample_goals sample_goal
              Hu Hget eq_refl) as (Hans & Hgone & _).
  split; [exact Hans | exact Hgone].
Defined.

Lemma get_goals_by_month_witness :
  "bruce" <> ""
  /\ get_goals (Some "bruce") (Some "november") (Some "2026") sample_goals
     = Json 200 []
  /\ get_goals (Some "bruce") (Some "11") None sample_goals
     = Json 200 (getGoals "bruce" sample_goals).
Proof.
  assert (Hu : "bruce" <> "") by discriminate.
  split; [exact Hu |]. split.
  - exact (proj2 (get_goals_by_month "bruce" (Some "november") (Some "2026")
                    sample_goals Hu) (or_introl eq_refl)).
  - exact (get_goals_by_month "bruce" (Some "11") None sample_goals Hu).
Defined.


Lemma get_goals_lists_owner_goals_witness :
  "bruce" <> ""
  /\ exists l,
       get_goals (Some "bruce") None None (GoalTableOf {[ "g1" := sample_goal ]})
       = Json 200 l
       /\ (sample_goal ∈ l
           <-> exists id,
                 getGoal id (GoalTableOf {[ "g1" := sample_goal ]}) = Some sample_goal
                 /\ Goal.userId sample_goal = "bruce").
Proof.
  assert (Hu : "bruce" <> "") by discriminate.
  split; [exact Hu |].
  exact (proj2 (get_goals_lists_owner_goals "bruce" sample_goal Hu)
           {[ "g1" := sample_goal ]}).
Defined.

Lemma post_goal_creates_witness :
  "bruce" <> ""
  /\ clientGoalSchema_parse Number_isInteger train_body = inr train_body
  /\ ClientGoal.deadline train_body <> ""
  /\ is_Some (sample_dates (ClientGoal.deadline train_body))
  /\ getGoal "g9" sample_goals = None
  /\ exists goal,
       (post_goal sample_dates print_zero Number_isInteger (Some "bruce") train_body
          "g9" 100 sample_goals).1 = Json 201 goal
       /\ Goal.userId goal = "bruce"
       /\ Goal.isCompleted goal = false.
Proof.
  assert (Hu : "bruce" <> "") by discriminate.
  assert (Hne : ClientGoal.deadline train_body <> "") by discriminate.
  assert (Hdate : is_Some (sample_dates (ClientGoal.deadline train_body)))
    by (by eexists).
  assert (Hparse : clientGoalSchema_parse Number_isInteger train_body
                   = inr train_body) by reflexivity.
  assert (Hfresh : getGoal "g9" sample_goals = None) by reflexivity.
  split; [exact Hu |]. split; [exact Hparse |]. split; [exact Hne |].
  split; [exact Hdate |]. split; [exact Hfresh |].
  destruct (post_goal_creates sample_dates print_zero Number_isInteger "bruce"
              train_body "g9" 100 sample_goals Hu Hparse Hne Hdate Hfresh)
    as (goal & Hans & _ & _ & _ & Huser & Hdone & _).
  exists goal. split; [exact Hans |]. split; [exact Huser | exact Hdone].
Defined.

Lemma post_goal_rejects_witness :
  "bruce" <> ""
  /\ SFleb (lit 0) (ClientGoal.targetValue negative_body) = false
  /\ exists details,
       post_goal sample_dates print_zero Number_isInteger (Some "bruce")
         negative_body "g9" 100 sample_goals
       = (ErrorDetails 400 "Invalid goal data" details, sample_goals).
Proof.
  assert (Hu : "bruce" <> "") by discriminate.
  split; [exact Hu |]. split; [reflexivity |].
  exact (post_goal_rejects sample_dates print_zero Number_isInteger "bruce"
           negative_body "g9" 100 sample_goals Hu (or_introl eq_refl)).
Defined.

Lemma storages_differ_on_goal_defaults_witness :
  (post_goal sample_dates print_zero Number_isInteger (Some "bruce") train_body
     "g9" 100 (MemGoalsOf [])).1
  = Json 201 (MemGoals.new_goal "g9" 100
                (InsertGoal.mk "bruce" "Train" None "fitness" None "0" (Some "0")
                   "workouts" 5000 (lit 12) (lit 2026) None))
  /\ (post_goal sample_dates print_zero Number_isInteger (Some "bruce") train_body
        "g9" 100 (GoalTableOf ∅)).1
     = Json 201 (DatabaseGoals.inserted_row "g9" 100
                   (InsertGoal.mk "bruce" "Train" None "fitness" None "0" (Some "0")
                      "workouts" 5000 (lit 12) (lit 2026) None))
  /\ Goal.priority
       (MemGoals.new_goal "g9" 100
          (InsertGoal.mk "bruce" "Train" None "fitness" None "0" (Some "0")
             "workouts" 5000 (lit 12) (lit 2026) None)) = None
  /\ Goal.priority
       (DatabaseGoals.inserted_row "g9" 100
          (InsertGoal.mk "bruce" "Train" None "fitness" None "0" (Some "0")
             "workouts" 5000 (lit 12) (lit 2026) None)) = Some "medium".
Proof.
  assert (Hdb : (post_goal sample_dates print_zero Number_isInteger (Some "bruce")
                   train_body "g9" 100 (GoalTableOf ∅)).1
                = Json 201 (DatabaseGoals.inserted_row "g9" 100
                              (InsertGoal.mk "bruce" "Train" None "fitness" None "0"
                                 (Some "0") "workouts" 5000 (lit 12) (lit 2026) None))).
  { unfold post_goal. cbn [session_user].
    change (clientGoalSchema_parse Number_isInteger train_body)
      with (inr train_body : list string + ClientGoal.t).
    change (to_insert_goal sample_dates print_zero "bruce" train_body)
      with (inr (InsertGoal.mk "bruce" "Train" None "fitness" None "0" (Some "0")
                   "workouts" 5000 (lit 12) (lit 2026) None)
            : list string + InsertGoal.t).
    cbn [createGoal Database_IGoalStorage goal_table].
    unfold DatabaseGoals.createGoal, DatabaseGoals.insert_returning.
    by rewrite lookup_empty. }
  split; [reflexivity |]. split; [exact Hdb |].
  destruct (storages_differ_on_goal_defaults sample_dates print_zero
              Number_isInteger (Some "bruce") train_body "g9" 100 [] ∅ _ _
              eq_refl Hdb) as (Hm & Hd & _).
  split; [exact Hm | exact Hd].
Defined.
